(** * jetaasc-events: the two heat-map scripts

    A shallow embedding of [scripts/generate_jet_placement_heatmap.py] and
    [scripts/generate_residence_heatmap.py]: the static tables, the prefecture
    normaliser, the address parser, the coordinate lookup and the counting
    loops of both [main] functions, followed by the properties of the
    specification that concern them.

    Conventions of the embedding.
    - A Python [str] is a [string]; the character tests ([str.strip], [\s],
      [\d], [\b], [str.upper], [str.lower]) are the ones Python applies to the
      ASCII range, the range every table key and pattern of the scripts lives
      in.  Non-ASCII text (two display names, the alias keys) is carried as
      its UTF-8 bytes, which equality and containment tests see faithfully;
      those bytes are caseless and belong to no character class here.
      Python itself knows white space, digits and cased letters beyond ASCII
      (the no-break space, the full-width digits); the properties of the
      address parser that are worded with these classes are therefore stated
      for addresses of ASCII characters ([isascii]).
    - A Python [int] is a [Z].
    - The coordinates are decimal literals with four fractional digits; a
      coordinate is the [Z] obtained by scaling the literal by 10^4, so that
      [34.0522] is [340522].  Two such literals denote the same float exactly
      when the scaled integers agree, which is all the scripts ask of them
      (they are dictionary keys and are never computed with).
    - A [dict] is an association list in insertion order, the order Python
      iterates in; [None] is [option]'s [None]. *)

From Stdlib Require Import List String Ascii ZArith Bool Arith Lia.
From Stdlib Require Import Permutation Sorted.
Import ListNotations.

Set Implicit Arguments.

(** ** Python values *)

Module Py.

Local Open Scope string_scope.

(** Exceptions the modelled code can raise. *)
Inductive exn : Type := ZeroDivisionError | IndexError.

Inductive result (A : Type) : Type :=
| Ok (a : A)
| Raise (e : exn).
Arguments Ok {A} a.
Arguments Raise {A} e.

Definition bind {A B : Type} (r : result A) (k : A -> result B) : result B :=
  match r with
  | Ok a => k a
  | Raise e => Raise e
  end.

(** [a // b] on integers. *)
Definition floordiv (a b : Z) : result Z :=
  if (b =? 0)%Z then Raise ZeroDivisionError else Ok (a / b)%Z.

(** *** Characters *)

Definition code (c : ascii) : nat := nat_of_ascii c.

Definition between (lo hi : nat) (c : ascii) : bool :=
  (lo <=? code c)%nat && (code c <=? hi)%nat.

(** [str.isspace] and the pattern [\s]: tab to carriage return, the four
    information separators, and the space. *)
Definition isspace (c : ascii) : bool :=
  between 9 13 c || between 28 31 c || (code c =? 32)%nat.

(** The pattern [\d]. *)
Definition isdigit (c : ascii) : bool := between 48 57 c.

Definition isupper (c : ascii) : bool := between 65 90 c.
Definition islower (c : ascii) : bool := between 97 122 c.

(** The pattern [\w]: letters, digits and the underscore. *)
Definition isword (c : ascii) : bool :=
  isupper c || islower c || isdigit c || (code c =? 95)%nat.

Definition upper_char (c : ascii) : ascii :=
  if islower c then ascii_of_nat (code c - 32) else c.

Definition lower_char (c : ascii) : ascii :=
  if isupper c then ascii_of_nat (code c + 32) else c.

(** *** Strings *)

Fixpoint smap (f : ascii -> ascii) (s : string) : string :=
  match s with
  | EmptyString => EmptyString
  | String c s' => String (f c) (smap f s')
  end.

Definition upper (s : string) : string := smap upper_char s.
Definition lower (s : string) : string := smap lower_char s.

Fixpoint lstrip (p : ascii -> bool) (s : string) : string :=
  match s with
  | EmptyString => EmptyString
  | String c s' => if p c then lstrip p s' else s
  end.

Fixpoint rstrip (p : ascii -> bool) (s : string) : string :=
  match s with
  | EmptyString => EmptyString
  | String c s' =>
      match rstrip p s' with
      | EmptyString => if p c then EmptyString else String c EmptyString
      | r => String c r
      end
  end.

(** [s.strip()] *)
Definition strip (s : string) : string := rstrip isspace (lstrip isspace s).

(** [s.strip(chars)] for a one-character [chars]. *)
Definition strip_char (c : ascii) (s : string) : string :=
  rstrip (Ascii.eqb c) (lstrip (Ascii.eqb c) s).

(** [x in s] on strings. *)
Fixpoint contains (x s : string) : bool :=
  if prefix x s then true
  else match s with
       | EmptyString => false
       | String _ s' => contains x s'
       end.

(** [s[:n]] *)
Definition take (n : nat) (s : string) : string := substring 0 n s.

(** [s[n:]] *)
Fixpoint drop (n : nat) (s : string) : string :=
  match n, s with
  | O, _ => s
  | S n', EmptyString => EmptyString
  | S n', String _ s' => drop n' s'
  end.

(** [s[i:j]] for [i <= j]. *)
Definition slice (i j : nat) (s : string) : string := substring i (j - i) s.

(** Number of leading characters of [s] that satisfy [f]. *)
Fixpoint run (f : ascii -> bool) (s : string) : nat :=
  match s with
  | EmptyString => O
  | String a s' => if f a then S (run f s') else O
  end.

(** Every character of [s] satisfies [f]. *)
Fixpoint all_chars (f : ascii -> bool) (s : string) : bool :=
  match s with
  | EmptyString => true
  | String a s' => f a && all_chars f s'
  end.

(** Truth value of an optional string: [None] and [''] are false. *)
Definition truthy (o : option string) : bool :=
  match o with
  | None => false
  | Some s => negb (s =? "")
  end.

(** *** Dictionaries, in insertion order *)

Definition dict (K V : Type) : Type := list (K * V).

Section Dict.
Variables K V : Type.
Variable eqb : K -> K -> bool.

Fixpoint get (k : K) (d : dict K V) : option V :=
  match d with
  | [] => None
  | (k', v) :: d' => if eqb k k' then Some v else get k d'
  end.

(** [k in d] *)
Definition mem (k : K) (d : dict K V) : bool :=
  match get k d with Some _ => true | None => false end.

(** [d[k] = v]: an existing key keeps its place, a new one goes last. *)
Fixpoint setitem (k : K) (v : V) (d : dict K V) : dict K V :=
  match d with
  | [] => [(k, v)]
  | (k', v') :: d' =>
      if eqb k k' then (k', v) :: d' else (k', v') :: setitem k v d'
  end.

Definition keys (d : dict K V) : list K := map fst d.
Definition values (d : dict K V) : list V := map snd d.
End Dict.

End Py.

(** ** The fragment of [re] the scripts use

    The three patterns of [parse_address] are sequences of: the word boundary
    [\b], a character class repeated a fixed number of times or one or more
    times (greedy [+] or lazy [+?]), a literal text, and one capturing group.
    [re.search] tries the start positions from left to right and, at each, the
    alternatives of the repetitions in their priority order; the matcher
    below lists the end states in that order, so the head of the list is the
    match a backtracking search finds first. *)

Module Re.

Import Py.

(** Members of a character class. *)
Inductive cls : Type :=
| Digit                      (* \d *)
| Space                      (* \s *)
| Range (lo hi : ascii)      (* lo-hi inside brackets *)
| Char (c : ascii)           (* one character *)
| Union (a b : cls).         (* several members inside brackets *)

Inductive item : Type :=
| Bound                      (* \b *)
| Open                       (* ( of the capturing group *)
| Close                      (* ) of the capturing group *)
| Rep (c : cls) (n : nat)    (* c{n} *)
| Plus (c : cls)             (* c+ *)
| PlusLazy (c : cls)         (* c+? *)
| Lit (s : string).          (* literal text *)

Definition pattern : Type := list item.

Fixpoint in_cls (c : cls) (a : ascii) : bool :=
  match c with
  | Digit => isdigit a
  | Space => isspace a
  | Range lo hi => between (code lo) (code hi) a
  | Char x => Ascii.eqb x a
  | Union x y => in_cls x a || in_cls y a
  end.

(** Class membership under the flags: with [re.IGNORECASE] a character
    belongs to a class when one of its two cases does. *)
Definition in_cls_flags (icase : bool) (c : cls) (a : ascii) : bool :=
  in_cls c a || (icase && (in_cls c (upper_char a) || in_cls c (lower_char a))).

(** Equality of texts under the flags. *)
Definition text_eqb (icase : bool) (x y : string) : bool :=
  if icase then String.eqb (lower x) (lower y) else String.eqb x y.

(** A position in the subject, with the span of the group. *)
Record mstate : Type := MState { pos : nat; gopen : nat; gclose : nat }.

Definition at_pos (p : nat) (m : mstate) : mstate :=
  MState p (gopen m) (gclose m).

Definition word_at (s : string) (p : nat) : bool :=
  match String.get p s with
  | Some a => isword a
  | None => false
  end.

(** [\b] holds at [p] when exactly one of the characters around [p] is a
    word character; outside the subject there is none. *)
Definition boundary (s : string) (p : nat) : bool :=
  xorb (match p with O => false | S q => word_at s q end) (word_at s p).

(** The states one item can lead to from [m], best first. *)
Definition step (icase : bool) (s : string) (it : item) (m : mstate)
  : list mstate :=
  match it with
  | Bound => if boundary s (pos m) then [m] else []
  | Open => [MState (pos m) (pos m) (gclose m)]
  | Close => [MState (pos m) (gopen m) (pos m)]
  | Rep c n =>
      let t := substring (pos m) n s in
      if (String.length t =? n)%nat && all_chars (in_cls_flags icase c) t
      then [at_pos (pos m + n) m] else []
  | Plus c =>
      let k := run (in_cls_flags icase c) (drop (pos m) s) in
      map (fun j => at_pos (pos m + j) m) (rev (seq 1 k))
  | PlusLazy c =>
      let k := run (in_cls_flags icase c) (drop (pos m) s) in
      map (fun j => at_pos (pos m + j) m) (seq 1 k)
  | Lit t =>
      let u := substring (pos m) (String.length t) s in
      if (String.length u =? String.length t)%nat && text_eqb icase t u
      then [at_pos (pos m + String.length t) m] else []
  end.

Fixpoint match_at (icase : bool) (s : string) (p : pattern) (m : mstate)
  : list mstate :=
  match p with
  | [] => [m]
  | it :: p' => flat_map (match_at icase s p') (step icase s it m)
  end.

(** First [Some] of [f] over a list. *)
Fixpoint first_some {A B : Type} (f : A -> option B) (l : list A) : option B :=
  match l with
  | [] => None
  | a :: l' => match f a with
               | Some b => Some b
               | None => first_some f l'
               end
  end.

(** [re.search(p, s)]: the match object, or [None]. *)
Definition search (icase : bool) (p : pattern) (s : string) : option mstate :=
  first_some (fun i => hd_error (match_at icase s p (MState i 0 0)))
             (seq 0 (S (String.length s))).

(** [m.group(1)] *)
Definition group1 (s : string) (m : mstate) : string :=
  slice (gopen m) (gclose m) s.

End Re.

(** ** The aggregation structures both scripts build *)

Module Agg.

Import Py.
Local Open Scope Z_scope.

(** A table entry [(lat, lng, area_name)]. *)
Definition region : Type := (Z * Z * string)%type.

(** The key of [locations]: the pair [(lat, lng)]. *)
Definition coord : Type := (Z * Z)%type.

Definition coord_eqb (a b : coord) : bool :=
  (fst a =? fst b) && (snd a =? snd b).

(** The value of [locations]: [{'count': n, 'name': .., 'lat': .., 'lng': ..}]. *)
Record bucket : Type :=
  Bucket { count : Z; name : string; lat : Z; lng : Z }.

Definition locations_t : Type := dict coord bucket.

(** The body shared by both loops once an entry [(lat, lng, name)] is at hand:
<<
    key = (lat, lng)
    if key not in locations:
        locations[key] = {'count': 0, 'name': name, 'lat': lat, 'lng': lng}
    locations[key]['count'] += 1
>> *)
Definition add_location (r : region) (locations : locations_t) : locations_t :=
  let '(lat, lng, name) := r in
  let key := (lat, lng) in
  let locations :=
    if negb (mem coord_eqb key locations)
    then setitem coord_eqb key (Bucket 0 name lat lng) locations
    else locations in
  match get coord_eqb key locations with
  | Some b =>
      setitem coord_eqb key (Bucket (count b + 1) (Agg.name b) (Agg.lat b) (Agg.lng b))
              locations
  | None => locations
  end.

(** [collections.Counter] over strings. *)
Definition Counter : Type := dict string Z.

(** [c[k]]: a missing key counts 0. *)
Definition counter_get (k : string) (c : Counter) : Z :=
  match get String.eqb k c with
  | Some n => n
  | None => 0
  end.

(** [c[k] += 1] *)
Definition counter_incr (k : string) (c : Counter) : Counter :=
  setitem String.eqb k (counter_get k c + 1) c.

(** [sorted(items, key=itemgetter(1), reverse=True)]: Python's sort is
    stable, also under [reverse=True], so equal counts keep the order of
    [items].  Written as the insertion of each item before the first later
    one that does not have a greater count. *)
Fixpoint insert_desc (x : string * Z) (l : list (string * Z)) : list (string * Z) :=
  match l with
  | [] => [x]
  | y :: l' => if snd x <? snd y then y :: insert_desc x l' else x :: y :: l'
  end.

Definition sorted_desc (items : list (string * Z)) : list (string * Z) :=
  fold_right insert_desc [] items.

(** [c.most_common(n)]: [heapq.nlargest(n, c.items(), key=itemgetter(1))],
    documented as [sorted(c.items(), key=itemgetter(1), reverse=True)[:n]]. *)
Definition most_common (n : nat) (c : Counter) : list (string * Z) :=
  firstn n (sorted_desc c).

(** A row of [csv.DictReader]: field name to text, [None] for a field the
    line is too short to fill. *)
Definition row : Type := dict string (option string).

(** [row.get(field, '')] *)
Definition row_get (field : string) (r : row) : option string :=
  match get String.eqb field r with
  | Some v => v
  | None => Some EmptyString
  end.

End Agg.

(** ** [scripts/generate_jet_placement_heatmap.py] *)

Module Jet.

Import Py Agg.
Local Open Scope string_scope.
Local Open Scope Z_scope.

(** Japanese prefecture coordinates (capital cities). *)
Definition PREFECTURE_COORDS : dict string region :=
  [ ("Hokkaido", (430642, 1413469, "Hokkaido"));
    ("Aomori", (408244, 1407400, "Aomori"));
    ("Iwate", (397036, 1411527, "Iwate"));
    ("Miyagi", (382688, 1408721, "Miyagi"));
    ("Akita", (397186, 1401024, "Akita"));
    ("Yamagata", (382404, 1403633, "Yamagata"));
    ("Fukushima", (377500, 1404678, "Fukushima"));
    ("Ibaraki", (363418, 1404468, "Ibaraki"));
    ("Tochigi", (365658, 1398836, "Tochigi"));
    ("Gunma", (363912, 1390608, "Gunma"));
    ("Saitama", (358617, 1396455, "Saitama"));
    ("Chiba", (356050, 1401233, "Chiba"));
    ("Tokyo", (356762, 1396503, "Tokyo"));
    ("Kanagawa", (354478, 1396425, "Kanagawa"));
    ("Niigata", (379026, 1390236, "Niigata"));
    ("Toyama", (366953, 1372113, "Toyama"));
    ("Ishikawa", (365947, 1366256, "Ishikawa"));
    ("Fukui", (360652, 1362216, "Fukui"));
    ("Yamanashi", (356642, 1385684, "Yamanashi"));
    ("Nagano", (366513, 1381810, "Nagano"));
    ("Gifu", (353912, 1367223, "Gifu"));
    ("Shizuoka", (349769, 1383831, "Shizuoka"));
    ("Aichi", (351802, 1369066, "Aichi"));
    ("Mie", (347303, 1365086, "Mie"));
    ("Shiga", (350045, 1358686, "Shiga"));
    ("Kyoto", (350116, 1357681, "Kyoto"));
    ("Osaka", (346937, 1355023, "Osaka"));
    ("Hyogo", (346913, 1351830, "Hyogo"));
    ("Nara", (346851, 1358329, "Nara"));
    ("Wakayama", (342260, 1351675, "Wakayama"));
    ("Tottori", (355039, 1342381, "Tottori"));
    ("Shimane", (354723, 1330505, "Shimane"));
    ("Okayama", (346618, 1339344, "Okayama"));
    ("Hiroshima", (343853, 1324553, "Hiroshima"));
    ("Yamaguchi", (341859, 1314714, "Yamaguchi"));
    ("Tokushima", (340658, 1345593, "Tokushima"));
    ("Kagawa", (343401, 1340434, "Kagawa"));
    ("Ehime", (338416, 1327657, "Ehime"));
    ("Kochi", (335597, 1335311, "Kochi"));
    ("Fukuoka", (335904, 1304017, "Fukuoka"));
    ("Saga", (332494, 1302988, "Saga"));
    ("Nagasaki", (327448, 1298737, "Nagasaki"));
    ("Kumamoto", (327898, 1307417, "Kumamoto"));
    ("Oita", (332382, 1316126, "Oita"));
    ("Miyazaki", (319077, 1314202, "Miyazaki"));
    ("Kagoshima", (315602, 1305581, "Kagoshima"));
    ("Okinawa", (262124, 1276809, "Okinawa")) ].

(** Alternate spellings/formats. *)
Definition PREFECTURE_ALIASES : dict string string :=
  [ ("Tokyo Metropolitan Government東京都", "Tokyo");
    ("Hyogo Pref.兵庫県", "Hyogo");
    ("Oita Pref.大分県", "Oita");
    ("Yamanashi Pref.山梨県", "Yamanashi");
    ("Osaka Pref.大阪府", "Osaka");
    ("Fukuoka Pref.福岡県", "Fukuoka");
    ("Nagano Pref.長野県", "Nagano");
    ("Aichi Pref.愛知県", "Aichi");
    ("Kyoto Pref.京都府", "Kyoto");
    ("Saitama Pref.埼玉県", "Saitama");
    ("Chiba Pref.千葉県", "Chiba");
    ("Kanagawa Pref.神奈川県", "Kanagawa") ].

(** The double quote character (code 34), the argument of the second [strip]. *)
Definition dquote : ascii := ascii_of_nat 34.

(** The test of the loop over [PREFECTURE_COORDS.keys()]:
    [known.lower() in pref.lower() or pref.lower() in known.lower()]. *)
Definition loose_match (pref known : string) : bool :=
  contains (lower known) (lower pref) || contains (lower pref) (lower known).

(** Normalize prefecture name. *)
Definition normalize_prefecture (pref : option string) : option string :=
  match pref with
  | None => None
  | Some pref =>
      if (pref =? "")%string || (strip pref =? "")%string || (pref =? "N/A")%string
      then None
      else
        let pref := strip_char dquote (strip pref) in
        (* Check aliases first *)
        match get String.eqb pref PREFECTURE_ALIASES with
        | Some canonical => Some canonical
        | None =>
            (* Check if it's a known prefecture *)
            find (loose_match pref) (keys PREFECTURE_COORDS)
        end
  end.

(** The variables of [main]'s loop. *)
Record state : Type :=
  State { prefectures : Counter; locations : locations_t; total : Z; mapped : Z }.

Definition init : state := State [] [] 0 0.

(** One iteration of [for row in reader]. *)
Definition loop_body (st : state) (r : row) : state :=
  let total := total st + 1 in
  let pref_raw := row_get "JET Prefecture" r in
  match normalize_prefecture pref_raw with
  | Some pref =>
      if truthy (Some pref) && mem String.eqb pref PREFECTURE_COORDS then
        match get String.eqb pref PREFECTURE_COORDS with
        | Some entry =>
            State (counter_incr pref (prefectures st))
                  (add_location entry (locations st))
                  total (mapped st + 1)
        | None => State (prefectures st) (locations st) total (mapped st)
        end
      else State (prefectures st) (locations st) total (mapped st)
  | None => State (prefectures st) (locations st) total (mapped st)
  end.

Definition loop (rows : list row) : state := fold_left loop_body rows init.

(** What [generate_html] hands to the page template. *)
Record page : Type :=
  Page { loc_data : list bucket;
         pref_data : list (string * Z);
         page_total : Z;
         page_mapped : Z;
         page_prefectures : nat;
         page_top : string }.

(** The template is an f-string whose expressions are all evaluated before
    anything is written; [prefectures.most_common(1)[0][0]] in the fourth
    stat box raises [IndexError] on an empty counter. *)
Definition generate_html (prefectures : Counter) (locations : locations_t)
  (total mapped : Z) : result page :=
  let loc_data := values locations in
  let pref_data := most_common 15 prefectures in
  match most_common 1 prefectures with
  | [] => Raise IndexError
  | top :: _ =>
      Ok (Page loc_data pref_data total mapped (List.length prefectures) (fst top))
  end.

(** [main] after the file is read: the summary lines are printed (the second
    one divides by [total]), then the page is generated. *)
Definition main (rows : list row) : result page :=
  let st := loop rows in
  bind (floordiv (mapped st * 100) (total st)) (fun _percent =>
  generate_html (prefectures st) (locations st) (total st) (mapped st)).

End Jet.

(** ** [scripts/generate_residence_heatmap.py] *)

Module Residence.

Import Py Agg.
Local Open Scope string_scope.
Local Open Scope Z_scope.

(** US state abbreviations. *)
Definition STATE_ABBREV : dict string string :=
  [ ("AL", "Alabama"); ("AK", "Alaska"); ("AZ", "Arizona");
    ("AR", "Arkansas"); ("CA", "California"); ("CO", "Colorado");
    ("CT", "Connecticut"); ("DE", "Delaware"); ("FL", "Florida");
    ("GA", "Georgia"); ("HI", "Hawaii"); ("ID", "Idaho");
    ("IL", "Illinois"); ("IN", "Indiana"); ("IA", "Iowa");
    ("KS", "Kansas"); ("KY", "Kentucky"); ("LA", "Louisiana");
    ("ME", "Maine"); ("MD", "Maryland"); ("MA", "Massachusetts");
    ("MI", "Michigan"); ("MN", "Minnesota"); ("MS", "Mississippi");
    ("MO", "Missouri"); ("MT", "Montana"); ("NE", "Nebraska");
    ("NV", "Nevada"); ("NH", "New Hampshire"); ("NJ", "New Jersey");
    ("NM", "New Mexico"); ("NY", "New York"); ("NC", "North Carolina");
    ("ND", "North Dakota"); ("OH", "Ohio"); ("OK", "Oklahoma");
    ("OR", "Oregon"); ("PA", "Pennsylvania"); ("RI", "Rhode Island");
    ("SC", "South Carolina"); ("SD", "South Dakota"); ("TN", "Tennessee");
    ("TX", "Texas"); ("UT", "Utah"); ("VT", "Vermont");
    ("VA", "Virginia"); ("WA", "Washington"); ("WV", "West Virginia");
    ("WI", "Wisconsin"); ("WY", "Wyoming"); ("DC", "District of Columbia") ].

(** Approximate coordinates for CA zip code prefixes (first 3 digits) and
    other areas; format: prefix -> (lat, lng, area_name).  The 5-character
    keys are the specific zips. *)
Definition ZIP_COORDS : dict string region :=
  [ ("900", (340522, (-1182437), "Downtown LA"));
    ("901", (339425, (-1182551), "Inglewood/South LA"));
    ("902", (338153, (-1183518), "Torrance/South Bay"));
    ("903", (338958, (-1182201), "Compton/Lynwood"));
    ("904", (339017, (-1180818), "Cerritos/Norwalk"));
    ("905", (337701, (-1181937), "Long Beach"));
    ("906", (337879, (-1181489), "Long Beach East"));
    ("907", (337975, (-1183223), "San Pedro/Harbor"));
    ("908", (337959, (-1181052), "Lakewood/Hawaiian Gardens"));
    ("910", (341808, (-1183090), "Glendale/Burbank"));
    ("911", (341425, (-1182551), "Glendale/Eagle Rock"));
    ("912", (341478, (-1181445), "Pasadena"));
    ("913", (341064, (-1180415), "Arcadia/Monrovia"));
    ("914", (340689, (-1179391), "San Dimas/La Verne"));
    ("915", (340966, (-1177198), "Pomona/Claremont"));
    ("916", (340195, (-1181517), "Alhambra/Monterey Park"));
    ("917", (340633, (-1182275), "East LA/City Terrace"));
    ("918", (340901, (-1178903), "West Covina/Covina"));
    ("919", (341478, (-1178648), "Azusa/Glendora"));
    ("920", (327157, (-1171611), "San Diego Central"));
    ("921", (328328, (-1171713), "San Diego North"));
    ("922", (331959, (-1173795), "Oceanside/Carlsbad"));
    ("923", (330114, (-1170917), "Escondido/San Marcos"));
    ("924", (326401, (-1170842), "Chula Vista/National City"));
    ("925", (327940, (-1169625), "El Cajon/La Mesa"));
    ("926", (336846, (-1178265), "Irvine/Lake Forest"));
    ("927", (337175, (-1178311), "Santa Ana/Orange"));
    ("928", (338366, (-1179143), "Anaheim/Fullerton"));
    ("930", (349530, (-1204357), "Santa Maria"));
    ("931", (344208, (-1196982), "Santa Barbara"));
    ("932", (353733, (-1190187), "Bakersfield"));
    ("933", (353733, (-1190187), "Bakersfield"));
    ("934", (367378, (-1197871), "Fresno"));
    ("935", (367378, (-1197871), "Fresno"));
    ("936", (367378, (-1197871), "Fresno"));
    ("937", (366002, (-1218947), "Monterey/Salinas"));
    ("939", (373382, (-1218863), "San Jose"));
    ("940", (377749, (-1224194), "San Francisco"));
    ("941", (377749, (-1224194), "San Francisco"));
    ("942", (378044, (-1222712), "Oakland"));
    ("943", (375485, (-1220590), "Fremont/Hayward"));
    ("944", (378716, (-1222727), "Berkeley"));
    ("945", (378044, (-1222712), "Oakland"));
    ("946", (379577, (-1223470), "Richmond/El Cerrito"));
    ("947", (379577, (-1223470), "Contra Costa"));
    ("948", (379577, (-1223470), "Contra Costa"));
    ("949", (379735, (-1225311), "Marin County"));
    ("950", (373382, (-1218863), "San Jose"));
    ("951", (339533, (-1173962), "Riverside"));
    ("952", (339533, (-1173962), "Riverside"));
    ("953", (340922, (-1174350), "San Bernardino"));
    ("954", (345362, (-1172928), "Victorville/High Desert"));
    ("955", (405865, (-1223917), "Redding"));
    ("956", (385816, (-1214944), "Sacramento"));
    ("957", (385816, (-1214944), "Sacramento"));
    ("958", (385816, (-1214944), "Sacramento"));
    ("959", (385816, (-1214944), "Sacramento"));
    ("960", (408021, (-1241637), "Eureka"));
    ("90004", (340764, (-1183090), "Los Feliz"));
    ("90005", (340594, (-1183011), "Koreatown"));
    ("90006", (340478, (-1182946), "Pico-Union"));
    ("90007", (340259, (-1182838), "USC/South LA"));
    ("90008", (340106, (-1183401), "Baldwin Hills"));
    ("90010", (340620, (-1183152), "Mid-Wilshire"));
    ("90012", (340622, (-1182406), "Chinatown/Civic Center"));
    ("90013", (340407, (-1182468), "Downtown LA"));
    ("90014", (340407, (-1182533), "Fashion District"));
    ("90015", (340370, (-1182654), "South Park"));
    ("90016", (340281, (-1183520), "West Adams"));
    ("90017", (340522, (-1182602), "Downtown West"));
    ("90018", (340281, (-1183178), "Jefferson Park"));
    ("90019", (340478, (-1183401), "Mid-City"));
    ("90020", (340667, (-1183090), "Koreatown North"));
    ("90024", (340633, (-1184298), "Westwood"));
    ("90025", (340411, (-1184476), "West LA"));
    ("90026", (340781, (-1182606), "Echo Park"));
    ("90027", (341017, (-1182937), "Los Feliz/Griffith"));
    ("90028", (341017, (-1183287), "Hollywood"));
    ("90029", (340900, (-1182937), "Thai Town"));
    ("90031", (340781, (-1182106), "Lincoln Heights"));
    ("90032", (340781, (-1181756), "El Sereno"));
    ("90033", (340481, (-1182106), "Boyle Heights"));
    ("90034", (340281, (-1183970), "Palms/Cheviot Hills"));
    ("90035", (340533, (-1183720), "Miracle Mile"));
    ("90036", (340700, (-1183520), "Park La Brea"));
    ("90038", (340900, (-1183287), "Hollywood"));
    ("90039", (341117, (-1182606), "Silver Lake"));
    ("90041", (341367, (-1182106), "Eagle Rock"));
    ("90042", (341117, (-1181906), "Highland Park"));
    ("90043", (339906, (-1183401), "View Park"));
    ("90044", (339531, (-1182901), "Athens"));
    ("90045", (339581, (-1183970), "Westchester"));
    ("90046", (341117, (-1183670), "West Hollywood"));
    ("90047", (339531, (-1183178), "South LA"));
    ("90048", (340750, (-1183720), "Beverly Grove"));
    ("90049", (340781, (-1184726), "Brentwood"));
    ("90056", (339906, (-1183720), "Ladera Heights"));
    ("90057", (340594, (-1182751), "Westlake"));
    ("90058", (339906, (-1182106), "Vernon"));
    ("90059", (339281, (-1182456), "Watts"));
    ("90061", (339206, (-1182751), "South LA"));
    ("90062", (340031, (-1183090), "South LA"));
    ("90063", (340481, (-1181856), "East LA"));
    ("90064", (340281, (-1184226), "Rancho Park"));
    ("90065", (341117, (-1182256), "Cypress Park"));
    ("90066", (340031, (-1184326), "Mar Vista"));
    ("90067", (340533, (-1184126), "Century City"));
    ("90068", (341267, (-1183287), "Hollywood Hills"));
    ("90069", (340900, (-1183820), "West Hollywood"));
    ("90071", (340522, (-1182537), "DTLA Financial"));
    ("90077", (341017, (-1184476), "Bel Air"));
    ("90094", (339781, (-1184476), "Playa Vista"));
    ("90210", (340901, (-1184065), "Beverly Hills"));
    ("90211", (340656, (-1183865), "Beverly Hills"));
    ("90212", (340578, (-1184015), "Beverly Hills"));
    ("90230", (340028, (-1183920), "Culver City"));
    ("90232", (340203, (-1183970), "Culver City"));
    ("90247", (338911, (-1182901), "Gardena"));
    ("90248", (338786, (-1183070), "Gardena"));
    ("90249", (339036, (-1183178), "Gardena"));
    ("90250", (339161, (-1183520), "Hawthorne"));
    ("90260", (338911, (-1183520), "Lawndale"));
    ("90266", (338836, (-1184076), "Manhattan Beach"));
    ("90274", (337578, (-1183870), "Palos Verdes"));
    ("90275", (337453, (-1183620), "Rancho Palos Verdes"));
    ("90277", (338286, (-1183870), "Redondo Beach"));
    ("90278", (338661, (-1183770), "Redondo Beach"));
    ("90291", (339956, (-1184726), "Venice"));
    ("90292", (339706, (-1184526), "Marina del Rey"));
    ("90293", (339581, (-1184576), "Playa del Rey"));
    ("90301", (339506, (-1183520), "Inglewood"));
    ("90302", (339631, (-1183401), "Inglewood"));
    ("90303", (339381, (-1183287), "Inglewood"));
    ("90304", (339256, (-1183620), "Lennox"));
    ("90401", (340195, (-1184916), "Santa Monica"));
    ("90402", (340370, (-1185016), "Santa Monica"));
    ("90403", (340295, (-1184866), "Santa Monica"));
    ("90404", (340295, (-1184716), "Santa Monica"));
    ("90405", (340045, (-1184766), "Santa Monica"));
    ("90501", (338286, (-1183070), "Torrance"));
    ("90502", (338411, (-1182951), "Torrance"));
    ("90503", (338411, (-1183401), "Torrance"));
    ("90504", (338661, (-1183287), "Torrance"));
    ("90505", (338161, (-1183520), "Torrance"));
    ("90601", (339756, (-1180567), "Whittier"));
    ("90602", (339631, (-1180317), "Whittier"));
    ("90603", (339381, (-1179967), "Whittier"));
    ("90604", (339256, (-1180067), "Whittier"));
    ("90605", (339381, (-1180317), "Whittier"));
    ("90606", (339756, (-1180967), "Whittier"));
    ("90620", (338536, (-1180117), "Buena Park"));
    ("90621", (338786, (-1179967), "Buena Park"));
    ("90630", (338036, (-1180617), "Cypress"));
    ("90631", (339131, (-1179517), "La Habra"));
    ("90638", (338911, (-1180517), "La Mirada"));
    ("90640", (340031, (-1181006), "Montebello"));
    ("90650", (339131, (-1180817), "Norwalk"));
    ("90660", (339881, (-1180667), "Pico Rivera"));
    ("90670", (338661, (-1180817), "Santa Fe Springs"));
    ("90680", (337786, (-1179817), "Stanton"));
    ("90701", (338661, (-1180567), "Artesia"));
    ("90703", (338661, (-1180317), "Cerritos"));
    ("90706", (338911, (-1181317), "Bellflower"));
    ("90710", (337911, (-1182651), "Harbor City"));
    ("90712", (338536, (-1181417), "Lakewood"));
    ("90713", (338411, (-1181167), "Lakewood"));
    ("90715", (338411, (-1180717), "Lakewood"));
    ("90716", (338286, (-1180567), "Hawaiian Gardens"));
    ("90717", (338036, (-1182901), "Lomita"));
    ("90720", (337911, (-1180767), "Los Alamitos"));
    ("90731", (337411, (-1182801), "San Pedro"));
    ("90732", (337536, (-1183120), "San Pedro"));
    ("90740", (337536, (-1180767), "Seal Beach"));
    ("90744", (337911, (-1182651), "Wilmington"));
    ("90745", (338161, (-1182651), "Carson"));
    ("90746", (338536, (-1182551), "Carson"));
    ("90802", (337661, (-1181867), "Long Beach Downtown"));
    ("90803", (337536, (-1181367), "Long Beach Belmont"));
    ("90804", (337786, (-1181517), "Long Beach"));
    ("90805", (338661, (-1181867), "Long Beach North"));
    ("90806", (337911, (-1181867), "Long Beach"));
    ("90807", (338286, (-1181867), "Long Beach"));
    ("90808", (338286, (-1181117), "Long Beach East"));
    ("90810", (338161, (-1182201), "Long Beach West"));
    ("90813", (337786, (-1181817), "Long Beach"));
    ("90814", (337661, (-1181517), "Long Beach Belmont"));
    ("90815", (337911, (-1181117), "Long Beach"));
    ("91001", (342017, (-1181306), "Altadena"));
    ("91006", (341367, (-1180256), "Arcadia"));
    ("91007", (341242, (-1180456), "Arcadia"));
    ("91010", (341367, (-1179556), "Duarte"));
    ("91011", (342142, (-1182006), "La Cañada"));
    ("91016", (341617, (-1179956), "Monrovia"));
    ("91020", (342267, (-1182406), "Montrose"));
    ("91024", (341742, (-1180556), "Sierra Madre"));
    ("91030", (341117, (-1181556), "South Pasadena"));
    ("91040", (342517, (-1182906), "Sunland"));
    ("91042", (342642, (-1182256), "Tujunga"));
    ("91101", (341478, (-1181445), "Pasadena"));
    ("91103", (341728, (-1181545), "Pasadena"));
    ("91104", (341603, (-1181245), "Pasadena"));
    ("91105", (341353, (-1181595), "Pasadena"));
    ("91106", (341353, (-1181245), "Pasadena"));
    ("91107", (341478, (-1180795), "Pasadena"));
    ("91108", (341228, (-1180995), "San Marino"));
    ("91201", (341617, (-1182906), "Glendale"));
    ("91202", (341617, (-1182656), "Glendale"));
    ("91203", (341492, (-1182556), "Glendale"));
    ("91204", (341367, (-1182556), "Glendale"));
    ("91205", (341367, (-1182306), "Glendale"));
    ("91206", (341617, (-1182206), "Glendale"));
    ("91207", (341867, (-1182606), "Glendale"));
    ("91208", (341992, (-1182306), "Glendale"));
    ("91214", (342267, (-1182556), "La Crescenta"));
    ("91301", (341367, (-1187556), "Agoura Hills"));
    ("91302", (341367, (-1186756), "Calabasas"));
    ("91303", (342017, (-1186006), "Canoga Park"));
    ("91304", (342267, (-1186006), "Canoga Park"));
    ("91306", (342017, (-1185556), "Winnetka"));
    ("91307", (341867, (-1186506), "West Hills"));
    ("91311", (342642, (-1185706), "Chatsworth"));
    ("91316", (341617, (-1185156), "Encino"));
    ("91321", (343892, (-1185506), "Newhall"));
    ("91324", (342392, (-1185406), "Northridge"));
    ("91325", (342517, (-1185056), "Northridge"));
    ("91326", (342767, (-1185556), "Northridge"));
    ("91330", (342392, (-1185256), "Northridge"));
    ("91331", (342767, (-1184256), "Pacoima"));
    ("91335", (342017, (-1184706), "Reseda"));
    ("91340", (342892, (-1184406), "San Fernando"));
    ("91342", (343142, (-1184256), "Sylmar"));
    ("91343", (342267, (-1184556), "North Hills"));
    ("91344", (342892, (-1185256), "Granada Hills"));
    ("91345", (342642, (-1184706), "Mission Hills"));
    ("91350", (344267, (-1185356), "Santa Clarita"));
    ("91351", (344017, (-1184756), "Canyon Country"));
    ("91352", (342267, (-1183256), "Sun Valley"));
    ("91354", (344517, (-1185606), "Valencia"));
    ("91355", (344142, (-1185606), "Valencia"));
    ("91356", (341742, (-1185456), "Tarzana"));
    ("91360", (341867, (-1188656), "Thousand Oaks"));
    ("91361", (341367, (-1188156), "Westlake Village"));
    ("91362", (341617, (-1188406), "Thousand Oaks"));
    ("91364", (341617, (-1185806), "Woodland Hills"));
    ("91367", (341742, (-1186006), "Woodland Hills"));
    ("91377", (341492, (-1187756), "Oak Park"));
    ("91381", (344017, (-1185756), "Stevenson Ranch"));
    ("91384", (344767, (-1186006), "Castaic"));
    ("91401", (341867, (-1184256), "Van Nuys"));
    ("91402", (342267, (-1184106), "Panorama City"));
    ("91403", (341492, (-1184506), "Sherman Oaks"));
    ("91405", (342017, (-1184256), "Van Nuys"));
    ("91406", (342017, (-1184906), "Van Nuys"));
    ("91411", (341867, (-1184506), "Van Nuys"));
    ("91423", (341492, (-1184256), "Sherman Oaks"));
    ("91436", (341617, (-1184706), "Encino"));
    ("91501", (341867, (-1183256), "Burbank"));
    ("91502", (341742, (-1183156), "Burbank"));
    ("91504", (342142, (-1183256), "Burbank"));
    ("91505", (341867, (-1183556), "Burbank"));
    ("91506", (341742, (-1183406), "Burbank"));
    ("91601", (341742, (-1183806), "North Hollywood"));
    ("91602", (341617, (-1183606), "North Hollywood"));
    ("91604", (341492, (-1183906), "Studio City"));
    ("91605", (342017, (-1183906), "North Hollywood"));
    ("91606", (341867, (-1183906), "North Hollywood"));
    ("91607", (341617, (-1184006), "Valley Village"));
    ("91608", (341367, (-1183656), "Universal City"));
    ("91702", (341117, (-1178856), "Azusa"));
    ("91706", (340831, (-1179517), "Baldwin Park"));
    ("91709", (340206, (-1177617), "Chino Hills"));
    ("91710", (340031, (-1176867), "Chino"));
    ("91711", (340956, (-1177117), "Claremont"));
    ("91722", (340956, (-1179317), "Covina"));
    ("91723", (340831, (-1178867), "Covina"));
    ("91724", (341081, (-1178567), "Covina"));
    ("91730", (341206, (-1175717), "Rancho Cucamonga"));
    ("91731", (340831, (-1180506), "El Monte"));
    ("91732", (340581, (-1180256), "El Monte"));
    ("91733", (340456, (-1180717), "South El Monte"));
    ("91740", (341206, (-1178067), "Glendora"));
    ("91741", (341456, (-1178267), "Glendora"));
    ("91744", (340331, (-1179417), "La Puente"));
    ("91745", (340081, (-1179767), "Hacienda Heights"));
    ("91746", (340456, (-1179717), "La Puente"));
    ("91748", (339906, (-1179117), "Rowland Heights"));
    ("91750", (341081, (-1177717), "La Verne"));
    ("91754", (340456, (-1181256), "Monterey Park"));
    ("91755", (340581, (-1181456), "Monterey Park"));
    ("91761", (340456, (-1175917), "Ontario"));
    ("91762", (340706, (-1176217), "Ontario"));
    ("91763", (340706, (-1176867), "Montclair"));
    ("91764", (340706, (-1175617), "Ontario"));
    ("91765", (340206, (-1178267), "Diamond Bar"));
    ("91766", (340581, (-1177517), "Pomona"));
    ("91767", (340831, (-1177317), "Pomona"));
    ("91768", (340581, (-1176867), "Pomona"));
    ("91770", (340706, (-1180756), "Rosemead"));
    ("91773", (341206, (-1178467), "San Dimas"));
    ("91775", (341081, (-1181056), "San Gabriel"));
    ("91776", (340956, (-1180806), "San Gabriel"));
    ("91780", (341206, (-1180256), "Temple City"));
    ("91784", (341456, (-1176917), "Upland"));
    ("91786", (341206, (-1176317), "Upland"));
    ("91789", (340206, (-1178667), "Walnut"));
    ("91790", (340456, (-1179117), "West Covina"));
    ("91791", (340706, (-1179067), "West Covina"));
    ("91792", (340206, (-1179067), "West Covina"));
    ("91801", (340956, (-1181256), "Alhambra"));
    ("91803", (340706, (-1181506), "Alhambra"));
    ("850", (334484, (-1120740), "Phoenix"));
    ("851", (334484, (-1120740), "Phoenix"));
    ("852", (334152, (-1118315), "Mesa/Tempe"));
    ("853", (333062, (-1118413), "Chandler/Gilbert"));
    ("856", (322226, (-1109747), "Tucson"));
    ("857", (322226, (-1109747), "Tucson"));
    ("859", (348697, (-1117610), "Flagstaff/Sedona"));
    ("860", (334942, (-1119261), "Scottsdale"));
    ("863", (336189, (-1123679), "Glendale/Peoria"));
    ("92101", (327197, (-1171628), "Downtown SD"));
    ("92102", (327097, (-1171228), "Golden Hill"));
    ("92103", (327497, (-1171628), "Hillcrest"));
    ("92104", (327497, (-1171228), "North Park"));
    ("92105", (327397, (-1170828), "City Heights"));
    ("92106", (327197, (-1172328), "Point Loma"));
    ("92107", (327397, (-1172528), "Ocean Beach"));
    ("92108", (327697, (-1171328), "Mission Valley"));
    ("92109", (327897, (-1172528), "Pacific Beach"));
    ("92110", (327597, (-1172028), "Morena/Bay Park"));
    ("92111", (328097, (-1171628), "Clairemont"));
    ("92113", (326897, (-1171228), "Logan Heights"));
    ("92114", (326997, (-1170528), "Encanto"));
    ("92115", (327597, (-1170628), "College Area"));
    ("92116", (327597, (-1171228), "Normal Heights"));
    ("92117", (328297, (-1172028), "Clairemont Mesa"));
    ("92118", (326797, (-1171828), "Coronado"));
    ("92119", (327997, (-1170228), "San Carlos"));
    ("92120", (327897, (-1170628), "Grantville"));
    ("92121", (329097, (-1172028), "Sorrento Valley"));
    ("92122", (328597, (-1172128), "University City"));
    ("92123", (328097, (-1171228), "Kearny Mesa"));
    ("92124", (328297, (-1170928), "Tierrasanta"));
    ("92126", (329097, (-1171428), "Mira Mesa"));
    ("92127", (330197, (-1170828), "Rancho Bernardo"));
    ("92128", (330197, (-1170528), "Rancho Bernardo"));
    ("92129", (329697, (-1171228), "Rancho Peñasquitos"));
    ("92130", (329597, (-1172228), "Carmel Valley"));
    ("92131", (329297, (-1170828), "Scripps Ranch"));
    ("92134", (327297, (-1171428), "Naval Medical"));
    ("92136", (326797, (-1171228), "Naval Station"));
    ("92139", (326697, (-1170528), "Paradise Hills"));
    ("92154", (325797, (-1170728), "Otay Mesa"));
    ("92602", (337397, (-1177928), "Irvine"));
    ("92603", (336297, (-1177828), "Irvine"));
    ("92604", (336897, (-1178228), "Irvine"));
    ("92606", (336997, (-1178428), "Irvine"));
    ("92612", (336597, (-1178328), "Irvine"));
    ("92614", (336797, (-1178628), "Irvine"));
    ("92617", (336397, (-1178428), "Irvine"));
    ("92618", (336497, (-1177428), "Irvine"));
    ("92620", (337097, (-1177628), "Irvine"));
    ("92626", (336897, (-1179028), "Costa Mesa"));
    ("92627", (336497, (-1179228), "Costa Mesa"));
    ("92629", (334597, (-1176628), "Dana Point"));
    ("92630", (336397, (-1176728), "Lake Forest"));
    ("92637", (336097, (-1177028), "Laguna Woods"));
    ("92646", (336597, (-1179728), "Huntington Beach"));
    ("92647", (337197, (-1179928), "Huntington Beach"));
    ("92648", (336897, (-1179728), "Huntington Beach"));
    ("92649", (337297, (-1180428), "Huntington Beach"));
    ("92651", (335497, (-1177828), "Laguna Beach"));
    ("92653", (335997, (-1176928), "Laguna Hills"));
    ("92655", (336997, (-1179428), "Midway City"));
    ("92656", (335897, (-1177128), "Aliso Viejo"));
    ("92657", (335997, (-1178528), "Newport Coast"));
    ("92660", (336297, (-1178928), "Newport Beach"));
    ("92661", (336097, (-1178928), "Newport Beach"));
    ("92662", (336097, (-1179128), "Newport Beach"));
    ("92663", (336197, (-1179328), "Newport Beach"));
    ("92672", (334297, (-1176228), "San Clemente"));
    ("92673", (334497, (-1176128), "San Clemente"));
    ("92675", (335497, (-1176628), "San Juan Capistrano"));
    ("92677", (335197, (-1177128), "Laguna Niguel"));
    ("92679", (335997, (-1176328), "Coto de Caza"));
    ("92683", (337497, (-1179928), "Westminster"));
    ("92688", (336097, (-1176328), "Rancho Santa Margarita"));
    ("92691", (335897, (-1176528), "Mission Viejo"));
    ("92692", (336197, (-1176428), "Mission Viejo"));
    ("92694", (335597, (-1176028), "Ladera Ranch"));
    ("92701", (337497, (-1178628), "Santa Ana"));
    ("92702", (337097, (-1178628), "Santa Ana"));
    ("92703", (337497, (-1179028), "Santa Ana"));
    ("92704", (337097, (-1179028), "Santa Ana"));
    ("92705", (337497, (-1178128), "Santa Ana"));
    ("92706", (337697, (-1178828), "Santa Ana"));
    ("92707", (337097, (-1178428), "Santa Ana"));
    ("92708", (337097, (-1179528), "Fountain Valley"));
    ("92780", (337397, (-1178228), "Tustin"));
    ("92782", (337597, (-1177728), "Tustin"));
    ("92801", (338397, (-1179328), "Anaheim"));
    ("92802", (338097, (-1179228), "Anaheim"));
    ("92804", (338197, (-1179728), "Anaheim"));
    ("92805", (338397, (-1179028), "Anaheim"));
    ("92806", (338397, (-1178628), "Anaheim"));
    ("92807", (338497, (-1177928), "Anaheim"));
    ("92808", (338697, (-1177428), "Anaheim Hills"));
    ("92821", (339297, (-1178928), "Brea"));
    ("92823", (339197, (-1178228), "Brea"));
    ("92831", (338797, (-1179228), "Fullerton"));
    ("92832", (338697, (-1179428), "Fullerton"));
    ("92833", (338697, (-1179728), "Fullerton"));
    ("92835", (339097, (-1179228), "Fullerton"));
    ("92840", (337497, (-1179628), "Garden Grove"));
    ("92841", (337897, (-1179928), "Garden Grove"));
    ("92843", (337597, (-1179228), "Garden Grove"));
    ("92844", (337697, (-1179728), "Garden Grove"));
    ("92845", (337897, (-1179528), "Garden Grove"));
    ("92861", (337897, (-1178128), "Villa Park"));
    ("92865", (338297, (-1178428), "Orange"));
    ("92866", (337897, (-1178528), "Orange"));
    ("92867", (338197, (-1178128), "Orange"));
    ("92868", (337897, (-1178828), "Orange"));
    ("92869", (338097, (-1177728), "Orange"));
    ("92870", (338997, (-1178628), "Placentia"));
    ("92886", (339197, (-1177928), "Yorba Linda"));
    ("92887", (338897, (-1177428), "Yorba Linda")) ].

(** [\b(\d{5})\b] *)
Definition zip_re : Re.pattern :=
  [Re.Bound; Re.Open; Re.Rep Re.Digit 5; Re.Close; Re.Bound].

Definition upper_letter : Re.cls := Re.Range "A" "Z".

(** [\b([A-Z]{2})\s+\d{5}] *)
Definition state_re : Re.pattern :=
  [Re.Bound; Re.Open; Re.Rep upper_letter 2; Re.Close;
   Re.Plus Re.Space; Re.Rep Re.Digit 5].

(** [[A-Za-z\s\.]] *)
Definition city_char : Re.cls :=
  Re.Union (Re.Range "A" "Z")
    (Re.Union (Re.Range "a" "z") (Re.Union Re.Space (Re.Char "."))).

(** [([A-Za-z\s\.]+?)\s+ + state + \s+\d{5}], searched with [re.IGNORECASE]. *)
Definition city_re (state : string) : Re.pattern :=
  [Re.Open; Re.PlusLazy city_char; Re.Close;
   Re.Plus Re.Space; Re.Lit state; Re.Plus Re.Space; Re.Rep Re.Digit 5].

(** Extract city, state, and zip from address string. *)
Definition parse_address (address : option string)
  : option string * option string * option string :=
  match address with
  | None => (None, None, None)
  | Some address =>
      if (address =? "")%string || (strip address =? "")%string
      then (None, None, None)
      else
        let address_upper := upper address in
        (* Try to find 5-digit zip code *)
        let zip_match := Re.search false zip_re address in
        let zip_code := option_map (Re.group1 address) zip_match in
        (* Look for 2-letter state code *)
        let state :=
          match Re.search false state_re address_upper with
          | Some state_match =>
              let potential_state := Re.group1 address_upper state_match in
              if mem String.eqb potential_state STATE_ABBREV
              then Some potential_state else None
          | None => None
          end in
        (* Extract city *)
        let city :=
          match state with
          | Some st =>
              if truthy state then
                match Re.search true (city_re st) address with
                | Some city_match =>
                    Some (strip_char "." (strip (Re.group1 address city_match)))
                | None => None
                end
              else None
          | None => None
          end in
        (city, state, zip_code)
  end.

(** Get coordinates for a zip code or state. *)
Definition get_coords (zip_code state : option string) : option region :=
  match zip_code with
  | Some z =>
      if truthy zip_code then
        (* Try exact zip match first *)
        match get String.eqb z ZIP_COORDS with
        | Some entry => Some entry
        | None =>
            (* Try 3-digit prefix *)
            let prefix := take 3 z in
            get String.eqb prefix ZIP_COORDS
        end
      else None
  | None => None
  end.

(** The variables of [main]'s loop. *)
Record state : Type :=
  State { states : Counter; locations : locations_t;
          total : Z; parsed : Z; geocoded : Z }.

Definition init : state := State [] [] 0 0 0.

(** One iteration of [for row in reader]. *)
Definition loop_body (st : state) (r : row) : state :=
  let total := total st + 1 in
  let address := row_get "Address" r in
  let '(city, state, zip_code) := parse_address address in
  match state with
  | Some code =>
      if truthy state then
        let parsed := parsed st + 1 in
        let states := counter_incr code (states st) in
        match get_coords zip_code state with
        | Some coords =>
            State states (add_location coords (locations st))
                  total parsed (geocoded st + 1)
        | None => State states (locations st) total parsed (geocoded st)
        end
      else State (states st) (locations st) total (parsed st) (geocoded st)
  | None => State (states st) (locations st) total (parsed st) (geocoded st)
  end.

Definition loop (rows : list row) : state := fold_left loop_body rows init.

(** What [generate_html] hands to the page template. *)
Record page : Type :=
  Page { loc_data : list bucket;
         state_data : list (string * Z);
         page_total : Z;
         page_parsed : Z;
         page_geocoded : Z }.

(** [STATE_ABBREV.get(s, s)] *)
Definition state_name (s : string) : string :=
  match get String.eqb s STATE_ABBREV with
  | Some full => full
  | None => s
  end.

Definition generate_html (states : Counter) (locations : locations_t)
  (total parsed geocoded : Z) : page :=
  Page (values locations)
       (map (fun sc => (state_name (fst sc), snd sc)) (most_common 15 states))
       total parsed geocoded.

(** [main] after the file is read: the summary lines are printed (the second
    one divides by [total]), then the page is generated. *)
Definition main (rows : list row) : result page :=
  let st := loop rows in
  bind (floordiv (parsed st * 100) (total st)) (fun _percent =>
  Ok (generate_html (states st) (locations st)
                    (total st) (parsed st) (geocoded st))).

End Residence.

(** ** Vocabulary of the properties *)

Import Py Agg.
Local Open Scope string_scope.
Local Open Scope list_scope.

(** The pair a table entry is bucketed under. *)
Definition coord_of (r : region) : coord := (fst (fst r), snd (fst r)).

(** The display name of a table entry. *)
Definition name_of (r : region) : string := snd r.

(** No two distinct keys of a table share a coordinate pair. *)
Definition unique_coords (d : dict string region) : Prop :=
  forall k1 k2 r1 r2,
    get String.eqb k1 d = Some r1 ->
    get String.eqb k2 d = Some r2 ->
    k1 <> k2 -> coord_of r1 <> coord_of r2.

(** The count of the bucket at a coordinate pair, 0 when there is none. *)
Definition location_count (key : coord) (locations : locations_t) : Z :=
  match get coord_eqb key locations with
  | Some b => count b
  | None => 0%Z
  end.

(** The fine-grained entries of [ZIP_COORDS] are those under a 5-character
    key, the coarse ones those under a 3-character key. *)
Definition key_length (n : nat) (kv : string * region) : bool :=
  (String.length (fst kv) =? n)%nat.

Definition fine_table : dict string region :=
  filter (key_length 5) Residence.ZIP_COORDS.

Definition coarse_table : dict string region :=
  filter (key_length 3) Residence.ZIP_COORDS.

(** A row whose only field is the address, respectively the prefecture. *)
Definition address_row (a : string) : row := [("Address", Some a)].
Definition prefecture_row (p : string) : row := [("JET Prefecture", Some p)].

(** [x] stands before [y] in [l]. *)
Definition before {A : Type} (x y : A) (l : list A) : Prop :=
  exists l1 l2 l3, l = l1 ++ x :: l2 ++ y :: l3.

(** In [l], [a] is met before [b] is met for the first time. *)
Definition first_seen_before {A : Type} (a b : A) (l : list A) : Prop :=
  exists l1 l2, l = l1 ++ a :: l2 /\ ~ In b l1 /\ In b l2.

(** The category label each script counts a row under, if any. *)
Definition jet_label (r : row) : option string :=
  Jet.normalize_prefecture (row_get "JET Prefecture" r).

Definition residence_label (r : row) : option string :=
  snd (fst (Residence.parse_address (row_get "Address" r))).

Fixpoint somes {A : Type} (l : list (option A)) : list A :=
  match l with
  | [] => []
  | Some a :: l' => a :: somes l'
  | None :: l' => somes l'
  end.

(** The labels of the rows, in input order. *)
Definition jet_labels (rows : list row) : list string :=
  somes (map jet_label rows).

Definition residence_labels (rows : list row) : list string :=
  somes (map residence_label rows).

(** The entry each script buckets a row under, if any. *)
Definition jet_entry (r : row) : option region :=
  match jet_label r with
  | Some pref => get String.eqb pref Jet.PREFECTURE_COORDS
  | None => None
  end.

Definition residence_entry (r : row) : option region :=
  let '(_, state, zip_code) := Residence.parse_address (row_get "Address" r) in
  match state with
  | Some _ => Residence.get_coords zip_code state
  | None => None
  end.

(** What one row adds to the bucket at [key], and to the category [label]. *)
Definition bucket_weight (key : coord) (e : option region) : Z :=
  match e with
  | Some r => if coord_eqb key (coord_of r) then 1%Z else 0%Z
  | None => 0%Z
  end.

Definition label_weight (label : string) (l : option string) : Z :=
  match l with
  | Some x => if String.eqb label x then 1%Z else 0%Z
  | None => 0%Z
  end.

(** A text the prefecture loop counts: non-empty and a key of the table. *)
Definition known_prefecture (p : string) : bool :=
  truthy (Some p) && mem String.eqb p Jet.PREFECTURE_COORDS.

(** The counter after [c[l] += 1] for each label of [ls] in turn. *)
Definition count_labels (ls : list string) (c : Counter) : Counter :=
  fold_left (fun c l => counter_incr l c) ls c.

(** [x] does not count less than [y]. *)
Definition count_ge (x y : string * Z) : Prop := (snd y <= snd x)%Z.

Definition has_count (v : Z) (x : string * Z) : bool := (snd x =? v)%Z.




(** No text occurs twice in [l]. *)
Fixpoint distinct (l : list string) : bool :=
  match l with
  | [] => true
  | a :: l' => negb (existsb (String.eqb a) l') && distinct l'
  end.

Definition zsum (l : list Z) : Z := fold_right Z.add 0%Z l.

(** ** The pages and the runs as a whole

    [generate_html] evaluates the Python expressions of its page template
    before it writes the file, and [main] prints its summary before it calls
    [generate_html].  The modules below follow both to the end: the values
    the template receives, the lists that are printed, and the exceptions
    either step can raise. *)

Module Run.

(** Exceptions a whole run can end with. *)
Inductive exn : Type := ZeroDivisionError | IndexError.

Inductive outcome (A : Type) : Type :=
| Done (a : A)
| Raised (e : exn).
Arguments Done {A} a.
Arguments Raised {A} e.

(** [sorted(items, key=key)]: ascending in the key, items of one key in
    their order in [items]. *)
Fixpoint insert_by_key {A : Type} (key : A -> Z) (x : A) (l : list A) : list A :=
  match l with
  | [] => [x]
  | y :: l' =>
      if (key y <? key x)%Z then y :: insert_by_key key x l' else x :: y :: l'
  end.

Definition sorted_by_key {A : Type} (key : A -> Z) (items : list A) : list A :=
  fold_right (insert_by_key key) [] items.

(** A band of a map legend: its colour, its least count, and its greatest
    count if it has one. *)
Definition band : Type := (string * Z * option Z)%type.

Definition in_band (count : Z) (b : band) : bool :=
  let '(_, lo, hi) := b in
  (lo <=? count)%Z
  && match hi with Some h => (count <=? h)%Z | None => true end.

Definition band_color (b : band) : string := fst (fst b).

End Run.

Module JetPage.

(** The values of the expressions in the page template, in the order of the
    page: subtitle, the four stat boxes, the location data, and the labels
    and values of the bar chart. *)
Record fields : Type :=
  Fields { subtitle_mapped : Z;
           stat_total : Z;
           stat_mapped : Z;
           stat_prefectures : nat;
           stat_top : string;
           map_locations : list bucket;
           chart_labels : list string;
           chart_values : list Z }.

(** Generate interactive HTML with Leaflet bubble map of Japan.  The fourth
    stat box is [prefectures.most_common(1)[0][0]]. *)
Definition generate_html (prefectures : Counter) (locations : locations_t)
  (total mapped : Z) : Run.outcome fields :=
  let loc_data := values locations in
  let pref_data := most_common 15 prefectures in
  match most_common 1 prefectures with
  | [] => Run.Raised Run.IndexError
  | top :: _ =>
      Run.Done (Fields mapped total mapped (List.length prefectures) (fst top)
                       loc_data (map fst pref_data) (map snd pref_data))
  end.

(** The legend of the map and the colour scale of its circles. *)
Definition legend : list Run.band :=
  [ ("#00b4d8", 1, Some 15); ("#8ac926", 16, Some 25); ("#ffbe0b", 26, Some 35);
    ("#ff6b35", 36, Some 50); ("#e63946", 50, None) ]%Z.

Definition getColor (count : Z) : string :=
  if (50 <=? count)%Z then "#e63946"
  else if (36 <=? count)%Z then "#ff6b35"
  else if (26 <=? count)%Z then "#ffbe0b"
  else if (16 <=? count)%Z then "#8ac926"
  else "#00b4d8".

(** What a completed run has printed and put on the page. *)
Record report : Type :=
  Report { percent : Z;
           represented : nat;
           top_prefectures : list (string * Z);
           page : fields }.

Definition main (rows : list row) : Run.outcome report :=
  let st := Jet.loop rows in
  match floordiv (Jet.mapped st * 100) (Jet.total st) with
  | Raise _ => Run.Raised Run.ZeroDivisionError
  | Ok percent =>
      match generate_html (Jet.prefectures st) (Jet.locations st)
                          (Jet.total st) (Jet.mapped st) with
      | Run.Done p =>
          Run.Done (Report percent (List.length (Jet.prefectures st))
                           (most_common 20 (Jet.prefectures st)) p)
      | Run.Raised e => Run.Raised e
      end
  end.

End JetPage.

Module ResidencePage.

(** The values of the expressions in the page template, in the order of the
    page: subtitle, the four stat boxes ([states.get('CA', 0)],
    [states.get('AZ', 0)], [len(locations)]), the location data, and the
    labels and values of the bar chart. *)
Record fields : Type :=
  Fields { subtitle_geocoded : Z;
           stat_total : Z;
           stat_california : Z;
           stat_arizona : Z;
           stat_areas : nat;
           map_locations : list bucket;
           chart_labels : list string;
           chart_values : list Z }.

(** Generate interactive HTML with Leaflet bubble map. *)
Definition generate_html (states : Counter) (locations : locations_t)
  (total parsed geocoded : Z) : fields :=
  let loc_data := values locations in
  let state_data :=
    map (fun sc => (Residence.state_name (fst sc), snd sc)) (most_common 15 states) in
  Fields geocoded total (counter_get "CA" states) (counter_get "AZ" states)
         (List.length locations) loc_data (map fst state_data) (map snd state_data).

(** The legend of the map and the colour scale of its circles. *)
Definition legend : list Run.band :=
  [ ("#00b4d8", 1, Some 2); ("#8ac926", 3, Some 4); ("#ffbe0b", 5, Some 9);
    ("#ff6b35", 10, Some 19); ("#ff2d55", 20, None) ]%Z.

Definition getColor (count : Z) : string :=
  if (20 <=? count)%Z then "#ff2d55"
  else if (10 <=? count)%Z then "#ff6b35"
  else if (5 <=? count)%Z then "#ffbe0b"
  else if (3 <=? count)%Z then "#8ac926"
  else "#00b4d8".

(** [sorted(locations.values(), key=lambda x: -x['count'])[:25]] *)
Definition sorted_locs (locations : locations_t) : list bucket :=
  firstn 25 (Run.sorted_by_key (fun x => - count x)%Z (values locations)).

(** What a completed run has printed and put on the page. *)
Record report : Type :=
  Report { percent : Z;
           top_locations : list bucket;
           page : fields }.

Definition main (rows : list row) : Run.outcome report :=
  let st := Residence.loop rows in
  match floordiv (Residence.parsed st * 100) (Residence.total st) with
  | Raise _ => Run.Raised Run.ZeroDivisionError
  | Ok percent =>
      Run.Done (Report percent (sorted_locs (Residence.locations st))
                       (generate_html (Residence.states st) (Residence.locations st)
                          (Residence.total st) (Residence.parsed st)
                          (Residence.geocoded st)))
  end.

End ResidencePage.

(** ** Further vocabulary *)

(** The text the normaliser matches: [pref.strip()] without the double
    quotes around it. *)
Definition cleaned (raw : string) : string := strip_char Jet.dquote (strip raw).

(** A prefecture field the normaliser does not dismiss at once. *)
Definition considered (raw : string) : Prop :=
  raw <> "" /\ strip raw <> "" /\ raw <> "N/A".

(** The entries of the rows that reach a bucket, in input order. *)
Definition jet_entries (rows : list row) : list region :=
  somes (map jet_entry rows).

Definition residence_entries (rows : list row) : list region :=
  somes (map residence_entry rows).

(** The entry [e] falls into the bucket at [key]. *)
Definition hits (key : coord) (e : region) : bool := coord_eqb key (coord_of e).


(** The sum of the counts of some buckets. *)
Definition total_count (bs : list bucket) : Z := zsum (map count bs).




(** 1 for [Some], 0 for [None]. *)
Definition some_weight {A : Type} (o : option A) : Z :=
  match o with
  | Some _ => 1%Z
  | None => 0%Z
  end.

(** The coordinate pair of a prefecture name, [(0, 0)] for a text that is no
    key of the table. *)
Definition prefecture_coord (p : string) : coord :=
  match get String.eqb p Jet.PREFECTURE_COORDS with
  | Some e => coord_of e
  | None => (0, 0)%Z
  end.

(** The buckets after the entries [es] have been added to [locations]. *)
Definition add_locations (es : list region) (locations : locations_t) : locations_t :=
  fold_left (fun l e => add_location e l) es locations.

(** What the prefecture loop keeps true of its two dictionaries: the buckets
    stand in the order of the prefectures, each at the coordinates of its
    prefecture, and the prefectures are distinct keys of the table. *)
Definition jet_invariant (st : Jet.state) : Prop :=
  keys (Jet.locations st) = map prefecture_coord (keys (Jet.prefectures st))
  /\ NoDup (keys (Jet.prefectures st))
  /\ forall p, In p (keys (Jet.prefectures st)) -> known_prefecture p = true.

(** [x] comes no later than [y] in the order of the key. *)
Definition key_order {A : Type} (key : A -> Z) (x y : A) : Prop :=
  (key x <= key y)%Z.

(** ** Facts about dictionaries *)

Section DictFacts.

Variables K V : Type.
Variable eqb : K -> K -> bool.
Hypothesis eqb_eq : forall a b, eqb a b = true <-> a = b.

Lemma eqb_refl_true (a : K) : eqb a a = true.
Proof. now apply eqb_eq. Qed.

Lemma eqb_neq_false (a b : K) : a <> b -> eqb a b = false.
Proof.
  intro Hab. destruct (eqb a b) eqn:E; [|reflexivity].
  apply eqb_eq in E. contradiction.
Qed.

Lemma get_setitem_same (k : K) (v : V) (d : dict K V) :
  get eqb k (setitem eqb k v d) = Some v.
Proof.
  induction d as [|[k' v'] d IH]; simpl.
  - now rewrite eqb_refl_true.
  - destruct (eqb k k') eqn:E; simpl; rewrite E; [reflexivity | exact IH].
Qed.

Lemma get_setitem_other (k k' : K) (v : V) (d : dict K V) :
  k <> k' -> get eqb k (setitem eqb k' v d) = get eqb k d.
Proof.
  intro Hne. induction d as [|[k0 v0] d IH]; simpl.
  - now rewrite (eqb_neq_false Hne).
  - destruct (eqb k' k0) eqn:E; simpl.
    + apply eqb_eq in E. subst k0. now rewrite (eqb_neq_false Hne).
    + destruct (eqb k k0); [reflexivity | exact IH].
Qed.

Lemma get_some_in (k : K) (v : V) (d : dict K V) :
  get eqb k d = Some v -> In (k, v) d.
Proof.
  induction d as [|[k' v'] d IH]; simpl; [discriminate|].
  destruct (eqb k k') eqn:E.
  - apply eqb_eq in E. intros [= ->]. left. now subst.
  - intro H. right. now apply IH.
Qed.

Lemma get_filter_key (p : K -> bool) (k : K) (d : dict K V) :
  get eqb k (filter (fun kv => p (fst kv)) d) = if p k then get eqb k d else None.
Proof.
  induction d as [|[k' v'] d IH]; simpl.
  - now destruct (p k).
  - destruct (p k') eqn:Ek'; simpl.
    + destruct (eqb k k') eqn:E.
      * apply eqb_eq in E. subst k'. now rewrite Ek'.
      * exact IH.
    + rewrite IH. destruct (eqb k k') eqn:E; [|reflexivity].
      apply eqb_eq in E. subst k'. now rewrite Ek'.
Qed.

Lemma mem_in_keys (k : K) (d : dict K V) :
  mem eqb k d = true <-> In k (keys d).
Proof.
  unfold mem, keys. induction d as [|[k' v'] d IH]; simpl.
  - split; [discriminate | tauto].
  - destruct (eqb k k') eqn:E.
    + apply eqb_eq in E. subst. tauto.
    + rewrite IH. split; [tauto|]. intros [->|H]; [|exact H].
      rewrite eqb_refl_true in E. discriminate.
Qed.

Lemma keys_setitem (k : K) (v : V) (d : dict K V) :
  keys (setitem eqb k v d) = if mem eqb k d then keys d else keys d ++ [k].
Proof.
  unfold mem, keys. induction d as [|[k' v'] d IH]; simpl; [reflexivity|].
  destruct (eqb k k') eqn:E; simpl; [reflexivity|].
  rewrite IH. now destruct (get eqb k d).
Qed.

End DictFacts.

Lemma coord_eqb_eq (a b : coord) : coord_eqb a b = true <-> a = b.
Proof.
  destruct a as [a1 a2], b as [b1 b2]. unfold coord_eqb; simpl.
  rewrite andb_true_iff, !Z.eqb_eq. split.
  - now intros [-> ->].
  - now intros [= -> ->].
Qed.

Lemma counter_get_incr (k k' : string) (c : Counter) :
  counter_get k (counter_incr k' c)
  = (counter_get k c + label_weight k (Some k'))%Z.
Proof.
  unfold counter_incr, counter_get at 1, label_weight.
  destruct (String.eqb k k') eqn:E.
  - apply String.eqb_eq in E. subst k'.
    now rewrite (get_setitem_same _ String.eqb_eq).
  - apply String.eqb_neq in E.
    rewrite (get_setitem_other _ String.eqb_eq _ _ E).
    unfold counter_get. lia.
Qed.

Lemma location_count_add (key : coord) (r : region) (locs : locations_t) :
  location_count key (add_location r locs)
  = (location_count key locs + bucket_weight key (Some r))%Z.
Proof.
  destruct r as [[la lo] nm]. unfold add_location, location_count, bucket_weight, coord_of.
  simpl fst; simpl snd.
  set (k := (la, lo)).
  assert (Hget : forall d, get coord_eqb k
            (if negb (mem coord_eqb k d)
             then setitem coord_eqb k (Bucket 0 nm la lo) d else d)
          = Some (match get coord_eqb k d with
                  | Some b => b | None => Bucket 0 nm la lo end)).
  { intro d. unfold mem. destruct (get coord_eqb k d) eqn:G; simpl.
    - exact G.
    - apply (get_setitem_same _ coord_eqb_eq). }
  rewrite Hget.
  destruct (coord_eqb key k) eqn:E.
  - apply coord_eqb_eq in E. subst key.
    rewrite (get_setitem_same _ coord_eqb_eq). simpl.
    destruct (get coord_eqb k locs); simpl; lia.
  - assert (Hne : key <> k).
    { intro H. apply coord_eqb_eq in H. congruence. }
    rewrite (get_setitem_other _ coord_eqb_eq _ _ Hne).
    unfold mem. destruct (get coord_eqb k locs) eqn:G; simpl.
    + lia.
    + rewrite (get_setitem_other _ coord_eqb_eq _ _ Hne). lia.
Qed.

(** ** The tables as dictionaries

    No key is written twice in a table of the scripts, so each literal is
    the dictionary it denotes, entry for entry and in the order written. *)

Lemma table_keys_distinct :
  distinct (keys Jet.PREFECTURE_COORDS) = true
  /\ distinct (keys Jet.PREFECTURE_ALIASES) = true
  /\ distinct (keys Residence.STATE_ABBREV) = true
  /\ distinct (keys Residence.ZIP_COORDS) = true.
Proof. vm_compute. repeat split. Qed.

(** ** The coordinate lookup *)

Lemma take_length_le (n : nat) (s : string) : String.length (take n s) <= n.
Proof.
  unfold take. revert s. induction n as [|n IH]; intros [|a s]; simpl; try lia.
  specialize (IH s). lia.
Qed.

Lemma take_all (n : nat) (s : string) : String.length s <= n -> take n s = s.
Proof.
  unfold take. revert s. induction n as [|n IH]; intros [|a s]; simpl; intro H;
    try reflexivity; try lia.
  f_equal. apply IH. lia.
Qed.

Lemma zip_key_lengths :
  forallb (fun kv => key_length 3 kv || key_length 5 kv) Residence.ZIP_COORDS = true.
Proof. vm_compute. reflexivity. Qed.

Lemma zip_get_length (z : string) (e : region) :
  get String.eqb z Residence.ZIP_COORDS = Some e ->
  String.length z = 3 \/ String.length z = 5.
Proof.
  intro G. apply (get_some_in _ String.eqb_eq) in G.
  pose proof (proj1 (forallb_forall _ _) zip_key_lengths _ G) as H.
  unfold key_length in H; simpl in H.
  apply orb_true_iff in H. rewrite !Nat.eqb_eq in H. exact H.
Qed.

Lemma get_fine (z : string) :
  get String.eqb z fine_table
  = if (String.length z =? 5)%nat
    then get String.eqb z Residence.ZIP_COORDS else None.
Proof.
  exact (get_filter_key _ String.eqb_eq
           (fun k => (String.length k =? 5)%nat) z Residence.ZIP_COORDS).
Qed.

Lemma get_coarse (z : string) :
  get String.eqb z coarse_table
  = if (String.length z =? 3)%nat
    then get String.eqb z Residence.ZIP_COORDS else None.
Proof.
  exact (get_filter_key _ String.eqb_eq
           (fun k => (String.length k =? 3)%nat) z Residence.ZIP_COORDS).
Qed.

(** Over the whole table: no specific zip has the coordinate pair of the
    entry of its own 3-digit prefix. *)
Lemma fine_differs_from_prefix :
  forallb (fun kv => match get String.eqb (take 3 (fst kv)) coarse_table with
                     | Some c => negb (coord_eqb (coord_of (snd kv)) (coord_of c))
                     | None => true
                     end) fine_table = true.
Proof. vm_compute. reflexivity. Qed.

Lemma get_coords_nonempty (z : string) (state : option string) :
  z <> "" ->
  Residence.get_coords (Some z) state
  = match get String.eqb z Residence.ZIP_COORDS with
    | Some entry => Some entry
    | None => get String.eqb (take 3 z) Residence.ZIP_COORDS
    end.
Proof.
  intro Hz. unfold Residence.get_coords, truthy.
  destruct (String.eqb_spec z ""); [contradiction | reflexivity].
Qed.

(** C5.  The lookup treats its argument in four ways: no zip code gives no
    entry; a code that is a key of the fine-grained (5-character) entries
    gives exactly that entry, which is never the entry of its 3-digit prefix;
    a code that is no such key but whose first three characters are a key of
    the coarse entries gives that coarse entry; any other code gives no
    entry. *)
Theorem get_coords_resolution (state : option string) :
  Residence.get_coords None state = None
  /\ (forall z e,
        get String.eqb z fine_table = Some e ->
        Residence.get_coords (Some z) state = Some e
        /\ forall c, get String.eqb (take 3 z) coarse_table = Some c -> e <> c)
  /\ (forall z c,
        get String.eqb z fine_table = None ->
        get String.eqb (take 3 z) coarse_table = Some c ->
        Residence.get_coords (Some z) state = Some c)
  /\ (forall z,
        get String.eqb z fine_table = None ->
        get String.eqb (take 3 z) coarse_table = None ->
        Residence.get_coords (Some z) state = None).
Proof.
  split; [reflexivity|]. split; [|split].
  - intros z e F. split.
    + rewrite get_fine in F.
      destruct (String.length z =? 5)%nat eqn:L; [|discriminate].
      rewrite get_coords_nonempty.
      * now rewrite F.
      * intros ->. discriminate.
    + intros c C Hec. subst c.
      pose proof (get_some_in _ String.eqb_eq _ _ F) as Hin.
      pose proof (proj1 (forallb_forall _ _) fine_differs_from_prefix _ Hin) as H.
      cbv beta in H. change (fst (z, e)) with z in H.
      change (snd (z, e)) with e in H. rewrite C in H.
      assert (E : coord_eqb (coord_of e) (coord_of e) = true)
        by now apply coord_eqb_eq.
      rewrite E in H. discriminate.
  - intros z c F C.
    assert (Hz : z <> "").
    { intros ->. vm_compute in C. discriminate. }
    rewrite (@get_coords_nonempty z state Hz).
    rewrite get_fine in F. rewrite get_coarse in C.
    destruct (String.length (take 3 z) =? 3)%nat eqn:L3; [|discriminate].
    destruct (get String.eqb z Residence.ZIP_COORDS) as [e|] eqn:G; [|exact C].
    destruct (@zip_get_length _ _ G) as [L|L].
    + rewrite (@take_all 3 z) in C by lia. congruence.
    + rewrite L in F. simpl in F. discriminate.
  - intros z F C.
    destruct (String.eqb_spec z "") as [->|Hz]; [reflexivity|].
    rewrite (@get_coords_nonempty z state Hz).
    rewrite get_fine in F. rewrite get_coarse in C.
    destruct (get String.eqb z Residence.ZIP_COORDS) as [e|] eqn:G.
    + destruct (@zip_get_length _ _ G) as [L|L].
      * rewrite (@take_all 3 z) in C by lia. rewrite G, L, Nat.eqb_refl in C.
        discriminate.
      * rewrite L in F. simpl in F. discriminate.
    + destruct (get String.eqb (take 3 z) Residence.ZIP_COORDS) as [c|] eqn:G3;
        [|reflexivity].
      destruct (@zip_get_length _ _ G3) as [L|L].
      * rewrite L in C. simpl in C. discriminate.
      * pose proof (take_length_le 3 z). lia.
Qed.

(** The three kinds of code at work: a specific zip, a zip known only by its
    prefix, and a zip the table does not cover. *)
Lemma get_coords_resolution_witness :
  Residence.get_coords (Some "90012") (Some "CA")
    = Some (340622, -1182406, "Chinatown/Civic Center")%Z
  /\ Residence.get_coords (Some "90001") (Some "CA")
    = Some (340522, -1182437, "Downtown LA")%Z
  /\ Residence.get_coords (Some "10001") (Some "NY") = None.
Proof.
  destruct (get_coords_resolution (Some "CA")) as (_ & Hfine & Hcoarse & _).
  destruct (get_coords_resolution (Some "NY")) as (_ & _ & _ & Hnone).
  split; [|split].
  - apply Hfine. vm_compute. reflexivity.
  - apply Hcoarse; vm_compute; reflexivity.
  - apply Hnone; vm_compute; reflexivity.
Defined.

(** C10.  The [state] argument of the lookup has no influence on its result. *)
Theorem get_coords_ignores_state (zip_code s1 s2 : option string) :
  Residence.get_coords zip_code s1 = Residence.get_coords zip_code s2.
Proof. destruct zip_code as [z|]; reflexivity. Qed.

(** ** The empty input *)

(** C1.  With no rows at all both loops end with every counter at zero and no
    bucket or category, and the summary line that divides by [total] raises
    [ZeroDivisionError], in both scripts: no page is produced. *)
Theorem main_empty_raises :
  Jet.loop [] = Jet.State [] [] 0 0
  /\ Residence.loop [] = Residence.State [] [] 0 0 0
  /\ Jet.main [] = Raise ZeroDivisionError
  /\ Residence.main [] = Raise ZeroDivisionError.
Proof. repeat split. Qed.

(** ** Blank prefecture fields *)

Lemma lstrip_all (p : ascii -> bool) (s : string) :
  all_chars p s = true -> lstrip p s = "".
Proof.
  induction s as [|a s IH]; simpl; [reflexivity|].
  intro H. apply andb_true_iff in H as [Ha Hs]. rewrite Ha. now apply IH.
Qed.

Lemma strip_blank (s : string) : all_chars isspace s = true -> strip s = "".
Proof. intro H. unfold strip. now rewrite (lstrip_all _ _ H). Qed.

(** C6.  A prefecture field that is empty, made of white space only, or the
    text [N/A] normalises to [None]; the row it comes from is counted in
    [total] and changes nothing else of the loop's variables. *)
Theorem normalize_blank (raw : string) :
  raw = "" \/ all_chars isspace raw = true \/ raw = "N/A" ->
  Jet.normalize_prefecture (Some raw) = None
  /\ forall st,
       Jet.loop_body st (prefecture_row raw)
       = Jet.State (Jet.prefectures st) (Jet.locations st)
                   (Jet.total st + 1) (Jet.mapped st).
Proof.
  intro H.
  assert (N : Jet.normalize_prefecture (Some raw) = None).
  { unfold Jet.normalize_prefecture.
    destruct H as [-> | [H | ->]]; [reflexivity | | reflexivity].
    rewrite (strip_blank _ H). simpl. now rewrite orb_true_r. }
  split; [exact N|].
  intro st. unfold Jet.loop_body.
  change (row_get "JET Prefecture" (prefecture_row raw)) with (Some raw).
  now rewrite N.
Qed.

Lemma normalize_blank_witness :
  Jet.normalize_prefecture (Some "   ") = None
  /\ Jet.normalize_prefecture (Some "") = None
  /\ Jet.normalize_prefecture (Some "N/A") = None.
Proof.
  split; [|split].
  - apply (@normalize_blank "   "). right; left. reflexivity.
  - apply (@normalize_blank ""). left. reflexivity.
  - apply (@normalize_blank "N/A"). right; right. reflexivity.
Defined.

(** ** Loops that add up

    Both loops are left folds whose counters grow, row by row, by an amount
    that depends on the row alone.  Such a fold ends at the initial value
    plus the sum of the amounts, whatever the order of the rows. *)

Section FoldAdditive.

Variables S R : Type.
Variable step : S -> R -> S.
Variable measure : S -> Z.
Variable weight : R -> Z.
Hypothesis step_adds : forall st r, measure (step st r) = (measure st + weight r)%Z.

Lemma fold_adds (rows : list R) (st : S) :
  measure (fold_left step rows st) = (measure st + zsum (map weight rows))%Z.
Proof.
  revert st. induction rows as [|r rows IH]; intro st; simpl.
  - lia.
  - rewrite IH, step_adds. lia.
Qed.

Lemma zsum_permutation (rows1 rows2 : list R) :
  Permutation rows1 rows2 -> zsum (map weight rows1) = zsum (map weight rows2).
Proof.
  induction 1 as [|r l1 l2 _ IH|r r' l|l1 l2 l3 _ IH1 _ IH2]; simpl.
  - reflexivity.
  - now rewrite IH.
  - lia.
  - now rewrite IH1.
Qed.

Lemma fold_permutation (rows1 rows2 : list R) (st : S) :
  Permutation rows1 rows2 ->
  measure (fold_left step rows1 st) = measure (fold_left step rows2 st).
Proof.
  intro P. rewrite !fold_adds. now rewrite (zsum_permutation P).
Qed.

End FoldAdditive.

(** ** One iteration of the prefecture loop *)

Lemma aliases_known :
  forallb (fun kv => known_prefecture (snd kv)) Jet.PREFECTURE_ALIASES = true.
Proof. vm_compute. reflexivity. Qed.

Lemma keys_known :
  forallb known_prefecture (keys Jet.PREFECTURE_COORDS) = true.
Proof. vm_compute. reflexivity. Qed.

(** Whatever the normaliser returns is a non-empty key of the table. *)
Lemma normalize_known (raw : option string) (p : string) :
  Jet.normalize_prefecture raw = Some p -> known_prefecture p = true.
Proof.
  unfold Jet.normalize_prefecture. destruct raw as [s|]; [|discriminate].
  destruct (_ || _); [discriminate|].
  destruct (get String.eqb _ Jet.PREFECTURE_ALIASES) as [c|] eqn:A.
  - intros [= ->]. apply (get_some_in _ String.eqb_eq) in A.
    exact (proj1 (forallb_forall _ _) aliases_known _ A).
  - intro F. apply find_some in F as [Hin _].
    exact (proj1 (forallb_forall _ _) keys_known _ Hin).
Qed.

Lemma jet_loop_body_eq (st : Jet.state) (r : row) :
  Jet.loop_body st r
  = Jet.State
      (match jet_label r with
       | Some p => counter_incr p (Jet.prefectures st)
       | None => Jet.prefectures st
       end)
      (match jet_entry r with
       | Some e => add_location e (Jet.locations st)
       | None => Jet.locations st
       end)
      (Jet.total st + 1)
      (match jet_label r with
       | Some _ => Jet.mapped st + 1
       | None => Jet.mapped st
       end)%Z.
Proof.
  unfold Jet.loop_body, jet_entry, jet_label.
  destruct (Jet.normalize_prefecture (row_get "JET Prefecture" r)) as [p|] eqn:N;
    [|reflexivity].
  pose proof (normalize_known _ N) as K. unfold known_prefecture in K.
  rewrite K. apply andb_true_iff in K as [_ K]. unfold mem in K.
  destruct (get String.eqb p Jet.PREFECTURE_COORDS); [reflexivity|discriminate].
Qed.

(** ** One iteration of the address loop *)

(** A state code the parser returns is a key of [STATE_ABBREV]. *)
Lemma parse_state_in_table (address city state zip_code : option string) :
  Residence.parse_address address = (city, state, zip_code) ->
  forall code, state = Some code ->
  mem String.eqb code Residence.STATE_ABBREV = true.
Proof.
  unfold Residence.parse_address. destruct address as [a|].
  2:{ intros [= <- <- <-] code. discriminate. }
  destruct (_ || _).
  { intros [= <- <- <-] code. discriminate. }
  cbv zeta.
  destruct (Re.search false Residence.state_re (upper a)) as [m|].
  - destruct (mem String.eqb _ Residence.STATE_ABBREV) eqn:M.
    + intros [= _ <- _] code [= <-]. exact M.
    + intros [= _ <- _] code. discriminate.
  - intros [= _ <- _] code. discriminate.
Qed.

Lemma state_code_truthy (code : string) :
  mem String.eqb code Residence.STATE_ABBREV = true -> truthy (Some code) = true.
Proof.
  intro M. unfold truthy. destruct (String.eqb_spec code "") as [->|]; [|reflexivity].
  vm_compute in M. discriminate.
Qed.

Lemma residence_loop_body_eq (st : Residence.state) (r : row) :
  Residence.loop_body st r
  = Residence.State
      (match residence_label r with
       | Some c => counter_incr c (Residence.states st)
       | None => Residence.states st
       end)
      (match residence_entry r with
       | Some e => add_location e (Residence.locations st)
       | None => Residence.locations st
       end)
      (Residence.total st + 1)
      (match residence_label r with
       | Some _ => Residence.parsed st + 1
       | None => Residence.parsed st
       end)
      (match residence_entry r with
       | Some _ => Residence.geocoded st + 1
       | None => Residence.geocoded st
       end)%Z.
Proof.
  unfold Residence.loop_body, residence_entry, residence_label.
  destruct (Residence.parse_address (row_get "Address" r)) as [[city state] zip] eqn:P.
  simpl fst; simpl snd.
  destruct state as [code|]; [|reflexivity].
  rewrite (state_code_truthy _ (parse_state_in_table _ P eq_refl)).
  destruct (Residence.get_coords zip (Some code)); reflexivity.
Qed.

(** ** What one row adds to the counts *)

Lemma jet_step_label (k : string) (st : Jet.state) (r : row) :
  counter_get k (Jet.prefectures (Jet.loop_body st r))
  = (counter_get k (Jet.prefectures st) + label_weight k (jet_label r))%Z.
Proof.
  rewrite jet_loop_body_eq. simpl. destruct (jet_label r) as [p|].
  - apply counter_get_incr.
  - simpl. lia.
Qed.

Lemma jet_step_bucket (key : coord) (st : Jet.state) (r : row) :
  location_count key (Jet.locations (Jet.loop_body st r))
  = (location_count key (Jet.locations st) + bucket_weight key (jet_entry r))%Z.
Proof.
  rewrite jet_loop_body_eq. simpl. destruct (jet_entry r) as [e|].
  - apply location_count_add.
  - simpl. lia.
Qed.

Lemma jet_step_total (st : Jet.state) (r : row) :
  Jet.total (Jet.loop_body st r) = (Jet.total st + (fun _ => 1) r)%Z.
Proof. now rewrite jet_loop_body_eq. Qed.

Lemma residence_step_label (k : string) (st : Residence.state) (r : row) :
  counter_get k (Residence.states (Residence.loop_body st r))
  = (counter_get k (Residence.states st) + label_weight k (residence_label r))%Z.
Proof.
  rewrite residence_loop_body_eq. simpl. destruct (residence_label r) as [c|].
  - apply counter_get_incr.
  - simpl. lia.
Qed.

Lemma residence_step_bucket (key : coord) (st : Residence.state) (r : row) :
  location_count key (Residence.locations (Residence.loop_body st r))
  = (location_count key (Residence.locations st)
     + bucket_weight key (residence_entry r))%Z.
Proof.
  rewrite residence_loop_body_eq. simpl. destruct (residence_entry r) as [e|].
  - apply location_count_add.
  - simpl. lia.
Qed.

Lemma residence_step_total (st : Residence.state) (r : row) :
  Residence.total (Residence.loop_body st r)
  = (Residence.total st + (fun _ => 1) r)%Z.
Proof. now rewrite residence_loop_body_eq. Qed.

Lemma zsum_ones (A : Type) (l : list A) :
  zsum (map (fun _ => 1%Z) l) = Z.of_nat (List.length l).
Proof.
  induction l as [|a l IH]; [reflexivity|].
  change (zsum (map (fun _ => 1%Z) (a :: l)))
    with (1 + zsum (map (fun _ : A => 1%Z) l))%Z.
  rewrite IH. change (List.length (a :: l)) with (S (List.length l)). lia.
Qed.

Lemma jet_total_rows (rows : list row) :
  Jet.total (Jet.loop rows) = Z.of_nat (List.length rows).
Proof.
  unfold Jet.loop. rewrite (fold_adds _ _ _ jet_step_total), zsum_ones.
  reflexivity.
Qed.

Lemma residence_total_rows (rows : list row) :
  Residence.total (Residence.loop rows) = Z.of_nat (List.length rows).
Proof.
  unfold Residence.loop. rewrite (fold_adds _ _ _ residence_step_total), zsum_ones.
  reflexivity.
Qed.

(** C8.  Two inputs with the same rows in a different order end with the same
    count in every bucket and the same count under every category label, in
    both scripts. *)
Theorem aggregation_order_independent (rows1 rows2 : list row) :
  Permutation rows1 rows2 ->
  (forall key, location_count key (Jet.locations (Jet.loop rows1))
               = location_count key (Jet.locations (Jet.loop rows2)))
  /\ (forall label, counter_get label (Jet.prefectures (Jet.loop rows1))
                    = counter_get label (Jet.prefectures (Jet.loop rows2)))
  /\ (forall key, location_count key (Residence.locations (Residence.loop rows1))
                  = location_count key (Residence.locations (Residence.loop rows2)))
  /\ (forall label, counter_get label (Residence.states (Residence.loop rows1))
                    = counter_get label (Residence.states (Residence.loop rows2))).
Proof.
  intro P. unfold Jet.loop, Residence.loop. repeat split.
  - intro key.
    exact (fold_permutation _ (fun st => location_count key (Jet.locations st))
             _ (jet_step_bucket key) Jet.init P).
  - intro label.
    exact (fold_permutation _ (fun st => counter_get label (Jet.prefectures st))
             _ (jet_step_label label) Jet.init P).
  - intro key.
    exact (fold_permutation _
             (fun st => location_count key (Residence.locations st))
             _ (residence_step_bucket key) Residence.init P).
  - intro label.
    exact (fold_permutation _
             (fun st => counter_get label (Residence.states st))
             _ (residence_step_label label) Residence.init P).
Qed.

Lemma aggregation_order_independent_witness :
  let a := address_row "123 Main St, Los Angeles CA 90012" in
  let b := address_row "1 Ocean Ave, Santa Monica CA 90401" in
  Permutation [a; b] [b; a]
  /\ forall label,
       counter_get label (Residence.states (Residence.loop [a; b]))
       = counter_get label (Residence.states (Residence.loop [b; a])).
Proof.
  intros a b.
  assert (P : Permutation [a; b] [b; a]) by apply perm_swap.
  split; [exact P|].
  exact (proj2 (proj2 (proj2 (aggregation_order_independent P)))).
Defined.

(** ** The coordinate pairs of the tables *)

Lemma prefecture_pairs_distinct :
  forallb (fun kv1 =>
    forallb (fun kv2 =>
      String.eqb (fst kv1) (fst kv2)
      || negb (coord_eqb (coord_of (snd kv1)) (coord_of (snd kv2))))
      Jet.PREFECTURE_COORDS) Jet.PREFECTURE_COORDS = true.
Proof. vm_compute. reflexivity. Qed.

Lemma main_ok_of_total (A : Type) (x total : Z) (k : Z -> result A) :
  (0 < total)%Z -> bind (floordiv x total) k = k (x / total)%Z.
Proof.
  intro H. unfold floordiv. destruct (Z.eqb_spec total 0); [lia|reflexivity].
Qed.

(** ** The Los Angeles scenario *)

(** C3, as the code has it.  The address parses to city [Los Angeles], state
    [CA] and zip [90012]; the lookup returns the entry of the specific zip
    90012, named [Chinatown/Civic Center], and not the entry of the prefix
    900; after the one row the bucket of that entry counts 1 and the
    category [CA] counts 1. *)
Theorem los_angeles_scenario :
  let a := "123 Main St, Los Angeles CA 90012" in
  let entry := (340622, -1182406, "Chinatown/Civic Center")%Z in
  Residence.parse_address (Some a) = (Some "Los Angeles", Some "CA", Some "90012")
  /\ get String.eqb "90012" fine_table = Some entry
  /\ Residence.get_coords (Some "90012") (Some "CA") = Some entry
  /\ get String.eqb (take 3 "90012") coarse_table
     = Some (340522, -1182437, "Downtown LA")%Z
  /\ Residence.states (Residence.loop [address_row a]) = [("CA", 1%Z)]
  /\ Residence.locations (Residence.loop [address_row a])
     = [(coord_of entry, Bucket 1 "Chinatown/Civic Center" 340622 (-1182406))].
Proof. vm_compute. repeat split. Qed.

(** C3, as stated, fails in one point: the entry the lookup returns for 90012
    is not the one named [Downtown LA]; that name belongs to the prefix 900
    and to the specific zip 90013. *)
Lemma zip_90012_not_downtown :
  (~ exists lat lng,
       Residence.get_coords (Some "90012") (Some "CA")
       = Some (lat, lng, "Downtown LA"))
  /\ keys (filter (fun kv => String.eqb (name_of (snd kv)) "Downtown LA")
                  Residence.ZIP_COORDS) = ["900"; "90013"].
Proof.
  split.
  - intros (la & lo & H). vm_compute in H. discriminate.
  - vm_compute. reflexivity.
Qed.

(** ** Categories and buckets *)

(** C7.  A row with a category label adds one to that label's count, in both
    scripts and whether or not the row also reaches a bucket; and there is a
    row of the address script that is counted under its state while the
    buckets stay as they were.  In the prefecture script the two coincide: a
    row with a label always has an entry to be bucketed under. *)
Theorem category_counts_independent :
  (forall st r code,
     residence_label r = Some code ->
     counter_get code (Residence.states (Residence.loop_body st r))
     = (counter_get code (Residence.states st) + 1)%Z)
  /\ (forall st r pref,
        jet_label r = Some pref ->
        counter_get pref (Jet.prefectures (Jet.loop_body st r))
        = (counter_get pref (Jet.prefectures st) + 1)%Z)
  /\ (exists r code,
        residence_label r = Some code
        /\ residence_entry r = None
        /\ forall st,
             counter_get code (Residence.states (Residence.loop_body st r))
             = (counter_get code (Residence.states st) + 1)%Z
             /\ Residence.locations (Residence.loop_body st r)
                = Residence.locations st)
  /\ (forall r pref, jet_label r = Some pref -> jet_entry r <> None).
Proof.
  assert (R : forall st r code,
             residence_label r = Some code ->
             counter_get code (Residence.states (Residence.loop_body st r))
             = (counter_get code (Residence.states st) + 1)%Z).
  { intros st r code L. rewrite residence_step_label, L. simpl.
    now rewrite String.eqb_refl. }
  split; [exact R|]. split; [|split].
  - intros st r pref L. rewrite jet_step_label, L. simpl.
    now rewrite String.eqb_refl.
  - exists (address_row "350 Fifth Ave, New York NY 10118"), "NY".
    assert (L : residence_label (address_row "350 Fifth Ave, New York NY 10118")
                = Some "NY") by (vm_compute; reflexivity).
    assert (E : residence_entry (address_row "350 Fifth Ave, New York NY 10118")
                = None) by (vm_compute; reflexivity).
    split; [exact L|]. split; [exact E|].
    intro st. split; [now apply R|].
    rewrite residence_loop_body_eq, E. reflexivity.
  - intros r pref L. unfold jet_entry. rewrite L.
    pose proof (normalize_known _ L) as K. unfold known_prefecture in K.
    apply andb_true_iff in K as [_ K]. unfold mem in K.
    destruct (get String.eqb pref Jet.PREFECTURE_COORDS); [discriminate|].
    discriminate K.
Qed.

(** A Californian address whose digits run on: the state is found, no zip
    code is, and the row is counted under [CA] only. *)
Lemma category_counts_independent_witness :
  let r := address_row "Pasadena CA 911011" in
  residence_label r = Some "CA"
  /\ Residence.parse_address (row_get "Address" r) = (Some "Pasadena", Some "CA", None)
  /\ counter_get "CA" (Residence.states (Residence.loop_body Residence.init r)) = 1%Z.
Proof.
  intro r.
  assert (L : residence_label r = Some "CA") by (vm_compute; reflexivity).
  split; [exact L|]. split; [vm_compute; reflexivity|].
  exact (proj1 category_counts_independent Residence.init r "CA" L).
Defined.

(** ** Order of appearance in a list *)

Section Before.

Variable A : Type.
Implicit Types (x y a : A) (l : list A).

Lemma before_cons x y a l : before x y l -> before x y (a :: l).
Proof.
  intros (l1 & l2 & l3 & ->). now exists (a :: l1), l2, l3.
Qed.

Lemma before_head x y l : In y l -> before x y (x :: l).
Proof.
  intro H. apply in_split in H as (l2 & l3 & ->). now exists [], l2, l3.
Qed.

Lemma before_inv_cons x y a l :
  before x y (a :: l) -> (a = x /\ In y l) \/ before x y l.
Proof.
  intros ([|b l1] & l2 & l3 & E); simpl in E; injection E as -> ->.
  - left. split; [reflexivity|]. apply in_or_app. right. now left.
  - right. now exists l1, l2, l3.
Qed.

Lemma before_app_l x y l l' : before x y l -> before x y (l ++ l').
Proof.
  intros (l1 & l2 & l3 & ->). exists l1, l2, (l3 ++ l').
  now rewrite <- !app_assoc, <- !app_comm_cons, <- app_assoc.
Qed.

Lemma before_snoc_inv x y a l :
  before x y (l ++ [a]) -> before x y l \/ (y = a /\ In x l).
Proof.
  intros (l1 & l2 & l3 & E).
  destruct l3 as [|b l3t].
  - right.
    change (l1 ++ x :: l2 ++ [y]) with (l1 ++ (x :: l2) ++ [y]) in E.
    rewrite app_assoc in E. apply app_inj_tail in E as [-> ->].
    split; [reflexivity|]. apply in_or_app. right. now left.
  - left.
    destruct (@exists_last _ (b :: l3t)) as (l3' & z & Hl3); [discriminate|].
    rewrite Hl3 in E.
    assert (E' : l ++ [a] = (l1 ++ x :: l2 ++ y :: l3') ++ [z]).
    { rewrite E. rewrite <- !app_assoc. simpl. rewrite <- !app_assoc. reflexivity. }
    apply app_inj_tail in E' as [-> _]. now exists l1, l2, l3'.
Qed.

Lemma before_filter (P : A -> bool) x y l :
  before x y (filter P l) -> before x y l.
Proof.
  induction l as [|a l IH]; simpl.
  - intros ([|? ?] & ? & ? & E); discriminate.
  - destruct (P a).
    + intro H. apply before_inv_cons in H as [[-> Hy] | H].
      * apply before_head. now apply filter_In in Hy.
      * apply before_cons. now apply IH.
    + intro H. apply before_cons. now apply IH.
Qed.

Lemma filter_before (P : A -> bool) x y l :
  P x = true -> P y = true -> before x y l -> before x y (filter P l).
Proof.
  intros Px Py. induction l as [|a l IH]; simpl.
  - intros ([|? ?] & ? & ? & E); discriminate.
  - intro H. apply before_inv_cons in H as [[-> Hy] | H].
    + rewrite Px. apply before_head. apply filter_In. now split.
    + destruct (P a); [apply before_cons|]; now apply IH.
Qed.

Lemma before_firstn (n : nat) x y l : before x y (firstn n l) -> before x y l.
Proof.
  intro H. rewrite <- (firstn_skipn n l). now apply before_app_l.
Qed.

Lemma before_sorted (R : A -> A -> Prop) x y l :
  StronglySorted R l -> before x y l -> R x y.
Proof.
  induction 1 as [|a l _ IH F]; intro H.
  - destruct H as ([|? ?] & ? & ? & E); discriminate.
  - apply before_inv_cons in H as [[-> Hy] | H].
    + exact (proj1 (Forall_forall _ _) F _ Hy).
    + now apply IH.
Qed.

End Before.

Lemma before_map (A B : Type) (f : A -> B) (x y : A) (l : list A) :
  before x y l -> before (f x) (f y) (map f l).
Proof.
  intros (l1 & l2 & l3 & ->). exists (map f l1), (map f l2), (map f l3).
  now rewrite map_app, (map_cons f x), map_app, (map_cons f y).
Qed.

(** ** The ranking *)

Lemma insert_desc_in (x z : string * Z) (l : list (string * Z)) :
  In z (insert_desc x l) <-> z = x \/ In z l.
Proof.
  induction l as [|y l IH]; simpl.
  - intuition congruence.
  - destruct (snd x <? snd y)%Z; simpl; [rewrite IH|]; intuition congruence.
Qed.

Lemma insert_desc_sorted (x : string * Z) (l : list (string * Z)) :
  StronglySorted count_ge l -> StronglySorted count_ge (insert_desc x l).
Proof.
  induction 1 as [|y l S IH F]; simpl.
  - constructor; constructor.
  - destruct (Z.ltb_spec (snd x) (snd y)) as [Hlt|Hge].
    + constructor; [exact IH|].
      apply Forall_forall. intros z Hz. apply insert_desc_in in Hz as [->|Hz].
      * unfold count_ge. lia.
      * exact (proj1 (Forall_forall _ _) F _ Hz).
    + constructor; [constructor; assumption|].
      constructor; [unfold count_ge; lia|].
      apply Forall_forall. intros z Hz.
      pose proof (proj1 (Forall_forall _ _) F _ Hz) as Hyz.
      unfold count_ge in *. lia.
Qed.

Lemma sorted_desc_sorted (l : list (string * Z)) :
  StronglySorted count_ge (sorted_desc l).
Proof.
  induction l as [|x l IH]; simpl; [constructor | now apply insert_desc_sorted].
Qed.

(** Inserting passes over greater counts only, so among the items of one
    count the new one comes first. *)
Lemma insert_desc_filter (v : Z) (x : string * Z) (l : list (string * Z)) :
  filter (has_count v) (insert_desc x l)
  = if has_count v x then x :: filter (has_count v) l else filter (has_count v) l.
Proof.
  induction l as [|y l IH]; simpl; [reflexivity|].
  destruct (Z.ltb_spec (snd x) (snd y)) as [Hlt|Hge]; simpl; [|reflexivity].
  rewrite IH. unfold has_count.
  destruct (Z.eqb_spec (snd x) v), (Z.eqb_spec (snd y) v); try reflexivity. lia.
Qed.

(** Stability: the items of one count keep their order. *)
Lemma sorted_desc_filter (v : Z) (l : list (string * Z)) :
  filter (has_count v) (sorted_desc l) = filter (has_count v) l.
Proof.
  induction l as [|x l IH]; simpl; [reflexivity|].
  rewrite insert_desc_filter, IH. reflexivity.
Qed.

Lemma most_common_order (n : nat) (c : Counter) (x y : string * Z) :
  before x y (most_common n c) ->
  count_ge x y /\ (snd x = snd y -> before x y c).
Proof.
  unfold most_common. intro H. apply before_firstn in H. split.
  - exact (before_sorted (sorted_desc_sorted c) H).
  - intro E. apply (before_filter (has_count (snd x))).
    rewrite <- sorted_desc_filter. apply filter_before; [| |exact H].
    + unfold has_count. apply Z.eqb_refl.
    + unfold has_count. rewrite E. apply Z.eqb_refl.
Qed.

(** ** The order of the keys of a counter *)

Lemma count_labels_snoc (ls : list string) (a : string) (c : Counter) :
  count_labels (ls ++ [a]) c = counter_incr a (count_labels ls c).
Proof. unfold count_labels. now rewrite fold_left_app. Qed.

Lemma keys_counter_incr (a : string) (c : Counter) :
  keys (counter_incr a c) = if mem String.eqb a c then keys c else keys c ++ [a].
Proof. unfold counter_incr. apply keys_setitem. Qed.

Lemma in_keys_count_labels (ls : list string) :
  forall k, In k (keys (count_labels ls [])) <-> In k ls.
Proof.
  induction ls as [|a ls IH] using rev_ind; intro k; [reflexivity|].
  rewrite count_labels_snoc, keys_counter_incr, in_app_iff.
  destruct (mem String.eqb a (count_labels ls [])) eqn:M.
  - apply (mem_in_keys _ String.eqb_eq) in M. apply IH in M.
    rewrite IH. simpl. split; [tauto|]. intros [H|[<-|[]]]; assumption.
  - rewrite in_app_iff, IH. reflexivity.
Qed.

Lemma keys_first_seen (ls : list string) (a b : string) :
  before a b (keys (count_labels ls [])) -> first_seen_before a b ls.
Proof.
  induction ls as [|z ls IH] using rev_ind.
  - intros ([|? ?] & ? & ? & E); discriminate.
  - rewrite count_labels_snoc, keys_counter_incr.
    assert (Ext : first_seen_before a b ls -> first_seen_before a b (ls ++ [z])).
    { intros (l1 & l2 & -> & N & I). exists l1, (l2 ++ [z]). split; [|split].
      - now rewrite <- app_assoc.
      - exact N.
      - apply in_or_app. now left. }
    destruct (mem String.eqb z (count_labels ls [])) eqn:M.
    + intro H. apply Ext. now apply IH.
    + intro H. apply before_snoc_inv in H as [H | [-> Ha]].
      * apply Ext. now apply IH.
      * apply (proj1 (@in_keys_count_labels ls a)) in Ha.
        assert (Nz : ~ In z ls).
        { intro Hz. apply (proj2 (@in_keys_count_labels ls z)) in Hz.
          apply (mem_in_keys _ String.eqb_eq) in Hz. congruence. }
        apply in_split in Ha as (l1 & l2 & ->).
        exists l1, (l2 ++ [z]). split; [|split].
        -- now rewrite <- app_assoc.
        -- intro Hz. apply Nz. apply in_or_app. now left.
        -- apply in_or_app. right. now left.
Qed.

Lemma jet_prefectures_labels (rows : list row) (st : Jet.state) :
  Jet.prefectures (fold_left Jet.loop_body rows st)
  = count_labels (jet_labels rows) (Jet.prefectures st).
Proof.
  revert st. induction rows as [|r rows IH]; intro st; [reflexivity|].
  simpl fold_left. rewrite IH, jet_loop_body_eq. unfold jet_labels. simpl.
  destruct (jet_label r); reflexivity.
Qed.

Lemma residence_states_labels (rows : list row) (st : Residence.state) :
  Residence.states (fold_left Residence.loop_body rows st)
  = count_labels (residence_labels rows) (Residence.states st).
Proof.
  revert st. induction rows as [|r rows IH]; intro st; [reflexivity|].
  simpl fold_left. rewrite IH, residence_loop_body_eq. unfold residence_labels. simpl.
  destruct (residence_label r); reflexivity.
Qed.

Lemma ranking_of_labels (n : nat) (ls : list string) (x y : string * Z) :
  before x y (most_common n (count_labels ls [])) ->
  (snd y <= snd x)%Z
  /\ (snd x = snd y -> first_seen_before (fst x) (fst y) ls).
Proof.
  intro H. apply most_common_order in H as [G T]. split; [exact G|].
  intro E. apply keys_first_seen. unfold keys. apply before_map. now apply T.
Qed.

(** C9.  In the ranking of either script an entry standing before another
    does not count less, and when both count the same, its label was met
    first in the input. *)
Theorem top_n_ranking (n : nat) (rows : list row) (x y : string * Z) :
  (before x y (most_common n (Jet.prefectures (Jet.loop rows))) ->
   (snd y <= snd x)%Z
   /\ (snd x = snd y -> first_seen_before (fst x) (fst y) (jet_labels rows)))
  /\ (before x y (most_common n (Residence.states (Residence.loop rows))) ->
      (snd y <= snd x)%Z
      /\ (snd x = snd y ->
          first_seen_before (fst x) (fst y) (residence_labels rows))).
Proof.
  split; intro H.
  - unfold Jet.loop in H. rewrite jet_prefectures_labels in H.
    now apply ranking_of_labels in H.
  - unfold Residence.loop in H. rewrite residence_states_labels in H.
    now apply ranking_of_labels in H.
Qed.

(** Four placements: Kyoto twice, then Osaka and Tokyo once each.  Osaka and
    Tokyo tie, and Osaka, met first, is ranked first. *)
Lemma top_n_ranking_witness :
  let rows := [prefecture_row "Kyoto"; prefecture_row "Osaka";
               prefecture_row "Kyoto Pref."; prefecture_row "Tokyo"] in
  most_common 15 (Jet.prefectures (Jet.loop rows))
    = [("Kyoto", 2%Z); ("Osaka", 1%Z); ("Tokyo", 1%Z)]
  /\ first_seen_before "Osaka" "Tokyo" (jet_labels rows).
Proof.
  intro rows.
  assert (E : most_common 15 (Jet.prefectures (Jet.loop rows))
              = [("Kyoto", 2%Z); ("Osaka", 1%Z); ("Tokyo", 1%Z)])
    by (vm_compute; reflexivity).
  split; [exact E|].
  refine (proj2 (proj1 (top_n_ranking 15 rows ("Osaka", 1%Z) ("Tokyo", 1%Z)) _)
                eq_refl).
  rewrite E. now exists [("Kyoto", 2%Z)], [], [].
Defined.

(** ** Soundness of the matcher *)







Section Steps.

Variable icase : bool.
Variable s : string.
Implicit Types m : Re.mstate.














End Steps.

(** ** The state code of an address *)





























(** ** Where a text occurs in another *)






(** ** More on the normaliser *)

Lemma find_first (A : Type) (f : A -> bool) (l : list A) (x : A) :
  find f l = Some x <->
  exists l1 l2, l = l1 ++ x :: l2 /\ f x = true /\ forall y, In y l1 -> f y = false.
Proof.
  induction l as [|a l IH]; simpl.
  - split; [discriminate|]. intros ([|? ?] & ? & E & _); discriminate.
  - destruct (f a) eqn:Fa.
    + split.
      * intros [= ->]. exists [], l. repeat split; [exact Fa | intros y []].
      * intros ([|b l1] & l2 & E & Fx & N); simpl in E; injection E as -> ->.
        -- reflexivity.
        -- rewrite (N b (or_introl eq_refl)) in Fa. discriminate.
    + rewrite IH. split.
      * intros (l1 & l2 & -> & Fx & N). exists (a :: l1), l2.
        repeat split; [exact Fx|]. intros y [<-|Hy]; [exact Fa | now apply N].
      * intros ([|b l1] & l2 & E & Fx & N); simpl in E; injection E as -> ->.
        -- rewrite Fx in Fa. discriminate.
        -- exists l1, l2. repeat split; [exact Fx|].
           intros y Hy. apply N. now right.
Qed.

(** The normaliser on a field it does not dismiss at once. *)
Lemma normalize_considered (raw : string) :
  considered raw ->
  Jet.normalize_prefecture (Some raw)
  = match get String.eqb (cleaned raw) Jet.PREFECTURE_ALIASES with
    | Some canonical => Some canonical
    | None => find (Jet.loose_match (cleaned raw)) (keys Jet.PREFECTURE_COORDS)
    end.
Proof.
  intros (H1 & H2 & H3). unfold Jet.normalize_prefecture, cleaned.
  rewrite (proj2 (String.eqb_neq _ _) H1), (proj2 (String.eqb_neq _ _) H2),
    (proj2 (String.eqb_neq _ _) H3). reflexivity.
Qed.

Lemma entries_named_by_key :
  forallb (fun kv => String.eqb (fst kv) (name_of (snd kv))) Jet.PREFECTURE_COORDS
  = true.
Proof. vm_compute. reflexivity. Qed.

Lemma keys_are_fixed :
  forallb (fun k => match Jet.normalize_prefecture (Some k) with
                    | Some p => String.eqb p k
                    | None => false
                    end) (keys Jet.PREFECTURE_COORDS) = true.
Proof. vm_compute. reflexivity. Qed.

Lemma alias_keys_not_in_hokkaido :
  forallb (fun kv => negb (contains (lower (fst kv)) "hokkaido"))
          Jet.PREFECTURE_ALIASES = true.
Proof. vm_compute. reflexivity. Qed.

(** X1.  Whatever the normaliser returns is one of the keys of
    [PREFECTURE_COORDS]: a non-empty name whose entry carries that same name
    as its display name. *)
Theorem normalize_returns_table_key (raw : option string) (p : string) :
  Jet.normalize_prefecture raw = Some p ->
  p <> ""
  /\ In p (keys Jet.PREFECTURE_COORDS)
  /\ exists lat lng, get String.eqb p Jet.PREFECTURE_COORDS = Some (lat, lng, p).
Proof.
  intro N. pose proof (normalize_known _ N) as K. unfold known_prefecture in K.
  apply andb_true_iff in K as [T M]. split; [|split].
  - intros ->. discriminate T.
  - now apply (mem_in_keys _ String.eqb_eq).
  - unfold mem in M.
    destruct (get String.eqb p Jet.PREFECTURE_COORDS) as [[[la lo] nm]|] eqn:G;
      [|discriminate].
    pose proof (get_some_in _ String.eqb_eq _ _ G) as Hin.
    pose proof (proj1 (forallb_forall _ _) entries_named_by_key _ Hin) as E.
    apply String.eqb_eq in E. simpl in E. subst nm. now exists la, lo.
Qed.

Lemma normalize_returns_table_key_witness :
  Jet.normalize_prefecture (Some "Hiroshima Prefecture") = Some "Hiroshima"
  /\ In "Hiroshima" (keys Jet.PREFECTURE_COORDS).
Proof.
  assert (N : Jet.normalize_prefecture (Some "Hiroshima Prefecture") = Some "Hiroshima")
    by (vm_compute; reflexivity).
  split; [exact N|].
  exact (proj1 (proj2 (normalize_returns_table_key _ N))).
Defined.

(** X2.  Normalising is idempotent: a name the normaliser has returned
    normalises to itself. *)
Theorem normalize_idempotent (raw : option string) (p : string) :
  Jet.normalize_prefecture raw = Some p ->
  Jet.normalize_prefecture (Some p) = Some p.
Proof.
  intro N. pose proof (normalize_known _ N) as K. unfold known_prefecture in K.
  apply andb_true_iff in K as [_ M]. apply (mem_in_keys _ String.eqb_eq) in M.
  pose proof (proj1 (forallb_forall _ _) keys_are_fixed _ M) as F.
  cbv beta in F.
  destruct (Jet.normalize_prefecture (Some p)) as [q|]; [|discriminate].
  apply String.eqb_eq in F. now subst q.
Qed.

Lemma normalize_idempotent_witness :
  Jet.normalize_prefecture (Some "osaka-fu") = Some "Osaka"
  /\ Jet.normalize_prefecture (Some "Osaka") = Some "Osaka".
Proof.
  assert (N : Jet.normalize_prefecture (Some "osaka-fu") = Some "Osaka")
    by (vm_compute; reflexivity).
  split; [exact N | exact (normalize_idempotent _ N)].
Defined.

(** X4.  A field that names a prefecture is never left unresolved: when the
    cleaned text contains a key of the table, in whatever letter case and
    with whatever else around it, the normaliser returns a prefecture. *)
Theorem normalize_never_misses (raw k : string) :
  considered raw ->
  In k (keys Jet.PREFECTURE_COORDS) ->
  contains (lower k) (lower (cleaned raw)) = true ->
  exists p, Jet.normalize_prefecture (Some raw) = Some p.
Proof.
  intros C Hk Hc. rewrite (normalize_considered C).
  destruct (get String.eqb (cleaned raw) Jet.PREFECTURE_ALIASES) as [c|];
    [now exists c|].
  destruct (find (Jet.loose_match (cleaned raw)) (keys Jet.PREFECTURE_COORDS))
    as [p|] eqn:F; [now exists p|].
  pose proof (find_none _ _ F k Hk) as N. unfold Jet.loose_match in N.
  rewrite Hc in N. discriminate.
Qed.

Lemma normalize_never_misses_witness :
  considered "  NAGANO-KEN (Matsumoto) "
  /\ exists p, Jet.normalize_prefecture (Some "  NAGANO-KEN (Matsumoto) ") = Some p.
Proof.
  assert (C : considered "  NAGANO-KEN (Matsumoto) ")
    by (repeat split; vm_compute; discriminate).
  split; [exact C|].
  apply (@normalize_never_misses _ "Nagano" C).
  - vm_compute. tauto.
  - vm_compute. reflexivity.
Defined.

(** X5.  The containment test also accepts a text that is contained in a
    key.  So every field whose cleaned text is a piece of the word
    [hokkaido], the first key, resolves to Hokkaido: a single letter such as
    [a] or [o], and also a field made of double quotes only, whose cleaned
    text is empty. *)
Theorem normalize_piece_of_hokkaido (raw : string) :
  considered raw ->
  contains (lower (cleaned raw)) "hokkaido" = true ->
  Jet.normalize_prefecture (Some raw) = Some "Hokkaido".
Proof.
  intros C Hc. rewrite (normalize_considered C).
  destruct (get String.eqb (cleaned raw) Jet.PREFECTURE_ALIASES) as [c|] eqn:A.
  - apply (get_some_in _ String.eqb_eq) in A.
    pose proof (proj1 (forallb_forall _ _) alias_keys_not_in_hokkaido _ A) as N.
    cbv beta in N. change (fst (cleaned raw, c)) with (cleaned raw) in N.
    rewrite Hc in N. discriminate.
  - apply find_first. exists [], (tl (keys Jet.PREFECTURE_COORDS)).
    split; [reflexivity|]. split; [|intros y []].
    unfold Jet.loose_match.
    change (lower "Hokkaido") with "hokkaido". rewrite Hc. apply orb_true_r.
Qed.

Lemma normalize_piece_of_hokkaido_witness :
  Jet.normalize_prefecture (Some (String Jet.dquote (String Jet.dquote "")))
    = Some "Hokkaido"
  /\ Jet.normalize_prefecture (Some "a") = Some "Hokkaido".
Proof.
  split.
  - apply normalize_piece_of_hokkaido.
    + repeat split; vm_compute; discriminate.
    + vm_compute. reflexivity.
  - apply normalize_piece_of_hokkaido.
    + repeat split; vm_compute; discriminate.
    + vm_compute. reflexivity.
Defined.

(** ** Rows without the field *)

Lemma parse_address_blank (s : string) :
  all_chars isspace s = true ->
  Residence.parse_address (Some s) = (None, None, None).
Proof.
  intro H. unfold Residence.parse_address.
  rewrite (strip_blank _ H). simpl. now rewrite orb_true_r.
Qed.

(** X6.  A missing field is no error.  A row that has no column of the
    expected name, or has [None] or only white space in it, is counted in
    [total] and changes nothing else, in both scripts. *)
Theorem row_without_field (r : row) :
  (row_get "Address" r = None
   \/ (exists s, row_get "Address" r = Some s /\ all_chars isspace s = true) ->
   forall st,
     Residence.loop_body st r
     = Residence.State (Residence.states st) (Residence.locations st)
         (Residence.total st + 1) (Residence.parsed st) (Residence.geocoded st))
  /\ (row_get "JET Prefecture" r = None
      \/ (exists s, row_get "JET Prefecture" r = Some s
                    /\ all_chars isspace s = true) ->
      forall st,
        Jet.loop_body st r
        = Jet.State (Jet.prefectures st) (Jet.locations st)
            (Jet.total st + 1) (Jet.mapped st))
  /\ (get String.eqb "Address" r = None -> row_get "Address" r = Some "")
  /\ (get String.eqb "JET Prefecture" r = None ->
      row_get "JET Prefecture" r = Some "").
Proof.
  split; [|split; [|split]].
  - intros H st.
    assert (P : Residence.parse_address (row_get "Address" r) = (None, None, None)).
    { destruct H as [-> | (s & -> & B)]; [reflexivity | now apply parse_address_blank]. }
    unfold Residence.loop_body. now rewrite P.
  - intros H st.
    assert (N : Jet.normalize_prefecture (row_get "JET Prefecture" r) = None).
    { destruct H as [-> | (s & -> & B)]; [reflexivity|].
      unfold Jet.normalize_prefecture. rewrite (strip_blank _ B). simpl.
      now rewrite orb_true_r. }
    unfold Jet.loop_body. now rewrite N.
  - intro G. unfold row_get. now rewrite G.
  - intro G. unfold row_get. now rewrite G.
Qed.

(** A row of another file, with neither column. *)
Lemma row_without_field_witness :
  let r : row := [("Email", Some "a@example.org")] in
  Residence.loop_body Residence.init r = Residence.State [] [] 1 0 0
  /\ Jet.loop_body Jet.init r = Jet.State [] [] 1 0.
Proof.
  intro r.
  destruct (row_without_field r) as (HR & HJ & GA & GJ).
  split.
  - apply (HR (or_intror (ex_intro _ "" (conj (GA eq_refl) eq_refl)))).
  - apply (HJ (or_intror (ex_intro _ "" (conj (GJ eq_refl) eq_refl)))).
Defined.

(** ** Which zip codes are covered *)

Lemma fine_prefix_known :
  forallb (fun kv => mem String.eqb (take 3 (fst kv)) Residence.ZIP_COORDS)
          fine_table = true.
Proof. vm_compute. reflexivity. Qed.

Lemma get_take3 (z : string) (e : region) :
  get String.eqb z Residence.ZIP_COORDS = Some e ->
  get String.eqb (take 3 z) Residence.ZIP_COORDS <> None.
Proof.
  intro G. destruct (@zip_get_length _ _ G) as [L|L].
  - rewrite (@take_all 3 z) by lia. now rewrite G.
  - assert (F : get String.eqb z fine_table = Some e).
    { rewrite get_fine, L. exact G. }
    apply (get_some_in _ String.eqb_eq) in F.
    pose proof (proj1 (forallb_forall _ _) fine_prefix_known _ F) as M.
    cbv beta in M. change (fst (z, e)) with z in M. unfold mem in M.
    destruct (get String.eqb (take 3 z) Residence.ZIP_COORDS); [discriminate|].
    discriminate M.
Qed.

(** X7.  Whether a zip code reaches the map is decided by its first three
    characters alone: the lookup fails exactly when they are no key of the
    table, so two codes with the same first three characters are both
    resolved or both unresolved. *)
Theorem coverage_by_prefix (state1 state2 : option string) (z1 z2 : string) :
  (Residence.get_coords (Some z1) state1 = None <->
   get String.eqb (take 3 z1) Residence.ZIP_COORDS = None)
  /\ (take 3 z1 = take 3 z2 ->
      (Residence.get_coords (Some z1) state1 = None <->
       Residence.get_coords (Some z2) state2 = None)).
Proof.
  assert (P : forall s z,
             Residence.get_coords (Some z) s = None <->
             get String.eqb (take 3 z) Residence.ZIP_COORDS = None).
  { intros s z. destruct (String.eqb_spec z "") as [->|Hz].
    - split; reflexivity.
    - rewrite (@get_coords_nonempty z s Hz).
      destruct (get String.eqb z Residence.ZIP_COORDS) as [e|] eqn:G; [|reflexivity].
      split; [discriminate|]. intro N. now apply get_take3 in G. }
  split; [apply P|]. intro E. rewrite (P state1 z1), (P state2 z2), E. reflexivity.
Qed.

Lemma coverage_by_prefix_witness :
  take 3 "90012" = take 3 "90099"
  /\ Residence.get_coords (Some "90099") None <> None.
Proof.
  assert (E : take 3 "90012" = take 3 "90099") by reflexivity.
  split; [exact E|].
  intro N.
  apply (proj2 (proj2 (coverage_by_prefix (Some "CA") None "90012" "90099") E)) in N.
  vm_compute in N. discriminate.
Defined.

(** ** The city of an address *)




















(** ** The counters of the loops *)

Lemma zsum_values_setitem (k : string) (v : Z) (c : Counter) :
  zsum (values (setitem String.eqb k v c))
  = (zsum (values c) - counter_get k c + v)%Z.
Proof.
  unfold counter_get, values. induction c as [|[k' v'] c IH]; simpl.
  - lia.
  - destruct (String.eqb k k'); simpl; [lia|]. rewrite IH. lia.
Qed.

Lemma zsum_counter_incr (k : string) (c : Counter) :
  zsum (values (counter_incr k c)) = (zsum (values c) + 1)%Z.
Proof. unfold counter_incr. rewrite zsum_values_setitem. lia. Qed.

Lemma total_count_setitem (k : coord) (b : bucket) (l : locations_t) :
  total_count (values (setitem coord_eqb k b l))
  = (total_count (values l) - location_count k l + count b)%Z.
Proof.
  unfold total_count, location_count, values.
  induction l as [|[k' b'] l IH]; simpl.
  - lia.
  - destruct (coord_eqb k k'); simpl; [lia|]. rewrite IH. lia.
Qed.

(** The bucket at the pair of [r], after [r] has been added. *)
Lemma get_add_location (key : coord) (r : region) (l : locations_t) :
  get coord_eqb key (add_location r l)
  = if hits key r
    then Some (match get coord_eqb key l with
               | Some b => Bucket (count b + 1) (name b) (lat b) (lng b)
               | None => Bucket 1 (name_of r) (fst key) (snd key)
               end)
    else get coord_eqb key l.
Proof.
  destruct r as [[la lo] nm]. unfold add_location, hits, coord_of, name_of.
  simpl fst; simpl snd. set (k := (la, lo)).
  assert (Hget : forall d, get coord_eqb k
            (if negb (mem coord_eqb k d)
             then setitem coord_eqb k (Bucket 0 nm la lo) d else d)
          = Some (match get coord_eqb k d with
                  | Some b => b | None => Bucket 0 nm la lo end)).
  { intro d. unfold mem. destruct (get coord_eqb k d) eqn:G; simpl.
    - exact G.
    - apply (get_setitem_same _ coord_eqb_eq). }
  rewrite Hget.
  destruct (coord_eqb key k) eqn:E.
  - apply coord_eqb_eq in E. subst key.
    rewrite (get_setitem_same _ coord_eqb_eq).
    destruct (get coord_eqb k l); reflexivity.
  - assert (Hne : key <> k).
    { intro H. apply coord_eqb_eq in H. congruence. }
    rewrite (get_setitem_other _ coord_eqb_eq _ _ Hne).
    unfold mem. destruct (get coord_eqb k l) eqn:G; simpl; [reflexivity|].
    apply (get_setitem_other _ coord_eqb_eq _ _ Hne).
Qed.

Lemma total_count_add_location (r : region) (l : locations_t) :
  total_count (values (add_location r l)) = (total_count (values l) + 1)%Z.
Proof.
  destruct r as [[la lo] nm]. unfold add_location. set (k := (la, lo)).
  set (l1 := if negb (mem coord_eqb k l)
             then setitem coord_eqb k (Bucket 0 nm la lo) l else l).
  assert (T1 : total_count (values l1) = total_count (values l)
               /\ exists b0, get coord_eqb k l1 = Some b0).
  { subst l1. unfold mem.
    destruct (get coord_eqb k l) as [b|] eqn:G; simpl.
    - split; [reflexivity | now exists b].
    - rewrite total_count_setitem, (get_setitem_same _ coord_eqb_eq).
      unfold location_count. rewrite G. simpl. split; [lia | eauto]. }
  destruct T1 as [T1 [b0 G1]]. rewrite G1.
  rewrite total_count_setitem, T1. unfold location_count. rewrite G1.
  simpl count. lia.
Qed.

Lemma zsum_some_weight (A : Type) (f : row -> option A) (rows : list row) :
  zsum (map (fun r => some_weight (f r)) rows)
  = Z.of_nat (List.length (somes (map f rows))).
Proof.
  induction rows as [|r rows IH]; [reflexivity|].
  simpl map. destruct (f r); simpl somes.
  - change (zsum (some_weight (Some a) :: map (fun r => some_weight (f r)) rows))
      with (1 + zsum (map (fun r => some_weight (f r)) rows))%Z.
    rewrite IH. change (List.length (a :: somes (map f rows)))
      with (S (List.length (somes (map f rows)))). lia.
  - change (zsum (some_weight (@None A) :: map (fun r => some_weight (f r)) rows))
      with (0 + zsum (map (fun r => some_weight (f r)) rows))%Z.
    rewrite IH. lia.
Qed.

Lemma somes_length_le (A : Type) (l : list (option A)) :
  List.length (somes l) <= List.length l.
Proof. induction l as [|[a|] l IH]; simpl; lia. Qed.

(** A row with an entry has a label, in both scripts; in the prefecture
    script a row with a label has an entry. *)
Lemma residence_entry_label (r : row) :
  some_weight (residence_entry r) = 1%Z -> some_weight (residence_label r) = 1%Z.
Proof.
  unfold residence_entry, residence_label.
  destruct (Residence.parse_address (row_get "Address" r)) as [[c s] z].
  simpl. destruct s; [reflexivity | discriminate].
Qed.

Lemma jet_entry_label (r : row) :
  some_weight (jet_entry r) = some_weight (jet_label r).
Proof.
  unfold jet_entry. destruct (jet_label r) as [p|] eqn:L; [|reflexivity].
  pose proof (normalize_known _ L) as K. unfold known_prefecture in K.
  apply andb_true_iff in K as [_ K]. unfold mem in K.
  destruct (get String.eqb p Jet.PREFECTURE_COORDS); [reflexivity|discriminate].
Qed.

Lemma somes_entries_le (rows : list row) :
  List.length (residence_entries rows) <= List.length (residence_labels rows).
Proof.
  unfold residence_entries, residence_labels.
  induction rows as [|r rows IH]; simpl; [lia|].
  pose proof (residence_entry_label r) as E.
  destruct (residence_entry r), (residence_label r); simpl in *; lia.
Qed.

Lemma residence_parsed_rows (rows : list row) (st : Residence.state) :
  Residence.parsed (fold_left Residence.loop_body rows st)
  = (Residence.parsed st + Z.of_nat (List.length (residence_labels rows)))%Z.
Proof.
  rewrite (fold_adds _ Residence.parsed (fun r => some_weight (residence_label r))).
  - now rewrite zsum_some_weight.
  - intros s r. rewrite residence_loop_body_eq. simpl.
    destruct (residence_label r); simpl; lia.
Qed.

Lemma residence_geocoded_rows (rows : list row) (st : Residence.state) :
  Residence.geocoded (fold_left Residence.loop_body rows st)
  = (Residence.geocoded st + Z.of_nat (List.length (residence_entries rows)))%Z.
Proof.
  rewrite (fold_adds _ Residence.geocoded (fun r => some_weight (residence_entry r))).
  - now rewrite zsum_some_weight.
  - intros s r. rewrite residence_loop_body_eq. simpl.
    destruct (residence_entry r); simpl; lia.
Qed.

Lemma jet_mapped_rows (rows : list row) (st : Jet.state) :
  Jet.mapped (fold_left Jet.loop_body rows st)
  = (Jet.mapped st + Z.of_nat (List.length (jet_labels rows)))%Z.
Proof.
  rewrite (fold_adds _ Jet.mapped (fun r => some_weight (jet_label r))).
  - now rewrite zsum_some_weight.
  - intros s r. rewrite jet_loop_body_eq. simpl.
    destruct (jet_label r); simpl; lia.
Qed.

Lemma jet_entries_length (rows : list row) :
  List.length (jet_entries rows) = List.length (jet_labels rows).
Proof.
  unfold jet_entries, jet_labels.
  induction rows as [|r rows IH]; simpl; [reflexivity|].
  pose proof (jet_entry_label r) as E.
  destruct (jet_entry r), (jet_label r); simpl in *; try discriminate; lia.
Qed.

(** X9.  What the counters count.  At the end of the address loop [total] is
    the number of rows, [parsed] the number of rows with a state and
    [geocoded] the number of rows that reached a bucket, so that
    [geocoded <= parsed <= total]; at the end of the prefecture loop [total]
    is the number of rows and [mapped] the number of rows with a prefecture,
    each of which reached a bucket. *)
Theorem counters_count_rows (rows : list row) :
  (Residence.total (Residence.loop rows) = Z.of_nat (List.length rows)
   /\ Residence.parsed (Residence.loop rows)
      = Z.of_nat (List.length (residence_labels rows))
   /\ Residence.geocoded (Residence.loop rows)
      = Z.of_nat (List.length (residence_entries rows))
   /\ (0 <= Residence.geocoded (Residence.loop rows)
       <= Residence.parsed (Residence.loop rows))%Z
   /\ (Residence.parsed (Residence.loop rows)
       <= Residence.total (Residence.loop rows))%Z)
  /\ (Jet.total (Jet.loop rows) = Z.of_nat (List.length rows)
      /\ Jet.mapped (Jet.loop rows) = Z.of_nat (List.length (jet_labels rows))
      /\ List.length (jet_entries rows) = List.length (jet_labels rows)
      /\ (0 <= Jet.mapped (Jet.loop rows) <= Jet.total (Jet.loop rows))%Z).
Proof.
  pose proof (residence_total_rows rows) as RT.
  pose proof (residence_parsed_rows rows Residence.init) as RP.
  pose proof (residence_geocoded_rows rows Residence.init) as RG.
  pose proof (jet_total_rows rows) as JT.
  pose proof (jet_mapped_rows rows Jet.init) as JM.
  fold (Residence.loop rows) in RP, RG. fold (Jet.loop rows) in JM.
  simpl in RP, RG, JM.
  pose proof (somes_entries_le rows) as L1.
  pose proof (somes_length_le (map residence_label rows)) as L2.
  pose proof (somes_length_le (map jet_label rows)) as L3.
  rewrite length_map in L2, L3.
  fold (residence_labels rows) in L2. fold (jet_labels rows) in L3.
  split.
  - repeat split; try assumption; lia.
  - repeat split; try assumption; try lia. apply jet_entries_length.
Qed.

(** ** The histograms *)

Lemma zsum_cons (x : Z) (l : list Z) : zsum (x :: l) = (x + zsum l)%Z.
Proof. reflexivity. Qed.

Lemma zsum_label_weight (f : row -> option string) (k : string) (rows : list row) :
  zsum (map (fun r => label_weight k (f r)) rows)
  = Z.of_nat (count_occ string_dec (somes (map f rows)) k).
Proof.
  induction rows as [|r rows IH]; [reflexivity|].
  simpl map. rewrite zsum_cons, IH. destruct (f r) as [x|]; simpl somes.
  - simpl label_weight. simpl count_occ.
    destruct (String.eqb_spec k x) as [Heq|Hne], (string_dec x k) as [E|E];
      try congruence; lia.
  - simpl. lia.
Qed.

Lemma zsum_bucket_weight (f : row -> option region) (key : coord) (rows : list row) :
  zsum (map (fun r => bucket_weight key (f r)) rows)
  = Z.of_nat (List.length (filter (hits key) (somes (map f rows)))).
Proof.
  induction rows as [|r rows IH]; [reflexivity|].
  simpl map. rewrite zsum_cons, IH. destruct (f r) as [e|]; simpl somes.
  - simpl bucket_weight. simpl filter. unfold hits at 2.
    destruct (coord_eqb key (coord_of e)); simpl List.length; lia.
  - simpl. lia.
Qed.

Lemma residence_label_count (rows : list row) (label : string) :
  counter_get label (Residence.states (Residence.loop rows))
  = Z.of_nat (count_occ string_dec (residence_labels rows) label).
Proof.
  unfold Residence.loop.
  rewrite (fold_adds _ (fun st => counter_get label (Residence.states st)) _
             (residence_step_label label)).
  now rewrite zsum_label_weight.
Qed.

Lemma residence_bucket_count (rows : list row) (key : coord) :
  location_count key (Residence.locations (Residence.loop rows))
  = Z.of_nat (List.length (filter (hits key) (residence_entries rows))).
Proof.
  unfold Residence.loop.
  rewrite (fold_adds _ (fun st => location_count key (Residence.locations st)) _
             (residence_step_bucket key)).
  now rewrite zsum_bucket_weight.
Qed.

Lemma jet_label_count (rows : list row) (label : string) :
  counter_get label (Jet.prefectures (Jet.loop rows))
  = Z.of_nat (count_occ string_dec (jet_labels rows) label).
Proof.
  unfold Jet.loop.
  rewrite (fold_adds _ (fun st => counter_get label (Jet.prefectures st)) _
             (jet_step_label label)).
  now rewrite zsum_label_weight.
Qed.

Lemma jet_bucket_count (rows : list row) (key : coord) :
  location_count key (Jet.locations (Jet.loop rows))
  = Z.of_nat (List.length (filter (hits key) (jet_entries rows))).
Proof.
  unfold Jet.loop.
  rewrite (fold_adds _ (fun st => location_count key (Jet.locations st)) _
             (jet_step_bucket key)).
  now rewrite zsum_bucket_weight.
Qed.

(** X10.  The histograms are exact.  At the end of either loop the count
    under a label is the number of rows with that label, and the count of
    the bucket at a coordinate pair is the number of rows whose entry has
    that pair. *)
Theorem histograms_exact (rows : list row) (label : string) (key : coord) :
  counter_get label (Residence.states (Residence.loop rows))
    = Z.of_nat (count_occ string_dec (residence_labels rows) label)
  /\ location_count key (Residence.locations (Residence.loop rows))
     = Z.of_nat (List.length (filter (hits key) (residence_entries rows)))
  /\ counter_get label (Jet.prefectures (Jet.loop rows))
     = Z.of_nat (count_occ string_dec (jet_labels rows) label)
  /\ location_count key (Jet.locations (Jet.loop rows))
     = Z.of_nat (List.length (filter (hits key) (jet_entries rows))).
Proof.
  split; [apply residence_label_count|]. split; [apply residence_bucket_count|].
  split; [apply jet_label_count | apply jet_bucket_count].
Qed.

Lemma residence_states_sum (rows : list row) :
  zsum (values (Residence.states (Residence.loop rows)))
  = Residence.parsed (Residence.loop rows).
Proof.
  unfold Residence.loop. rewrite residence_parsed_rows.
  rewrite (fold_adds _ (fun st => zsum (values (Residence.states st)))
             (fun r => some_weight (residence_label r))).
  - now rewrite zsum_some_weight.
  - intros st r. rewrite residence_loop_body_eq. simpl Residence.states.
    destruct (residence_label r); simpl some_weight;
      [apply zsum_counter_incr | lia].
Qed.

Lemma residence_buckets_sum (rows : list row) :
  total_count (values (Residence.locations (Residence.loop rows)))
  = Residence.geocoded (Residence.loop rows).
Proof.
  unfold Residence.loop. rewrite residence_geocoded_rows.
  rewrite (fold_adds _ (fun st => total_count (values (Residence.locations st)))
             (fun r => some_weight (residence_entry r))).
  - now rewrite zsum_some_weight.
  - intros st r. rewrite residence_loop_body_eq. simpl Residence.locations.
    destruct (residence_entry r); simpl some_weight;
      [apply total_count_add_location | lia].
Qed.

Lemma jet_prefectures_sum (rows : list row) :
  zsum (values (Jet.prefectures (Jet.loop rows))) = Jet.mapped (Jet.loop rows).
Proof.
  unfold Jet.loop. rewrite jet_mapped_rows.
  rewrite (fold_adds _ (fun st => zsum (values (Jet.prefectures st)))
             (fun r => some_weight (jet_label r))).
  - now rewrite zsum_some_weight.
  - intros st r. rewrite jet_loop_body_eq. simpl Jet.prefectures.
    destruct (jet_label r); simpl some_weight;
      [apply zsum_counter_incr | lia].
Qed.

Lemma jet_buckets_sum (rows : list row) :
  total_count (values (Jet.locations (Jet.loop rows))) = Jet.mapped (Jet.loop rows).
Proof.
  unfold Jet.loop. rewrite jet_mapped_rows, <- jet_entries_length.
  rewrite (fold_adds _ (fun st => total_count (values (Jet.locations st)))
             (fun r => some_weight (jet_entry r))).
  - now rewrite zsum_some_weight.
  - intros st r. rewrite jet_loop_body_eq. simpl Jet.locations.
    destruct (jet_entry r); simpl some_weight;
      [apply total_count_add_location | lia].
Qed.

(** X11.  The histograms add up.  The counts of the states sum to [parsed]
    and the counts of the buckets to [geocoded]; in the prefecture script
    both the counts of the prefectures and the counts of the buckets sum to
    [mapped]. *)
Theorem histograms_add_up (rows : list row) :
  zsum (values (Residence.states (Residence.loop rows)))
    = Residence.parsed (Residence.loop rows)
  /\ total_count (values (Residence.locations (Residence.loop rows)))
     = Residence.geocoded (Residence.loop rows)
  /\ zsum (values (Jet.prefectures (Jet.loop rows))) = Jet.mapped (Jet.loop rows)
  /\ total_count (values (Jet.locations (Jet.loop rows)))
     = Jet.mapped (Jet.loop rows).
Proof.
  split; [apply residence_states_sum|]. split; [apply residence_buckets_sum|].
  split; [apply jet_prefectures_sum | apply jet_buckets_sum].
Qed.

(** ** What a bucket holds *)

Lemma keys_add_location (r : region) (l : locations_t) :
  keys (add_location r l)
  = if mem coord_eqb (coord_of r) l then keys l else keys l ++ [coord_of r].
Proof.
  destruct r as [[la lo] nm]. unfold add_location, coord_of. simpl fst; simpl snd.
  set (k := (la, lo)). unfold mem.
  destruct (get coord_eqb k l) as [b|] eqn:G; simpl negb; cbv iota.
  - rewrite G. rewrite keys_setitem. unfold mem. now rewrite G.
  - rewrite (get_setitem_same _ coord_eqb_eq). rewrite !keys_setitem.
    unfold mem. rewrite (get_setitem_same _ coord_eqb_eq), G. reflexivity.
Qed.

Lemma nodup_keys_add_locations (es : list region) (l : locations_t) :
  NoDup (keys l) -> NoDup (keys (add_locations es l)).
Proof.
  unfold add_locations. revert l. induction es as [|e es IH]; intros l N; [exact N|].
  simpl. apply IH. rewrite keys_add_location.
  destruct (mem coord_eqb (coord_of e) l) eqn:M; [exact N|].
  apply NoDup_app; [exact N | repeat constructor; intros [] |].
  intros x Hx [<-|[]].
  apply (mem_in_keys _ coord_eqb_eq) in Hx. congruence.
Qed.

Lemma in_get_nodup (K V : Type) (eqb : K -> K -> bool)
  (eqb_eq : forall a b, eqb a b = true <-> a = b) (k : K) (v : V) (d : dict K V) :
  NoDup (keys d) -> In (k, v) d -> get eqb k d = Some v.
Proof.
  unfold keys. induction d as [|[k' v'] d IH]; simpl; [tauto|].
  intros N [[= -> ->]|H].
  - now rewrite (eqb_refl_true _ eqb_eq).
  - inversion N as [|? ? Hk N']; subst.
    destruct (eqb k k') eqn:E; [|now apply IH].
    apply eqb_eq in E. subst k'. exfalso. apply Hk.
    apply in_map_iff. now exists (k, v).
Qed.

Lemma find_some_filter (A : Type) (f : A -> bool) (l : list A) (x : A) :
  find f l = Some x -> 1 <= List.length (filter f l).
Proof.
  induction l as [|a l IH]; simpl; [discriminate|].
  destruct (f a); simpl; [lia | exact IH].
Qed.

(** The bucket at [key] after the entries [es], from no buckets: it is
    there when some entry hits [key], named after the first one that does
    and counting all that do. *)
Lemma get_add_locations (key : coord) (es : list region) (l : locations_t) :
  get coord_eqb key (add_locations es l)
  = let n := Z.of_nat (List.length (filter (hits key) es)) in
    match get coord_eqb key l with
    | Some b => Some (Bucket (count b + n) (name b) (lat b) (lng b))
    | None =>
        match find (hits key) es with
        | Some e => Some (Bucket n (name_of e) (fst key) (snd key))
        | None => None
        end
    end.
Proof.
  unfold add_locations. revert l. induction es as [|e es IH]; intro l.
  - simpl. destruct (get coord_eqb key l) as [[c nm la lo]|]; [|reflexivity].
    simpl. now rewrite Z.add_0_r.
  - simpl fold_left. rewrite IH, get_add_location. simpl filter. simpl find.
    cbv zeta. destruct (hits key e).
    + change (List.length (e :: filter (hits key) es))
        with (S (List.length (filter (hits key) es))).
      rewrite Nat2Z.inj_succ.
      destruct (get coord_eqb key l) as [b|]; cbn [count name lat lng];
        do 2 f_equal; lia.
    + reflexivity.
Qed.

Lemma residence_locations_entries (rows : list row) (st : Residence.state) :
  Residence.locations (fold_left Residence.loop_body rows st)
  = add_locations (residence_entries rows) (Residence.locations st).
Proof.
  revert st. induction rows as [|r rows IH]; intro st; [reflexivity|].
  simpl fold_left. rewrite IH, residence_loop_body_eq.
  unfold residence_entries. simpl. destruct (residence_entry r); reflexivity.
Qed.

Lemma jet_locations_entries (rows : list row) (st : Jet.state) :
  Jet.locations (fold_left Jet.loop_body rows st)
  = add_locations (jet_entries rows) (Jet.locations st).
Proof.
  revert st. induction rows as [|r rows IH]; intro st; [reflexivity|].
  simpl fold_left. rewrite IH, jet_loop_body_eq.
  unfold jet_entries. simpl. destruct (jet_entry r); reflexivity.
Qed.

Lemma bucket_of_entries (es : list region) (key : coord) (b : bucket) :
  In (key, b) (add_locations es []) ->
  lat b = fst key /\ lng b = snd key
  /\ (1 <= count b)%Z
  /\ count b = Z.of_nat (List.length (filter (hits key) es))
  /\ exists e, find (hits key) es = Some e /\ name b = name_of e.
Proof.
  intro H.
  apply (in_get_nodup _ coord_eqb_eq) in H;
    [|apply nodup_keys_add_locations; constructor].
  rewrite get_add_locations in H. simpl in H.
  destruct (find (hits key) es) as [e|] eqn:F; [|discriminate].
  injection H as <-. simpl. pose proof (find_some_filter _ _ F).
  repeat split; try lia. now exists e.
Qed.

(** X12.  What a bucket holds.  In either script every bucket of
    [locations] carries the coordinates it is filed under, counts the rows
    whose entry has these coordinates, which is at least one, and bears the
    display name of the first such row in the input; and no coordinate pair
    has two buckets. *)
Theorem bucket_contents (rows : list row) (key : coord) (b : bucket) :
  (In (key, b) (Residence.locations (Residence.loop rows)) ->
   lat b = fst key /\ lng b = snd key
   /\ (1 <= count b)%Z
   /\ count b = Z.of_nat (List.length (filter (hits key) (residence_entries rows)))
   /\ exists e, find (hits key) (residence_entries rows) = Some e
                /\ name b = name_of e)
  /\ (In (key, b) (Jet.locations (Jet.loop rows)) ->
      lat b = fst key /\ lng b = snd key
      /\ (1 <= count b)%Z
      /\ count b = Z.of_nat (List.length (filter (hits key) (jet_entries rows)))
      /\ exists e, find (hits key) (jet_entries rows) = Some e
                   /\ name b = name_of e)
  /\ NoDup (keys (Residence.locations (Residence.loop rows)))
  /\ NoDup (keys (Jet.locations (Jet.loop rows))).
Proof.
  unfold Residence.loop, Jet.loop.
  rewrite residence_locations_entries, jet_locations_entries. simpl.
  split; [apply bucket_of_entries|]. split; [apply bucket_of_entries|].
  split; apply nodup_keys_add_locations; constructor.
Qed.

(** Two areas with one coordinate pair, Contra Costa first: one bucket,
    named Contra Costa, counting both rows. *)
Lemma bucket_contents_witness :
  let rows := [address_row "2 Second St, Concord CA 94701";
               address_row "1 First St, Richmond CA 94601"] in
  Residence.locations (Residence.loop rows)
    = [((379577, -1223470)%Z, Bucket 2 "Contra Costa" 379577 (-1223470))]
  /\ find (hits (379577, -1223470)%Z) (residence_entries rows)
     = Some (379577, -1223470, "Contra Costa")%Z.
Proof.
  intro rows.
  assert (E : Residence.locations (Residence.loop rows)
              = [((379577, -1223470)%Z, Bucket 2 "Contra Costa" 379577 (-1223470))])
    by (vm_compute; reflexivity).
  split; [exact E|].
  assert (I : In ((379577, -1223470)%Z, Bucket 2 "Contra Costa" 379577 (-1223470))
                 (Residence.locations (Residence.loop rows)))
    by (rewrite E; now left).
  destruct (proj1 (bucket_contents rows _ _) I) as (_ & _ & _ & _ & e & F & Nm).
  rewrite F. f_equal. vm_compute in F. now injection F as <-.
Defined.

(** ** Buckets and prefectures go together *)

Lemma prefecture_coords_unique : unique_coords Jet.PREFECTURE_COORDS.
Proof.
  intros k1 k2 r1 r2 G1 G2 Hne Heq.
  apply (get_some_in _ String.eqb_eq) in G1, G2.
  pose proof (proj1 (forallb_forall _ _) prefecture_pairs_distinct _ G1) as H.
  pose proof (proj1 (forallb_forall _ _) H _ G2) as H'.
  cbv beta in H'. simpl fst in H'; simpl snd in H'.
  rewrite Heq in H'.
  rewrite (proj2 (String.eqb_neq k1 k2) Hne) in H'.
  rewrite (proj2 (coord_eqb_eq _ _) eq_refl) in H'. discriminate.
Qed.

Lemma known_has_entry (p : string) :
  known_prefecture p = true ->
  exists e, get String.eqb p Jet.PREFECTURE_COORDS = Some e
            /\ prefecture_coord p = coord_of e.
Proof.
  unfold known_prefecture, prefecture_coord, mem. intro K.
  apply andb_true_iff in K as [_ K].
  destruct (get String.eqb p Jet.PREFECTURE_COORDS) as [e|]; [|discriminate].
  now exists e.
Qed.

Lemma prefecture_coord_injective (p q : string) :
  known_prefecture p = true -> known_prefecture q = true ->
  prefecture_coord p = prefecture_coord q -> p = q.
Proof.
  intros Kp Kq E.
  destruct (known_has_entry _ Kp) as (ep & Gp & Cp).
  destruct (known_has_entry _ Kq) as (eq & Gq & Cq).
  destruct (string_dec p q) as [|Hne]; [assumption|]. exfalso.
  apply (prefecture_coords_unique Gp Gq Hne). congruence.
Qed.

(** The label and the entry of a row of the prefecture script. *)
Lemma jet_label_entry (r : row) :
  match jet_label r with
  | Some p => known_prefecture p = true
              /\ exists e, jet_entry r = Some e /\ coord_of e = prefecture_coord p
  | None => jet_entry r = None
  end.
Proof.
  unfold jet_entry. destruct (jet_label r) as [p|] eqn:L; [|reflexivity].
  pose proof (normalize_known _ L) as K. split; [exact K|].
  destruct (known_has_entry _ K) as (e & G & C). exists e. now rewrite G, C.
Qed.

Lemma jet_weights_agree (p : string) (r : row) :
  known_prefecture p = true ->
  bucket_weight (prefecture_coord p) (jet_entry r) = label_weight p (jet_label r).
Proof.
  intro Kp. pose proof (jet_label_entry r) as H.
  destruct (jet_label r) as [q|].
  - destruct H as (Kq & e & -> & C). simpl. rewrite C.
    destruct (String.eqb_spec p q) as [->|Hne].
    + now rewrite (proj2 (coord_eqb_eq _ _) eq_refl).
    + destruct (coord_eqb (prefecture_coord p) (prefecture_coord q)) eqn:E;
        [|reflexivity].
      apply coord_eqb_eq in E. elim Hne. now apply prefecture_coord_injective.
  - now rewrite H.
Qed.

Lemma jet_invariant_step (st : Jet.state) (r : row) :
  jet_invariant st -> jet_invariant (Jet.loop_body st r).
Proof.
  intros (Hk & Hn & Hkn). rewrite jet_loop_body_eq.
  pose proof (jet_label_entry r) as H. unfold jet_invariant.
  destruct (jet_label r) as [p|]; simpl Jet.prefectures; simpl Jet.locations.
  - destruct H as (Kp & e & -> & C).
    rewrite keys_counter_incr, keys_add_location, C.
    assert (M : mem coord_eqb (prefecture_coord p) (Jet.locations st)
                = mem String.eqb p (Jet.prefectures st)).
    { destruct (mem String.eqb p (Jet.prefectures st)) eqn:Mp.
      - apply (mem_in_keys _ coord_eqb_eq). rewrite Hk.
        apply in_map. now apply (mem_in_keys _ String.eqb_eq).
      - destruct (mem coord_eqb (prefecture_coord p) (Jet.locations st)) eqn:Mc;
          [|reflexivity].
        apply (mem_in_keys _ coord_eqb_eq) in Mc. rewrite Hk in Mc.
        apply in_map_iff in Mc as (q & E & Hq).
        apply prefecture_coord_injective in E; [|now apply Hkn | exact Kp].
        subst q. apply (mem_in_keys _ String.eqb_eq) in Hq. congruence. }
    rewrite M. destruct (mem String.eqb p (Jet.prefectures st)) eqn:Mp.
    + repeat split; assumption.
    + split; [|split].
      * now rewrite map_app, Hk.
      * apply NoDup_app; [exact Hn | repeat constructor; intros [] |].
        intros x Hx [<-|[]]. apply (mem_in_keys _ String.eqb_eq) in Hx. congruence.
      * intros q Hq. apply in_app_iff in Hq as [Hq|[<-|[]]]; [now apply Hkn | exact Kp].
  - rewrite H. repeat split; assumption.
Qed.

Lemma jet_invariant_loop (rows : list row) : jet_invariant (Jet.loop rows).
Proof.
  unfold Jet.loop.
  assert (G : forall st, jet_invariant st ->
                         jet_invariant (fold_left Jet.loop_body rows st)).
  { induction rows as [|r rows IH]; intros st I; [exact I|].
    simpl. apply IH. now apply jet_invariant_step. }
  apply G. repeat split; [constructor | intros p []].
Qed.

Lemma table_keys_nodup : NoDup (keys Jet.PREFECTURE_COORDS).
Proof.
  assert (D : forall l, distinct l = true -> NoDup l).
  { induction l as [|a l IH]; simpl; [constructor|].
    intro H. apply andb_true_iff in H as [Ha Hl]. constructor; [|now apply IH].
    intro Hin. apply negb_true_iff in Ha.
    assert (E : existsb (String.eqb a) l = true).
    { apply existsb_exists. exists a. split; [exact Hin | apply String.eqb_refl]. }
    congruence. }
  apply D. vm_compute. reflexivity.
Qed.

(** X13.  In the prefecture script buckets and prefectures go together: the
    buckets stand in the order of the prefectures, each at the coordinates
    of its prefecture and with the same count, so there are as many buckets
    as prefectures, and never more than the 47 of the table. *)
Theorem buckets_follow_prefectures (rows : list row) :
  keys (Jet.locations (Jet.loop rows))
    = map prefecture_coord (keys (Jet.prefectures (Jet.loop rows)))
  /\ (forall p, In p (keys Jet.PREFECTURE_COORDS) ->
        location_count (prefecture_coord p) (Jet.locations (Jet.loop rows))
        = counter_get p (Jet.prefectures (Jet.loop rows)))
  /\ List.length (Jet.locations (Jet.loop rows))
     = List.length (Jet.prefectures (Jet.loop rows))
  /\ List.length (Jet.prefectures (Jet.loop rows)) <= 47.
Proof.
  destruct (jet_invariant_loop rows) as (Hk & Hn & Hkn).
  split; [exact Hk|]. split; [|split].
  - intros p Hp.
    assert (Kp : known_prefecture p = true)
      by exact (proj1 (forallb_forall _ _) keys_known _ Hp).
    unfold Jet.loop.
    rewrite (fold_adds _ (fun st => location_count (prefecture_coord p)
                                       (Jet.locations st)) _
               (jet_step_bucket (prefecture_coord p))).
    rewrite (fold_adds _ (fun st => counter_get p (Jet.prefectures st)) _
               (jet_step_label p)).
    f_equal. f_equal. apply map_ext. intro r. now apply jet_weights_agree.
  - apply (f_equal (@List.length _)) in Hk.
    unfold keys in Hk. now rewrite !length_map in Hk.
  - assert (L : List.length (keys (Jet.prefectures (Jet.loop rows)))
                <= List.length (keys Jet.PREFECTURE_COORDS)).
    { apply NoDup_incl_length; [exact Hn|]. intros p Hp.
      specialize (Hkn p Hp). unfold known_prefecture in Hkn.
      apply andb_true_iff in Hkn as [_ M].
      now apply (mem_in_keys _ String.eqb_eq). }
    unfold keys in L at 1. rewrite length_map in L. exact L.
Qed.

Lemma buckets_follow_prefectures_witness :
  let rows := [prefecture_row "Nara"; prefecture_row "Gifu"; prefecture_row "Nara-ken"] in
  In "Nara" (keys Jet.PREFECTURE_COORDS)
  /\ location_count (prefecture_coord "Nara") (Jet.locations (Jet.loop rows)) = 2%Z.
Proof.
  intro rows.
  assert (I : In "Nara" (keys Jet.PREFECTURE_COORDS)) by (vm_compute; tauto).
  split; [exact I|].
  rewrite (proj1 (proj2 (buckets_follow_prefectures rows)) "Nara" I).
  vm_compute. reflexivity.
Defined.

(** ** Sorting by a key *)

Lemma in_firstn (A : Type) (n : nat) (l : list A) (x : A) :
  In x (firstn n l) -> In x l.
Proof.
  intro H. rewrite <- (firstn_skipn n l). apply in_or_app. now left.
Qed.

Lemma in_skipn (A : Type) (n : nat) (l : list A) (x : A) :
  In x (skipn n l) -> In x l.
Proof.
  intro H. rewrite <- (firstn_skipn n l). apply in_or_app. now right.
Qed.

Section SortByKey.

Variable A : Type.
Variable key : A -> Z.

Lemma insert_by_key_perm (x : A) (l : list A) :
  Permutation (Run.insert_by_key key x l) (x :: l).
Proof.
  induction l as [|y l IH]; simpl; [reflexivity|].
  destruct (key y <? key x)%Z; [|reflexivity].
  rewrite IH. apply perm_swap.
Qed.

Lemma sorted_by_key_perm (l : list A) : Permutation (Run.sorted_by_key key l) l.
Proof.
  induction l as [|x l IH]; simpl; [reflexivity|].
  rewrite insert_by_key_perm. now constructor.
Qed.

Lemma insert_by_key_sorted (x : A) (l : list A) :
  StronglySorted (key_order key) l -> StronglySorted (key_order key) (Run.insert_by_key key x l).
Proof.
  induction 1 as [|y l S IH F]; simpl.
  - constructor; constructor.
  - destruct (Z.ltb_spec (key y) (key x)) as [Hlt|Hge].
    + constructor; [exact IH|].
      apply Forall_forall. intros z Hz.
      apply (Permutation_in _ (insert_by_key_perm x l)) in Hz as [<-|Hz].
      * unfold key_order. lia.
      * exact (proj1 (Forall_forall _ _) F _ Hz).
    + constructor; [constructor; assumption|].
      constructor; [exact Hge|].
      apply Forall_forall. intros z Hz.
      pose proof (proj1 (Forall_forall _ _) F _ Hz) as Hyz.
      unfold key_order in *. lia.
Qed.

Lemma sorted_by_key_sorted (l : list A) :
  StronglySorted (key_order key) (Run.sorted_by_key key l).
Proof.
  induction l as [|x l IH]; simpl; [constructor | now apply insert_by_key_sorted].
Qed.

Lemma sorted_split (R : A -> A -> Prop) (n : nat) (l : list A) (x y : A) :
  StronglySorted R l -> In x (firstn n l) -> In y (skipn n l) -> R x y.
Proof.
  intro S. revert n. induction S as [|a l S IH F]; intros n Hx Hy.
  - destruct n; destruct Hx.
  - destruct n as [|n]; [destruct Hx|]. simpl in Hx, Hy.
    destruct Hx as [<-|Hx].
    + apply (proj1 (Forall_forall _ _) F). now apply (in_skipn n).
    + now apply (IH n).
Qed.

(** The first [n] of the sorted items are [n] items of least key. *)
Lemma first_sorted_least (n : nat) (l : list A) (x y : A) :
  In x (firstn n (Run.sorted_by_key key l)) ->
  In y l ->
  ~ In y (firstn n (Run.sorted_by_key key l)) ->
  (key_order key) x y.
Proof.
  intros Hx Hy Hny.
  apply (@sorted_split _ n _ x y (sorted_by_key_sorted l) Hx).
  apply (Permutation_in _ (Permutation_sym (sorted_by_key_perm l))) in Hy.
  rewrite <- (firstn_skipn n (Run.sorted_by_key key l)) in Hy.
  apply in_app_iff in Hy as [Hy|Hy]; [contradiction | exact Hy].
Qed.

Lemma first_sorted_in (n : nat) (l : list A) (x : A) :
  In x (firstn n (Run.sorted_by_key key l)) -> In x l.
Proof.
  intro H. apply in_firstn in H.
  exact (Permutation_in _ (sorted_by_key_perm l) H).
Qed.

Lemma first_sorted_length (n : nat) (l : list A) :
  List.length (firstn n (Run.sorted_by_key key l)) = Nat.min n (List.length l).
Proof.
  rewrite length_firstn. now rewrite (Permutation_length (sorted_by_key_perm l)).
Qed.

End SortByKey.

(** [most_common] sorts by the negated count. *)
Lemma sorted_desc_by_key (c : Counter) :
  sorted_desc c = Run.sorted_by_key (fun x => - snd x)%Z c.
Proof.
  unfold sorted_desc, Run.sorted_by_key. induction c as [|x c IH]; [reflexivity|].
  simpl. rewrite IH. generalize (fold_right (Run.insert_by_key (fun x => - snd x)%Z) [] c).
  induction l as [|y l IHl]; simpl; [reflexivity|].
  rewrite IHl.
  destruct (Z.ltb_spec (snd x) (snd y)), (Z.ltb_spec (- snd y) (- snd x));
    try reflexivity; lia.
Qed.

Lemma most_common_length (n : nat) (c : Counter) :
  List.length (most_common n c) = Nat.min n (List.length c).
Proof.
  unfold most_common. rewrite sorted_desc_by_key. apply first_sorted_length.
Qed.

Lemma most_common_in (n : nat) (c : Counter) (x : string * Z) :
  In x (most_common n c) -> In x c.
Proof.
  unfold most_common. rewrite sorted_desc_by_key. apply first_sorted_in.
Qed.

Lemma most_common_least (n : nat) (c : Counter) (x y : string * Z) :
  In x (most_common n c) -> In y c -> ~ In y (most_common n c) ->
  (snd y <= snd x)%Z.
Proof.
  unfold most_common. rewrite sorted_desc_by_key. intros Hx Hy Hny.
  pose proof (@first_sorted_least _ _ _ _ _ _ Hx Hy Hny) as H.
  unfold key_order in H. lia.
Qed.

(** X14.  The ranking keeps the largest.  Every entry of [most_common n] is
    an entry of the counter, there are [n] of them or as many as the counter
    has, and no entry left out counts more than one that is kept. *)
Theorem ranking_keeps_the_largest (n : nat) (c : Counter) :
  List.length (most_common n c) = Nat.min n (List.length c)
  /\ (forall x, In x (most_common n c) -> In x c)
  /\ (forall x y,
        In x (most_common n c) -> In y c -> ~ In y (most_common n c) ->
        (snd y <= snd x)%Z).
Proof.
  split; [apply most_common_length|]. split.
  - intro x. apply most_common_in.
  - intros x y. apply most_common_least.
Qed.

(** Three states, room for two: the one left out is the smallest. *)
Lemma ranking_keeps_the_largest_witness :
  let c : Counter := [("AZ", 2); ("CA", 7); ("NV", 1)]%Z in
  most_common 2 c = [("CA", 7); ("AZ", 2)]%Z
  /\ (1 <= 2)%Z.
Proof.
  intro c.
  assert (E : most_common 2 c = [("CA", 7); ("AZ", 2)]%Z) by reflexivity.
  split; [exact E|].
  apply (proj2 (proj2 (ranking_keeps_the_largest 2 c)) ("AZ", 2%Z) ("NV", 1%Z)).
  - rewrite E. right. now left.
  - right. right. now left.
  - rewrite E. intros [H|[H|[]]]; discriminate.
Defined.

(** ** How a run ends *)

Lemma counters_rows_facts (rows : list row) :
  Jet.total (Jet.loop rows) = Z.of_nat (List.length rows)
  /\ Jet.mapped (Jet.loop rows) = Z.of_nat (List.length (jet_labels rows))
  /\ (0 <= Jet.mapped (Jet.loop rows) <= Jet.total (Jet.loop rows))%Z.
Proof.
  pose proof (jet_total_rows rows) as JT.
  pose proof (jet_mapped_rows rows Jet.init) as JM.
  fold (Jet.loop rows) in JM. simpl in JM.
  pose proof (somes_length_le (map jet_label rows)) as L3.
  rewrite length_map in L3. fold (jet_labels rows) in L3.
  repeat split; try assumption; lia.
Qed.

Lemma residence_rows_facts (rows : list row) :
  Residence.total (Residence.loop rows) = Z.of_nat (List.length rows)
  /\ (0 <= Residence.parsed (Residence.loop rows)
         <= Residence.total (Residence.loop rows))%Z.
Proof.
  pose proof (residence_total_rows rows) as RT.
  pose proof (residence_parsed_rows rows Residence.init) as RP.
  fold (Residence.loop rows) in RP. simpl in RP.
  pose proof (somes_length_le (map residence_label rows)) as L2.
  rewrite length_map in L2. fold (residence_labels rows) in L2.
  split; [assumption | lia].
Qed.


Lemma count_labels_nil (ls : list string) :
  count_labels ls [] = [] <-> ls = [].
Proof.
  split; [|now intros ->].
  destruct ls as [|a ls]; [reflexivity|]. intro E.
  assert (I : In a (keys (count_labels (a :: ls) []))).
  { apply in_keys_count_labels. now left. }
  rewrite E in I. destruct I.
Qed.

Lemma most_common_nil (n : nat) (c : Counter) :
  most_common (S n) c = [] <-> c = [].
Proof.
  split; [|now intros ->]. intro E.
  apply (f_equal (@List.length _)) in E.
  rewrite most_common_length in E.
  destruct c; [reflexivity | discriminate].
Qed.

Lemma jet_generate_html_outcome (c : Counter) (l : locations_t) (t m : Z) :
  (c = [] -> JetPage.generate_html c l t m = Run.Raised Run.IndexError)
  /\ (c <> [] -> exists top rest,
        most_common 1 c = top :: rest
        /\ JetPage.generate_html c l t m
           = Run.Done (JetPage.Fields m t m (List.length c) (fst top) (values l)
                         (map fst (most_common 15 c)) (map snd (most_common 15 c)))).
Proof.
  unfold JetPage.generate_html. split.
  - intros ->. reflexivity.
  - intro Hc. destruct (most_common 1 c) as [|top rest] eqn:E.
    + apply most_common_nil in E. contradiction.
    + now exists top, rest.
Qed.

Lemma percent_bounds (x total : Z) :
  (0 <= x <= total)%Z -> (0 < total)%Z -> (0 <= x * 100 / total <= 100)%Z.
Proof.
  intros Hx Ht. split.
  - apply Z.div_pos; lia.
  - apply Z.div_le_upper_bound; lia.
Qed.

Lemma floordiv_ok (x total : Z) :
  (0 < total)%Z -> floordiv x total = Ok (x / total)%Z.
Proof. intro H. unfold floordiv. destruct (Z.eqb_spec total 0); [lia|reflexivity]. Qed.

Lemma jet_labels_rows (rows : list row) : jet_labels rows <> [] -> rows <> [].
Proof. intros H ->. now apply H. Qed.

(** ** The tables are never checked *)

(** C2, as the code has it.  In the prefecture table no two keys share a
    coordinate pair.  Neither script checks its table before or while
    reading.  The address script, whose table has keys that share a pair,
    processes every input with at least one row to its page.  The prefecture
    script does so for every input in which some row has a prefecture; with
    rows of which none has one it stops with [IndexError] at the stat box of
    the top prefecture, which is no check of the table.  Two entries with
    one coordinate pair are counted in one bucket. *)
Theorem gazetteer_coordinates :
  unique_coords Jet.PREFECTURE_COORDS
  /\ (forall rows, rows <> [] -> exists p, Residence.main rows = Ok p)
  /\ (forall rows, jet_labels rows <> [] -> exists p, Jet.main rows = Ok p)
  /\ (forall rows, rows <> [] -> jet_labels rows = [] ->
        Jet.main rows = Raise IndexError)
  /\ (forall r1 r2 locations,
        coord_of r1 = coord_of r2 ->
        location_count (coord_of r1) (add_location r2 (add_location r1 locations))
        = (location_count (coord_of r1) locations + 2)%Z).
Proof.
  assert (P : forall rows,
             Jet.prefectures (Jet.loop rows) = [] <-> jet_labels rows = []).
  { intro rows. unfold Jet.loop. rewrite jet_prefectures_labels.
    apply count_labels_nil. }
  assert (T : forall rows, rows <> [] -> (0 < Jet.total (Jet.loop rows))%Z).
  { intros rows Hrows. rewrite jet_total_rows.
    destruct rows; [contradiction | simpl; lia]. }
  split; [|split; [|split; [|split]]].
  - intros k1 k2 r1 r2 G1 G2 Hne Heq.
    apply (get_some_in _ String.eqb_eq) in G1, G2.
    pose proof (proj1 (forallb_forall _ _) prefecture_pairs_distinct _ G1) as H.
    pose proof (proj1 (forallb_forall _ _) H _ G2) as H'.
    cbv beta in H'. simpl fst in H'; simpl snd in H'.
    rewrite Heq in H'.
    rewrite (proj2 (String.eqb_neq k1 k2) Hne) in H'.
    rewrite (proj2 (coord_eqb_eq _ _) eq_refl) in H'. discriminate.
  - intros rows Hrows. unfold Residence.main.
    rewrite main_ok_of_total; [eexists; reflexivity|].
    rewrite residence_total_rows. destruct rows; [contradiction | simpl; lia].
  - intros rows L. unfold Jet.main.
    rewrite main_ok_of_total by (apply T; now apply jet_labels_rows).
    unfold Jet.generate_html.
    destruct (most_common 1 (Jet.prefectures (Jet.loop rows))) as [|top rest] eqn:E.
    + apply most_common_nil in E. apply P in E. contradiction.
    + eexists. reflexivity.
  - intros rows Hrows L. unfold Jet.main.
    rewrite main_ok_of_total by now apply T.
    unfold Jet.generate_html. now rewrite (proj2 (P rows) L).
  - intros r1 r2 locs Heq. rewrite !location_count_add. unfold bucket_weight.
    rewrite <- Heq, (proj2 (coord_eqb_eq _ _) eq_refl). lia.
Qed.

(** Two addresses under the prefixes 933 and 932, which share a pair: the run
    completes with one bucket of count 2.  Two prefecture rows of which one
    names a prefecture: the run completes. *)
Lemma gazetteer_coordinates_witness :
  let rows := [address_row "1 First St, Bakersfield CA 93301";
               address_row "2 Second St, Bakersfield CA 93201"] in
  let rows' := [prefecture_row "N/A"; prefecture_row "Mie-ken"] in
  (rows <> []
   /\ exists p, Residence.main rows = Ok p
      /\ Residence.loc_data p = [Bucket 2 "Bakersfield" 353733 (-1190187)])
  /\ (jet_labels rows' <> []
      /\ exists p, Jet.main rows' = Ok p /\ Jet.page_top p = "Mie").
Proof.
  intros rows rows'. split.
  - split; [discriminate|].
    destruct (proj1 (proj2 gazetteer_coordinates) rows) as [p Hp];
      [discriminate|].
    exists p. split; [exact Hp|].
    assert (E : Ok p = Residence.main rows) by (symmetry; exact Hp).
    vm_compute in E. injection E as ->. reflexivity.
  - assert (L : jet_labels rows' <> []) by (vm_compute; discriminate).
    split; [exact L|].
    destruct (proj1 (proj2 (proj2 gazetteer_coordinates)) rows' L) as [p Hp].
    exists p. split; [exact Hp|].
    assert (E : Ok p = Jet.main rows') by (symmetry; exact Hp).
    vm_compute in E. injection E as ->. reflexivity.
Defined.

(** C2, as stated, fails on the zip table: the keys 932 and 933 are distinct
    and carry the same coordinate pair. *)
Lemma zip_coords_not_unique : ~ unique_coords Residence.ZIP_COORDS.
Proof.
  intro U.
  apply (U "932" "933" (353733, -1190187, "Bakersfield")%Z
           (353733, -1190187, "Bakersfield")%Z);
    [reflexivity | reflexivity | discriminate | reflexivity].
Qed.

(** X15.  How a run of the prefecture script ends.  It raises
    [ZeroDivisionError] exactly on an input without rows, and [IndexError],
    from the stat box of the top prefecture, exactly on an input with rows
    of which none has a prefecture; in every other case it completes, and
    the percentage it prints lies between 0 and 100. *)
Theorem jet_run_outcome (rows : list row) :
  (JetPage.main rows = Run.Raised Run.ZeroDivisionError <-> rows = [])
  /\ (JetPage.main rows = Run.Raised Run.IndexError <->
      rows <> [] /\ jet_labels rows = [])
  /\ ((exists rep, JetPage.main rows = Run.Done rep) <-> jet_labels rows <> [])
  /\ (forall rep, JetPage.main rows = Run.Done rep ->
        (0 <= JetPage.percent rep <= 100)%Z).
Proof.
  destruct (counters_rows_facts rows) as (JT & JM & JB).
  assert (P : Jet.prefectures (Jet.loop rows) = [] <-> jet_labels rows = []).
  { unfold Jet.loop. rewrite jet_prefectures_labels. apply count_labels_nil. }
  destruct rows as [|r rows].
  - assert (E : JetPage.main [] = Run.Raised Run.ZeroDivisionError) by reflexivity.
    rewrite E. split; [|split; [|split]].
    + split; reflexivity.
    + split; [discriminate | intros [H _]; now elim H].
    + split; [intros [rep H]; discriminate | intro H; now elim H].
    + discriminate.
  - set (rs := r :: rows) in *.
    assert (T : (0 < Jet.total (Jet.loop rs))%Z).
    { rewrite JT. unfold rs. simpl List.length. lia. }
    assert (Hrs : rs <> []) by discriminate.
    unfold JetPage.main. rewrite (floordiv_ok _ T).
    destruct (jet_generate_html_outcome (Jet.prefectures (Jet.loop rs))
                (Jet.locations (Jet.loop rs)) (Jet.total (Jet.loop rs))
                (Jet.mapped (Jet.loop rs))) as [Hnil Hsome].
    destruct (list_eq_dec string_dec (jet_labels rs) []) as [L|L].
    + rewrite (Hnil (proj2 P L)). split; [|split; [|split]].
      * split; [discriminate | intro H; now elim Hrs].
      * split; [intros _; now split | reflexivity].
      * split; [intros [rep H]; discriminate | intro H; contradiction].
      * discriminate.
    + assert (C : Jet.prefectures (Jet.loop rs) <> []) by (intro H; now apply P in H).
      destruct (Hsome C) as (top & rest & _ & ->).
      split; [|split; [|split]].
      * split; [discriminate | intro H; now elim Hrs].
      * split; [discriminate | intros [_ H]; contradiction].
      * split; [intros _; exact L | intros _; eexists; reflexivity].
      * intros rep [= <-]. simpl. apply percent_bounds; lia.
Qed.

Lemma jet_run_outcome_witness :
  let rows := [prefecture_row "N/A"; prefecture_row ""] in
  (rows <> [] /\ jet_labels rows = [])
  /\ JetPage.main rows = Run.Raised Run.IndexError.
Proof.
  intro rows.
  assert (H : rows <> [] /\ jet_labels rows = [])
    by (split; [discriminate | reflexivity]).
  split; [exact H|].
  exact (proj2 (proj1 (proj2 (jet_run_outcome rows))) H).
Defined.

(** X16.  How a run of the address script ends.  It raises
    [ZeroDivisionError] exactly on an input without rows and completes on
    every other input; the percentage it prints lies between 0 and 100. *)
Theorem residence_run_outcome (rows : list row) :
  (ResidencePage.main rows = Run.Raised Run.ZeroDivisionError <-> rows = [])
  /\ (rows <> [] -> exists rep, ResidencePage.main rows = Run.Done rep)
  /\ (forall rep, ResidencePage.main rows = Run.Done rep ->
        (0 <= ResidencePage.percent rep <= 100)%Z).
Proof.
  destruct (residence_rows_facts rows) as (RT & RB).
  destruct rows as [|r rows].
  - assert (E : ResidencePage.main [] = Run.Raised Run.ZeroDivisionError)
      by reflexivity.
    rewrite E. split; [|split].
    + split; reflexivity.
    + intro H. now elim H.
    + discriminate.
  - set (rs := r :: rows) in *.
    assert (T : (0 < Residence.total (Residence.loop rs))%Z).
    { rewrite RT. unfold rs. simpl List.length. lia. }
    unfold ResidencePage.main. rewrite (floordiv_ok _ T). split; [|split].
    + split; discriminate.
    + intros _. eexists. reflexivity.
    + intros rep [= <-]. simpl. apply percent_bounds; lia.
Qed.

Lemma residence_run_outcome_witness :
  let rows := [address_row "Unknown location"] in
  rows <> [] /\ exists rep, ResidencePage.main rows = Run.Done rep.
Proof.
  intro rows.
  assert (H : rows <> []) by discriminate.
  split; [exact H|].
  exact (proj1 (proj2 (residence_run_outcome rows)) H).
Defined.

(** ** What the pages show *)

Lemma nodup_keys_count_labels (ls : list string) : NoDup (keys (count_labels ls [])).
Proof.
  induction ls as [|a ls IH] using rev_ind; [constructor|].
  rewrite count_labels_snoc, keys_counter_incr.
  destruct (mem String.eqb a (count_labels ls [])) eqn:M; [exact IH|].
  apply NoDup_app; [exact IH | repeat constructor; intros [] |].
  intros x Hx [<-|[]]. apply (mem_in_keys _ String.eqb_eq) in Hx. congruence.
Qed.

Lemma counter_get_in (c : Counter) (k : string) (v : Z) :
  NoDup (keys c) -> In (k, v) c -> counter_get k c = v.
Proof.
  intros N H. unfold counter_get.
  now rewrite (in_get_nodup _ String.eqb_eq _ _ _ N H).
Qed.

Lemma most_common_head_max (c : Counter) (top : string * Z) (rest : list (string * Z)) :
  most_common 1 c = top :: rest ->
  In top c /\ forall y, In y c -> (snd y <= snd top)%Z.
Proof.
  intro E.
  assert (It : In top (most_common 1 c)) by (rewrite E; now left).
  split; [now apply most_common_in in It|].
  intros y Hy.
  destruct (in_dec (fun a b : string * Z =>
                      ltac:(decide equality; [apply Z.eq_dec | apply string_dec]))
                   y (most_common 1 c)) as [Hin|Hnin].
  - pose proof (most_common_length 1 c) as L.
    pose proof (Nat.le_min_l 1 (List.length c)) as L1. rewrite E in L, Hin.
    destruct rest as [|z rest].
    + destruct Hin as [<-|[]]. lia.
    + change (List.length (top :: z :: rest)) with (S (S (List.length rest))) in L.
      lia.
  - now apply (@most_common_least 1 c top y It Hy).
Qed.

Lemma most_common_heads (n : nat) (c : Counter) :
  hd_error (most_common (S n) c) = hd_error (most_common 1 c).
Proof. unfold most_common. now destruct (sorted_desc c). Qed.

(** X17.  The top prefecture.  On a completed run of the prefecture script
    the prefecture in the fourth stat box is a key of the table, it heads
    the bar chart and the printed list, and no prefecture counts more. *)
Theorem top_prefecture (rows : list row) (rep : JetPage.report) :
  JetPage.main rows = Run.Done rep ->
  let top := JetPage.stat_top (JetPage.page rep) in
  hd_error (JetPage.chart_labels (JetPage.page rep)) = Some top
  /\ hd_error (map fst (JetPage.top_prefectures rep)) = Some top
  /\ In top (keys Jet.PREFECTURE_COORDS)
  /\ forall p,
       (counter_get p (Jet.prefectures (Jet.loop rows))
        <= counter_get top (Jet.prefectures (Jet.loop rows)))%Z.
Proof.
  intro M. unfold JetPage.main in M.
  destruct (floordiv _ _) as [pc|]; [|discriminate].
  destruct (jet_generate_html_outcome (Jet.prefectures (Jet.loop rows))
              (Jet.locations (Jet.loop rows)) (Jet.total (Jet.loop rows))
              (Jet.mapped (Jet.loop rows))) as [Hnil Hsome].
  destruct (Jet.prefectures (Jet.loop rows)) as [|x c'] eqn:C.
  { rewrite (Hnil eq_refl) in M. discriminate. }
  rewrite <- C in *.
  destruct Hsome as (top & rest & E & G); [rewrite C; discriminate|].
  rewrite G in M. injection M as <-.
  cbn [JetPage.page JetPage.stat_top JetPage.chart_labels JetPage.top_prefectures].
  destruct (jet_invariant_loop rows) as (_ & Hn & Hkn).
  destruct (most_common_head_max _ E) as [It Hmax].
  assert (Ht : counter_get (fst top) (Jet.prefectures (Jet.loop rows)) = snd top).
  { apply (counter_get_in _ _ _ Hn). now destruct top. }
  assert (Hd : forall n, hd_error (map fst (most_common (S n)
                                    (Jet.prefectures (Jet.loop rows))))
                         = Some (fst top)).
  { intro n. pose proof (most_common_heads n (Jet.prefectures (Jet.loop rows))) as H.
    rewrite E in H.
    destruct (most_common (S n) (Jet.prefectures (Jet.loop rows))); [discriminate|].
    simpl in H. injection H as ->. reflexivity. }
  split; [|split; [|split]].
  - apply (Hd 14).
  - apply (Hd 19).
  - assert (K : known_prefecture (fst top) = true).
    { apply Hkn. unfold keys. apply in_map_iff. now exists top. }
    unfold known_prefecture in K. apply andb_true_iff in K as [_ K].
    now apply (mem_in_keys _ String.eqb_eq).
  - intro p. rewrite Ht. unfold counter_get at 1.
    destruct (get String.eqb p (Jet.prefectures (Jet.loop rows))) as [v|] eqn:Gp.
    + apply (get_some_in _ String.eqb_eq) in Gp. exact (Hmax _ Gp).
    + rewrite <- Ht, jet_label_count. lia.
Qed.

Lemma top_prefecture_witness :
  let rows := [prefecture_row "Kyoto"; prefecture_row "Osaka";
               prefecture_row "Osaka-fu"; prefecture_row ""] in
  exists rep, JetPage.main rows = Run.Done rep
              /\ JetPage.stat_top (JetPage.page rep) = "Osaka"
              /\ hd_error (JetPage.chart_labels (JetPage.page rep)) = Some "Osaka".
Proof.
  intro rows.
  destruct (JetPage.main rows) as [rep|e] eqn:M; [|vm_compute in M; discriminate].
  exists rep. split; [reflexivity|].
  pose proof (top_prefecture rows M) as (H & _).
  assert (T : JetPage.stat_top (JetPage.page rep) = "Osaka").
  { vm_compute in M. injection M as <-. reflexivity. }
  split; [exact T|]. now rewrite <- T.
Defined.

Lemma state_names_distinct :
  forallb (fun kv1 =>
    forallb (fun kv2 =>
      String.eqb (fst kv1) (fst kv2) || negb (String.eqb (snd kv1) (snd kv2)))
      Residence.STATE_ABBREV) Residence.STATE_ABBREV = true.
Proof. vm_compute. reflexivity. Qed.

Lemma state_name_of_key (code : string) :
  mem String.eqb code Residence.STATE_ABBREV = true ->
  get String.eqb code Residence.STATE_ABBREV = Some (Residence.state_name code).
Proof.
  unfold mem, Residence.state_name.
  now destruct (get String.eqb code Residence.STATE_ABBREV).
Qed.

Lemma state_name_injective (c1 c2 : string) :
  mem String.eqb c1 Residence.STATE_ABBREV = true ->
  mem String.eqb c2 Residence.STATE_ABBREV = true ->
  Residence.state_name c1 = Residence.state_name c2 -> c1 = c2.
Proof.
  intros M1 M2 E.
  pose proof (get_some_in _ String.eqb_eq _ _ (state_name_of_key _ M1)) as I1.
  pose proof (get_some_in _ String.eqb_eq _ _ (state_name_of_key _ M2)) as I2.
  pose proof (proj1 (forallb_forall _ _) state_names_distinct _ I1) as H.
  pose proof (proj1 (forallb_forall _ _) H _ I2) as H'.
  cbv beta in H'. simpl fst in H'; simpl snd in H'.
  rewrite E, String.eqb_refl, orb_false_r in H'. now apply String.eqb_eq.
Qed.

Lemma in_somes (A : Type) (l : list (option A)) (a : A) :
  In a (somes l) <-> In (Some a) l.
Proof.
  induction l as [|[b|] l IH]; simpl.
  - tauto.
  - rewrite IH. split; intros [H|H]; auto; left; congruence.
  - rewrite IH. split; [auto|]. intros [H|H]; [discriminate | exact H].
Qed.

(** Every state the address loop counts is a key of [STATE_ABBREV]. *)
Lemma residence_states_known (rows : list row) (code : string) :
  In code (keys (Residence.states (Residence.loop rows))) ->
  mem String.eqb code Residence.STATE_ABBREV = true.
Proof.
  unfold Residence.loop. rewrite residence_states_labels. simpl Residence.states.
  intro H. apply (proj1 (@in_keys_count_labels _ code)) in H.
  unfold residence_labels in H.
  apply in_somes in H. apply in_map_iff in H as (r & L & _).
  unfold residence_label in L.
  destruct (Residence.parse_address (row_get "Address" r)) as [[c s] z] eqn:P.
  simpl in L. exact (parse_state_in_table _ P L).
Qed.

Lemma nodup_map_on (A B : Type) (f : A -> B) (l : list A) :
  NoDup l ->
  (forall x y, In x l -> In y l -> f x = f y -> x = y) ->
  NoDup (map f l).
Proof.
  induction 1 as [|a l Ha N IH]; intro Inj; simpl; constructor.
  - intro H. apply in_map_iff in H as (y & E & Hy).
    apply Inj in E; [|now right | now left]. now subst y.
  - apply IH. intros x y Hx Hy. apply Inj; now right.
Qed.

Lemma nodup_firstn (A : Type) (n : nat) (l : list A) : NoDup l -> NoDup (firstn n l).
Proof.
  intro N. rewrite <- (firstn_skipn n l) in N. now apply NoDup_app_remove_r in N.
Qed.

Lemma nodup_keys_most_common (n : nat) (c : Counter) :
  NoDup (keys c) -> NoDup (keys (most_common n c)).
Proof.
  intro N. unfold most_common, keys. rewrite <- firstn_map. apply nodup_firstn.
  rewrite sorted_desc_by_key.
  apply (Permutation_NoDup (Permutation_sym
           (Permutation_map fst (sorted_by_key_perm _ c)))). exact N.
Qed.

Lemma combine_fst_snd (A B : Type) (l : list (A * B)) :
  combine (map fst l) (map snd l) = l.
Proof. induction l as [|[a b] l IH]; simpl; [reflexivity | now rewrite IH]. Qed.

(** X18.  The bar chart of the address script.  It has one bar for each of
    the states counted, at most 15; its labels are full names of
    [STATE_ABBREV], never an abbreviation, and no two bars share a label;
    the value of a bar is the count of the state of that name, which is the
    number of rows with that state. *)
Theorem state_chart (rows : list row) :
  let st := Residence.loop rows in
  let pg := ResidencePage.generate_html (Residence.states st) (Residence.locations st)
              (Residence.total st) (Residence.parsed st) (Residence.geocoded st) in
  List.length (ResidencePage.chart_labels pg)
    = Nat.min 15 (List.length (Residence.states st))
  /\ List.length (ResidencePage.chart_values pg)
     = List.length (ResidencePage.chart_labels pg)
  /\ NoDup (ResidencePage.chart_labels pg)
  /\ forall label value,
       In (label, value)
          (combine (ResidencePage.chart_labels pg) (ResidencePage.chart_values pg)) ->
       exists code,
         get String.eqb code Residence.STATE_ABBREV = Some label
         /\ value = Z.of_nat (count_occ string_dec (residence_labels rows) code)
         /\ (1 <= value)%Z.
Proof.
  intros st pg. subst pg. unfold ResidencePage.generate_html.
  cbn [ResidencePage.chart_labels ResidencePage.chart_values].
  set (c := Residence.states st).
  assert (N : NoDup (keys c)).
  { subst c st. unfold Residence.loop. rewrite residence_states_labels.
    apply nodup_keys_count_labels. }
  assert (K : forall x, In x (most_common 15 c) ->
                        mem String.eqb (fst x) Residence.STATE_ABBREV = true).
  { intros x Hx. apply most_common_in in Hx. apply (residence_states_known rows).
    fold st. fold c. unfold keys. apply in_map_iff. now exists x. }
  rewrite !map_map. cbn [fst snd]. split; [|split; [|split]].
  - now rewrite length_map, most_common_length.
  - now rewrite !length_map.
  - rewrite <- (map_map fst Residence.state_name).
    apply nodup_map_on; [apply (@nodup_keys_most_common 15 c N)|].
    intros x y Hx Hy. unfold keys in Hx, Hy.
    apply in_map_iff in Hx as (x' & <- & Hx'). apply in_map_iff in Hy as (y' & <- & Hy').
    apply state_name_injective; now apply K.
  - intros label value H.
    rewrite <- (map_map fst Residence.state_name) in H.
    rewrite <- (combine_fst_snd (most_common 15 c)) in H at 1 2.
    rewrite map_map in H.
    assert (H' : exists x, In x (most_common 15 c)
                           /\ label = Residence.state_name (fst x)
                           /\ value = snd x).
    { clear - H. induction (most_common 15 c) as [|[k v] l IH]; simpl in H;
        [destruct H|].
      destruct H as [[= <- <-]|H].
      - exists (k, v). repeat split. now left.
      - destruct (IH H) as (x & Hx & E1 & E2). exists x. repeat split; auto.
        now right. }
    destruct H' as ([code v] & Hx & -> & ->). simpl fst; simpl snd.
    exists code. split; [apply state_name_of_key; exact (K _ Hx)|].
    apply most_common_in in Hx.
    pose proof (counter_get_in _ _ _ N Hx) as G.
    subst c st. rewrite residence_label_count in G.
    split; [now rewrite <- G|].
    assert (I : In code (residence_labels rows)).
    { apply (proj1 (@in_keys_count_labels (residence_labels rows) code)).
      pose proof (residence_states_labels rows Residence.init) as E.
      simpl in E. fold (Residence.loop rows) in E. rewrite <- E.
      unfold keys. apply in_map_iff. now exists (code, v). }
    apply (count_occ_In string_dec) in I. lia.
Qed.

Lemma state_chart_witness :
  let rows := [address_row "1 A St, Phoenix AZ 85001";
               address_row "2 B St, Fresno CA 93401";
               address_row "3 C St, Irvine CA 92602"] in
  let st := Residence.loop rows in
  let pg := ResidencePage.generate_html (Residence.states st) (Residence.locations st)
              (Residence.total st) (Residence.parsed st) (Residence.geocoded st) in
  combine (ResidencePage.chart_labels pg) (ResidencePage.chart_values pg)
    = [("California", 2%Z); ("Arizona", 1%Z)]
  /\ exists code, get String.eqb code Residence.STATE_ABBREV = Some "California"
                  /\ 2%Z = Z.of_nat (count_occ string_dec (residence_labels rows) code)
                  /\ (1 <= 2)%Z.
Proof.
  intros rows st pg.
  assert (E : combine (ResidencePage.chart_labels pg) (ResidencePage.chart_values pg)
              = [("California", 2%Z); ("Arizona", 1%Z)]) by (vm_compute; reflexivity).
  split; [exact E|].
  apply (proj2 (proj2 (proj2 (state_chart rows)))).
  fold st. fold pg. rewrite E. now left.
Defined.

(** X19.  The numbers of a page agree.  On the page of the address script
    the counts of the bubbles add up to the number in the subtitle, the
    number of unique areas is the number of bubbles, the total is the number
    of rows and the two state boxes show the numbers of rows with state CA
    and AZ.  On a completed page of the prefecture script the counts of the
    bubbles add up to the number with placement data, which is also the
    number in the subtitle, and there are as many bubbles as prefectures. *)
Theorem page_numbers_agree (rows : list row) :
  (let st := Residence.loop rows in
   let pg := ResidencePage.generate_html (Residence.states st)
               (Residence.locations st) (Residence.total st)
               (Residence.parsed st) (Residence.geocoded st) in
   total_count (ResidencePage.map_locations pg) = ResidencePage.subtitle_geocoded pg
   /\ ResidencePage.stat_areas pg = List.length (ResidencePage.map_locations pg)
   /\ ResidencePage.stat_total pg = Z.of_nat (List.length rows)
   /\ ResidencePage.stat_california pg
      = Z.of_nat (count_occ string_dec (residence_labels rows) "CA")
   /\ ResidencePage.stat_arizona pg
      = Z.of_nat (count_occ string_dec (residence_labels rows) "AZ"))
  /\ (forall rep,
        JetPage.main rows = Run.Done rep ->
        let pg := JetPage.page rep in
        total_count (JetPage.map_locations pg) = JetPage.stat_mapped pg
        /\ JetPage.subtitle_mapped pg = JetPage.stat_mapped pg
        /\ JetPage.stat_prefectures pg = List.length (JetPage.map_locations pg)
        /\ JetPage.stat_prefectures pg = JetPage.represented rep
        /\ JetPage.stat_total pg = Z.of_nat (List.length rows)).
Proof.
  split.
  - intros st pg. subst pg st. unfold ResidencePage.generate_html.
    cbn [ResidencePage.map_locations ResidencePage.subtitle_geocoded
         ResidencePage.stat_areas ResidencePage.stat_total
         ResidencePage.stat_california ResidencePage.stat_arizona].
    split; [apply residence_buckets_sum|].
    split; [unfold values; now rewrite length_map|].
    split; [apply residence_total_rows|].
    split; apply residence_label_count.
  - intros rep M. unfold JetPage.main in M.
    destruct (floordiv _ _) as [pc|]; [|discriminate].
    destruct (jet_generate_html_outcome (Jet.prefectures (Jet.loop rows))
                (Jet.locations (Jet.loop rows)) (Jet.total (Jet.loop rows))
                (Jet.mapped (Jet.loop rows))) as [Hnil Hsome].
    destruct (Jet.prefectures (Jet.loop rows)) as [|x c'] eqn:C.
    { rewrite (Hnil eq_refl) in M. discriminate. }
    rewrite <- C in *.
    destruct Hsome as (top & rest & E & G); [rewrite C; discriminate|].
    rewrite G in M. injection M as <-.
    cbn [JetPage.page JetPage.map_locations JetPage.stat_mapped
         JetPage.subtitle_mapped JetPage.stat_prefectures JetPage.represented
         JetPage.stat_total].
    destruct (jet_invariant_loop rows) as (Hk & _).
    split; [apply jet_buckets_sum|]. split; [reflexivity|].
    split; [|split; [reflexivity | apply jet_total_rows]].
    apply (f_equal (@List.length _)) in Hk. unfold keys, values in *.
    rewrite !length_map in Hk. now rewrite length_map.
Qed.

Lemma page_numbers_agree_witness :
  let rows := [prefecture_row "Mie"; prefecture_row "?"; prefecture_row "Mie-ken"] in
  exists rep, JetPage.main rows = Run.Done rep
              /\ total_count (JetPage.map_locations (JetPage.page rep)) = 2%Z.
Proof.
  intro rows.
  destruct (JetPage.main rows) as [rep|e] eqn:M; [|vm_compute in M; discriminate].
  exists rep. split; [reflexivity|].
  destruct (proj2 (page_numbers_agree rows) rep M) as (H & _).
  rewrite H. vm_compute in M. injection M as <-. reflexivity.
Defined.

(** ** The colours of the bubbles *)

(** X20.  The colour scales follow the legends.  On either page the colour
    of a bubble with a count of at least 1 is the colour of a legend band
    that holds the count.  On the address page that band is the only one; on
    the prefecture page the bands [36-50] and [50+] both hold the count 50,
    which is the only such count and takes the colour of [50+]. *)
Theorem colours_follow_legend (count : Z) :
  (1 <= count)%Z ->
  (exists b, In b ResidencePage.legend /\ Run.in_band count b = true
             /\ Run.band_color b = ResidencePage.getColor count)
  /\ (forall b b', In b ResidencePage.legend -> In b' ResidencePage.legend ->
        Run.in_band count b = true -> Run.in_band count b' = true -> b = b')
  /\ (exists b, In b JetPage.legend /\ Run.in_band count b = true
                /\ Run.band_color b = JetPage.getColor count)
  /\ (count <> 50%Z ->
      forall b b', In b JetPage.legend -> In b' JetPage.legend ->
        Run.in_band count b = true -> Run.in_band count b' = true -> b = b')
  /\ (count = 50%Z ->
      Run.in_band count ("#ff6b35", 36, Some 50)%Z = true
      /\ Run.in_band count ("#e63946", 50, None)%Z = true
      /\ JetPage.getColor count = "#e63946").
Proof.
  intro H1. split; [|split; [|split; [|split]]].
  - unfold ResidencePage.getColor, ResidencePage.legend.
    destruct (Z.leb_spec 20 count); [|destruct (Z.leb_spec 10 count);
      [|destruct (Z.leb_spec 5 count); [|destruct (Z.leb_spec 3 count)]]].
    + exists ("#ff2d55", 20, None)%Z. split; [simpl; tauto|].
      split; [|reflexivity]. simpl. rewrite andb_true_iff, Z.leb_le. lia.
    + exists ("#ff6b35", 10, Some 19)%Z. split; [simpl; tauto|].
      split; [|reflexivity]. simpl. rewrite andb_true_iff, !Z.leb_le. lia.
    + exists ("#ffbe0b", 5, Some 9)%Z. split; [simpl; tauto|].
      split; [|reflexivity]. simpl. rewrite andb_true_iff, !Z.leb_le. lia.
    + exists ("#8ac926", 3, Some 4)%Z. split; [simpl; tauto|].
      split; [|reflexivity]. simpl. rewrite andb_true_iff, !Z.leb_le. lia.
    + exists ("#00b4d8", 1, Some 2)%Z. split; [simpl; tauto|].
      split; [|reflexivity]. simpl. rewrite andb_true_iff, !Z.leb_le. lia.
  - intros b b' Hb Hb' I I'. unfold ResidencePage.legend in *. simpl in Hb, Hb'.
    repeat (destruct Hb as [<-|Hb]); try destruct Hb;
      repeat (destruct Hb' as [<-|Hb']); try destruct Hb'; try reflexivity;
      simpl in I, I'; rewrite ?andb_true_iff, ?Z.leb_le in I, I'; lia.
  - unfold JetPage.getColor, JetPage.legend.
    destruct (Z.leb_spec 50 count); [|destruct (Z.leb_spec 36 count);
      [|destruct (Z.leb_spec 26 count); [|destruct (Z.leb_spec 16 count)]]].
    + exists ("#e63946", 50, None)%Z. split; [simpl; tauto|].
      split; [|reflexivity]. simpl. rewrite andb_true_iff, Z.leb_le. lia.
    + exists ("#ff6b35", 36, Some 50)%Z. split; [simpl; tauto|].
      split; [|reflexivity]. simpl. rewrite andb_true_iff, !Z.leb_le. lia.
    + exists ("#ffbe0b", 26, Some 35)%Z. split; [simpl; tauto|].
      split; [|reflexivity]. simpl. rewrite andb_true_iff, !Z.leb_le. lia.
    + exists ("#8ac926", 16, Some 25)%Z. split; [simpl; tauto|].
      split; [|reflexivity]. simpl. rewrite andb_true_iff, !Z.leb_le. lia.
    + exists ("#00b4d8", 1, Some 15)%Z. split; [simpl; tauto|].
      split; [|reflexivity]. simpl. rewrite andb_true_iff, !Z.leb_le. lia.
  - intros Hne b b' Hb Hb' I I'. unfold JetPage.legend in *. simpl in Hb, Hb'.
    repeat (destruct Hb as [<-|Hb]); try destruct Hb;
      repeat (destruct Hb' as [<-|Hb']); try destruct Hb'; try reflexivity;
      simpl in I, I'; rewrite ?andb_true_iff, ?Z.leb_le in I, I'; lia.
  - intros ->. repeat split.
Qed.

Lemma colours_follow_legend_witness :
  ResidencePage.getColor 7 = "#ffbe0b"
  /\ exists b, In b JetPage.legend /\ Run.in_band 7 b = true
               /\ Run.band_color b = JetPage.getColor 7.
Proof.
  split; [reflexivity|].
  assert (H : (1 <= 7)%Z) by lia.
  exact (proj1 (proj2 (proj2 (colours_follow_legend H)))).
Defined.

(** ** The listing of the top locations *)

Lemma sorted_firstn (A : Type) (R : A -> A -> Prop) (n : nat) (l : list A) :
  StronglySorted R l -> StronglySorted R (firstn n l).
Proof.
  intro S. revert n. induction S as [|a l S IH F]; intro n.
  - destruct n; constructor.
  - destruct n as [|n]; simpl; constructor; [apply IH|].
    apply Forall_forall. intros x Hx.
    apply (proj1 (Forall_forall _ _) F). now apply (in_firstn n).
Qed.

Lemma sorted_weaken (A : Type) (R R' : A -> A -> Prop) (l : list A) :
  StronglySorted R l -> (forall x y, R x y -> R' x y) -> StronglySorted R' l.
Proof.
  intros S W. induction S as [|a l S IH F]; constructor; [exact IH|].
  apply Forall_forall. intros y Hy. apply W.
  exact (proj1 (Forall_forall _ _) F y Hy).
Qed.

(** X21.  The listing of the top locations.  The buckets printed under
    "Top Locations" are buckets of the dictionary, 25 of them or as many as
    there are, in an order in which the count never goes up, and no bucket
    left out counts more than one that is printed. *)
Theorem top_locations_listing (locations : locations_t) :
  let top := ResidencePage.sorted_locs locations in
  List.length top = Nat.min 25 (List.length locations)
  /\ (forall b, In b top -> In b (values locations))
  /\ StronglySorted (fun x y => (count y <= count x)%Z) top
  /\ (forall x y, In x top -> In y (values locations) -> ~ In y top ->
        (count y <= count x)%Z).
Proof.
  intro top. subst top. unfold ResidencePage.sorted_locs.
  split; [|split; [|split]].
  - rewrite first_sorted_length. unfold values. now rewrite length_map.
  - intro b. apply first_sorted_in.
  - apply sorted_firstn.
    apply (@sorted_weaken _ _ _ _ (sorted_by_key_sorted (fun x => (- count x)%Z)
                                     (values locations))).
    intros x y K. unfold key_order in K. lia.
  - intros x y Hx Hy Hny.
    pose proof (@first_sorted_least _ _ _ _ _ _ Hx Hy Hny) as H.
    unfold key_order in H. lia.
Qed.
